(** * daemon/create.go: container creation and image delta synthesis

    A shallow embedding of [src/daemon/create.go] and the properties of it
    that the specification states.

    Conventions of the embedding.
    - A Go [error] is a value of [error]; a call that returns [(T, error)]
      returns a [result T].
    - A Go slice of strings is an [option (list string)]: [None] is the
      [nil] slice, [Some l] a non-nil slice with elements [l].  [len] is
      0 on both [None] and [Some []], as in Go.
    - A pointer that may be [nil] is an [option].
    - Functions of other packages (the layer and image stores, the
      SELinux label package, [net.ParseIP], ...) are parameters: Section
      variables, or fields of a record of collaborators. *)

From Stdlib Require Import ZArith List String Ascii Bool Lia.
From Stdlib Require Import Floats.SpecFloat.
From stdpp Require Import gmap strings list.

Open Scope string_scope.
Open Scope list_scope.

(** ** Errors and results *)

(** [fmt.Errorf] and [errors.New] build an error from a message,
    [apierrors.NewBadRequestError] and [errors.Wrapf] wrap one. *)
Inductive error : Type :=
| Errorf (msg : string)
| NewBadRequestError (e : error)
| Wrapf (e : error) (msg : string).

Inductive result (A : Type) : Type :=
| Ok (a : A)
| Fail (e : error).
Arguments Ok {A} a.
Arguments Fail {A} e.

(** ** Slices of strings *)

Definition strslice := option (list string).

Definition len (s : strslice) : nat :=
  match s with
  | None => 0
  | Some l => length l
  end.

Definition elems (s : strslice) : list string :=
  match s with
  | None => []
  | Some l => l
  end.

(** [strings.Split(s, "=")[0]]: the part of [s] before its first ["="],
    all of [s] when it has none.  [Split] never returns an empty slice
    for a non-empty separator, so index 0 always exists. *)
Fixpoint Split0 (s : string) : string :=
  match s with
  | EmptyString => EmptyString
  | String a r => if Ascii.eqb a "="%char then EmptyString else String a (Split0 r)
  end.

(** ** Configuration structures *)

Record Config : Type := mkConfig {
  Image : string;
  Entrypoint : strslice;
  Cmd : strslice;
  Env : strslice;
  Labels : list (string * string)
}.

Record HostConfig : Type := mkHostConfig {
  SecurityOpt : list string;
  IpcMode : string;
  PidMode : string;
  Privileged : bool;
  NetworkMode : string;
  Runtime : string;
  StorageOpt : list (string * string);
  LogConfig : string * list (string * string)
}.

Record EndpointIPAMConfig : Type := mkIPAM {
  IPv4Address : string;
  IPv6Address : string
}.

Record EndpointSettings : Type := mkEndpoint {
  IPAMConfig : option EndpointIPAMConfig
}.

(** ** Security labels: [toHostConfigSelinuxLabels], [generateSecurityOpt] *)

Module Labels.

(** [toHostConfigSelinuxLabels]: every element is overwritten in place
    with ["label=" + l]; the [nil] slice has no element and stays [nil]. *)
Definition toHostConfigSelinuxLabels (labels : strslice) : strslice :=
  match labels with
  | None => None
  | Some l => Some (map (fun l => "label=" +:+ l) l)
  end.

(** What a call of [generateSecurityOpt] does: it returns labels, returns
    an error, or stops in a run-time panic (index out of range). *)
Inductive outcome : Type :=
| Ret (labels : strslice)
| Err (e : error)
| Panic (index : nat) (length : nat).

Definition ErrLabelsDiffer : error :=
  Errorf "--ipc and --pid containers SELinux labels aren't the same".

(** The loop of lines 238-242, [for i := 0; i < len(pidLabel); i++], run
    over the indices that remain.  [ipcLabel[i]] panics when
    [i >= len(ipcLabel)]. *)
Fixpoint compareFrom (pidLabel ipcLabel : list string) (indices : list nat)
  : option outcome :=
  match indices with
  | [] => None
  | i :: rest =>
      match pidLabel !! i, ipcLabel !! i with
      | Some p, Some q =>
          if String.eqb p q then compareFrom pidLabel ipcLabel rest
          else Some (Err ErrLabelsDiffer)
      | Some _, None => Some (Panic i (length ipcLabel))
      | None, _ => Some (Panic i (length pidLabel))
      end
  end.

(** Lines 237-245. *)
Definition compareLabels (ipcLabel pidLabel : strslice) : outcome :=
  match pidLabel, ipcLabel with
  | Some pid, Some ipc =>
      match compareFrom pid ipc (seq 0 (length pid)) with
      | Some stop => stop
      | None => Ret (toHostConfigSelinuxLabels pidLabel)
      end
  | _, _ => Ret None
  end.

(** What [generateSecurityOpt] uses of the daemon and of other packages. *)
Record LabelEnv : Type := mkLabelEnv {
  (** [daemon.GetContainer], as far as this function reads its result:
      the process label of the container a name resolves to. *)
  GetContainer : string -> result string;
  (** [label.DupSecOpt] and [label.DisableSecOpt] of the SELinux label
      package. *)
  DupSecOpt : string -> strslice;
  DisableSecOpt : strslice;
  (** The methods [IsHost] and [Container] of [IpcMode] and [PidMode]. *)
  IpcIsHost : string -> bool;
  PidIsHost : string -> bool;
  IpcContainer : string -> string;
  PidContainer : string -> string
}.

(** Lines 211-246, after the modes have been read. *)
Definition labelsOfPeers (d : LabelEnv) (ipcContainer pidContainer : string) : outcome :=
  let fromIpc : outcome + strslice :=
    if negb (String.eqb ipcContainer "") then
      match GetContainer d ipcContainer with
      | Fail e => inl (Err e)
      | Ok processLabel =>
          let ipcLabel := DupSecOpt d processLabel in
          if String.eqb pidContainer ""
          then inl (Ret (toHostConfigSelinuxLabels ipcLabel))
          else inr ipcLabel
      end
    else inr None in
  match fromIpc with
  | inl out => out
  | inr ipcLabel =>
      let fromPid : outcome + strslice :=
        if negb (String.eqb pidContainer "") then
          match GetContainer d pidContainer with
          | Fail e => inl (Err e)
          | Ok processLabel =>
              let pidLabel := DupSecOpt d processLabel in
              if String.eqb ipcContainer ""
              then inl (Ret (toHostConfigSelinuxLabels pidLabel))
              else inr pidLabel
          end
        else inr None in
      match fromPid with
      | inl out => out
      | inr pidLabel => compareLabels ipcLabel pidLabel
      end
  end.

Definition generateSecurityOpt (d : LabelEnv) (hostConfig : HostConfig) : outcome :=
  if existsb (fun opt => String.eqb (Split0 opt) "label") (SecurityOpt hostConfig)
  then Ret None
  else
    let ipcMode := IpcMode hostConfig in
    let pidMode := PidMode hostConfig in
    let privileged := Privileged hostConfig in
    if IpcIsHost d ipcMode || PidIsHost d pidMode || privileged
    then Ret (toHostConfigSelinuxLabels (DisableSecOpt d))
    else labelsOfPeers d (IpcContainer d ipcMode) (PidContainer d pidMode).

End Labels.

(** ** Networking configuration: [verifyNetworkingConfig] *)

Module Network.

(** A [net.IP] is a slice of bytes; [None] is the [nil] address that
    [net.ParseIP] returns for text that is no address. *)
Definition IP := option (list N).

(** [net.ParseIP] and the method [To4] of [net.IP]. *)
Record NetPkg : Type := mkNetPkg {
  ParseIP : string -> IP;
  To4 : IP -> IP
}.

(** [EndpointsConfig] is a Go map from network names to pointers.  It is
    kept as the list of its entries in the order in which [range] yields
    them in the run at hand: the names are pairwise distinct, the order is
    any.  [len] of the map is the length of the list. *)
Record NetworkingConfig : Type := mkNetworkingConfig {
  EndpointsConfig : list (string * option EndpointSettings)
}.

Definition isNil (ip : IP) : bool :=
  match ip with
  | None => true
  | Some _ => false
  end.

(** Lines 320-332: the checks on one endpoint; [Some] is the error that
    is returned from inside the loop. *)
Definition checkEndpoint (net : NetPkg) (v : option EndpointSettings) : option error :=
  match v with
  | Some (mkEndpoint (Some ipam)) =>
      if negb (String.eqb (IPv4Address ipam) "")
         && isNil (To4 net (ParseIP net (IPv4Address ipam)))
      then Some (NewBadRequestError
                   (Errorf ("invalid IPv4 address: " +:+ IPv4Address ipam)))
      else
        if negb (String.eqb (IPv6Address ipam) "") then
          let n := ParseIP net (IPv6Address ipam) in
          if isNil n || negb (isNil (To4 net n))
          then Some (NewBadRequestError
                       (Errorf ("invalid IPv6 address: " +:+ IPv6Address ipam)))
          else None
        else None
  | _ => None
  end.

(** The [for _, v := range] of lines 319-333. *)
Fixpoint checkEndpoints (net : NetPkg) (entries : list (string * option EndpointSettings))
  : option error :=
  match entries with
  | [] => None
  | (_, v) :: rest =>
      match checkEndpoint net v with
      | Some e => Some e
      | None => checkEndpoints net rest
      end
  end.

(** [strings.Join(l, sep)]. *)
Definition Join (l : list string) (sep : string) : string := String.concat sep l.

(** [None] is the [nil] error. *)
Definition verifyNetworkingConfig (net : NetPkg) (nwConfig : option NetworkingConfig)
  : option error :=
  match nwConfig with
  | None => None
  | Some cfg =>
      if Nat.eqb (length (EndpointsConfig cfg)) 0 then None
      else if Nat.eqb (length (EndpointsConfig cfg)) 1 then
        checkEndpoints net (EndpointsConfig cfg)
      else
        let l := map fst (EndpointsConfig cfg) in
        let err := Errorf ("Container cannot be connected to network endpoints: "
                           +:+ Join l ", ") in
        Some (NewBadRequestError err)
  end.

End Network.

(** ** Images *)

Definition DiffID := string.

Module image.

(** [image.Image]: [ID] and [RawJSON] are its methods [ID()] and
    [RawJSON()], [RootFS] is the list [RootFS.DiffIDs]. *)
Record Image : Type := mkImage {
  ID : string;
  OS : string;
  Config : option Config;
  RootFS : list DiffID;
  RawJSON : string
}.

End image.

(** ** Merging the process configuration: [mergeAndVerifyConfig] *)

Module Merge.

Definition ErrNoCommand : error := Errorf "No command specified".

(** The condition of line 303. *)
Definition isEmptyEntrypoint (e : strslice) : bool :=
  match e with
  | Some [s] => String.eqb s ""
  | _ => false
  end.

(** Lines 303-305. *)
Definition resetEntrypoint (config : Config) : Config :=
  if isEmptyEntrypoint (Entrypoint config)
  then mkConfig (Image config) None (Cmd config) (Env config) (Labels config)
  else config.

Section WithMerge.

(** [merge(userConf, imageConf)] of the daemon package writes the image's
    defaults into [userConf] in place: it yields the configuration that
    [userConf] holds afterwards and its error. *)
Variable merge : Config -> Config -> Config * option error.

(** [config] is a pointer to the caller's configuration: the functions
    yield what that object holds afterwards, and the error.
    Lines 297-301. *)
Definition mergeImageConfig (config : Config) (img : option image.Image)
  : Config * option error :=
  match img with
  | Some (image.mkImage _ _ (Some imgConfig) _ _) => merge config imgConfig
  | _ => (config, None)
  end.

Definition mergeAndVerifyConfig (config : Config) (img : option image.Image)
  : Config * option error :=
  match mergeImageConfig config img with
  | (config, Some err) => (config, Some err)
  | (config, None) =>
      let config := resetEntrypoint config in
      if Nat.eqb (len (Entrypoint config)) 0 && Nat.eqb (len (Cmd config)) 0
      then (config, Some ErrNoCommand)
      else (config, None)
  end.

End WithMerge.

End Merge.

(** ** A state and error monad

    [M S A] is a computation on a state [S] that returns an [A] or an
    error; an error stops the rest of the function, as
    [if err != nil { return nil, err }] does. *)

Definition M (S A : Type) : Type := S -> S * result A.

Definition ret {S A : Type} (a : A) : M S A := fun s => (s, Ok a).

Definition fail {S A : Type} (e : error) : M S A := fun s => (s, Fail e).

Definition bind {S A B : Type} (m : M S A) (k : A -> M S B) : M S B :=
  fun s =>
    match m s with
    | (s', Ok a) => k a s'
    | (s', Fail e) => (s', Fail e)
    end.

Definition gets {S A : Type} (f : S -> A) : M S A := fun s => (s, Ok (f s)).

Definition modify {S : Type} (f : S -> S) : M S unit := fun s => (f s, Ok tt).

Notation "'let*' x ':=' c 'in' k" := (bind c (fun x => k))
  (at level 10, x pattern, c at level 100, k at level 200).

(** ** Container creation: [containerCreate], [create], [setRWLayer] *)

Module container.

(** [container.Container], the fields that [create.go] reads or writes.
    [HostConfig] is the object behind the pointer [container.HostConfig],
    [RWLayer] the name of the layer, [None] before [setRWLayer]. *)
Record Container : Type := mkContainer {
  ID : string;
  ImageID : string;
  Platform : string;
  ProcessLabel : string;
  MountLabel : string;
  Root : string;
  HostConfig : HostConfig;
  RWLayer : option string
}.

End container.

Module Create.

(** [types.ContainerCreateConfig] is passed by value; its fields [Config]
    and [HostConfig] are pointers to objects of the caller, which are kept
    in the state below. *)
Record ContainerCreateConfig : Type := mkParams {
  Name : string;
  Platform : string;
  NetworkingConfig : option Network.NetworkingConfig;
  AdjustCPUShares : bool
}.

Record ContainerCreateCreatedBody : Type := mkBody {
  BodyID : string;
  Warnings : list string
}.

(** [layer.CreateRWLayerOpts]; [InitFunc] is [None] for the [nil] function. *)
Record CreateRWLayerOpts : Type := mkRWLayerOpts {
  OptMountLabel : string;
  InitFunc : option string;
  OptStorageOpt : list (string * string)
}.

Section WithWorld.

(** Everything the daemon owns outside this file: its tables of
    containers, the layer and image stores, the file system, the log. *)
Context {W : Type}.

(** The state while [create] runs, before the container object exists:
    the daemon's world and the two objects of the caller that
    [params.Config] and [params.HostConfig] point to. *)
Record Store : Type := mkStore {
  world : W;
  config : Config;
  hostConfig : HostConfig
}.

(** The state once [newContainer] has allocated the container object. *)
Record Live : Type := mkLive {
  store : Store;
  ctr : container.Container
}.

(** The functions of the daemon and of other packages that [create.go]
    calls.  A function that receives a pointer to one of the objects of
    the state may write to it, so it is a computation on the state. *)
Record Daemon : Type := mkDaemon {
  GOOS : string;
  LCOWSupported : bool;
  GetImage : string -> M Store image.Image;
  ImagePlatform : image.Image -> string;
  merge : Config -> Config -> Config * option error;
  mergeAndVerifyLogConfig : M Store unit;
  newContainer : string -> string -> string -> bool -> M Store container.Container;
  cleanupContainer : bool -> bool -> M Live unit;
  logrusErrorf : error -> Live -> Live;
  setSecurityOptions : M Live unit;
  imageStoreGet : string -> string -> M Live image.Image;
  ChainID : list DiffID -> string;
  getLayerInit : option string;
  CreateRWLayer : string -> string -> string -> CreateRWLayerOpts -> M Live string;
  RootPair : nat * nat;
  MkdirAndChown : string -> nat * nat -> M Live unit;
  CheckpointDir : container.Container -> string;
  setHostConfig : M Live unit;
  createContainerPlatformSpecificSettings : M Live unit;
  SetDefaultNetModeIfBlank : Live -> Live;
  updateContainerNetworkSettings :
    list (string * option EndpointSettings) -> Live -> Live;
  Register : M Live unit;
  stateCtrSet : string -> string -> Live -> Live;
  LogContainerEvent : string -> Live -> Live;
  (** Used by [containerCreate] only. *)
  verifyContainerSettings :
    option HostConfig -> Config -> bool -> W ->
    W * option HostConfig * Config * (list string * option error);
  netPkg : Network.NetPkg;
  adaptContainerSettings : bool -> M Store unit;
  imageNotExistToErrcode : error -> error
}.

Definition setContainerRWLayer (rwLayer : string) (s : Live) : Live :=
  let c := ctr s in
  mkLive (store s)
    (container.mkContainer (container.ID c) (container.ImageID c)
       (container.Platform c) (container.ProcessLabel c)
       (container.MountLabel c) (container.Root c)
       (container.HostConfig c) (Some rwLayer)).

(** Line 149: [container.HostConfig.StorageOpt = params.HostConfig.StorageOpt]. *)
Definition setContainerStorageOpt (s : Live) : Live :=
  let c := ctr s in
  let h := container.HostConfig c in
  mkLive (store s)
    (container.mkContainer (container.ID c) (container.ImageID c)
       (container.Platform c) (container.ProcessLabel c)
       (container.MountLabel c) (container.Root c)
       (mkHostConfig (SecurityOpt h) (IpcMode h) (PidMode h) (Privileged h)
          (NetworkMode h) (Runtime h) (StorageOpt (hostConfig (store s)))
          (LogConfig h))
       (container.RWLayer c)).

(** Lines 248-276. *)
Definition setRWLayer (d : Daemon) (runtime : string) : M Live unit :=
  let* c := gets ctr in
  let* layerID :=
    (if negb (String.eqb (container.ImageID c) "") then
       let* img := imageStoreGet d (container.Platform c) (container.ImageID c) in
       ret (ChainID d (image.RootFS img))
     else ret "") in
  let initFunc := if String.eqb runtime "bare" then None else getLayerInit d in
  let* c := gets ctr in
  let rwLayerOpts :=
    mkRWLayerOpts (container.MountLabel c) initFunc
      (StorageOpt (container.HostConfig c)) in
  let* rwLayer := CreateRWLayer d (container.Platform c) (container.ID c) layerID rwLayerOpts in
  modify (setContainerRWLayer rwLayer).

(** Lines 145-186: the part of [create] that the deferred function
    guards. *)
Definition afterAllocation (d : Daemon) (params : ContainerCreateConfig)
  : M Live unit :=
  let* _ := setSecurityOptions d in
  let* _ := modify setContainerStorageOpt in
  let* runtime := gets (fun s => Runtime (hostConfig (store s))) in
  let* _ := setRWLayer d runtime in
  let rootIDs := RootPair d in
  let* root := gets (fun s => container.Root (ctr s)) in
  let* _ := MkdirAndChown d root rootIDs in
  let* checkpointDir := gets (fun s => CheckpointDir d (ctr s)) in
  let* _ := MkdirAndChown d checkpointDir rootIDs in
  let* _ := setHostConfig d in
  let* _ := createContainerPlatformSpecificSettings d in
  let endpointsConfigs :=
    match NetworkingConfig params with
    | Some nw => Network.EndpointsConfig nw
    | None => []
    end in
  let* _ := modify (SetDefaultNetModeIfBlank d) in
  let* _ := modify (updateContainerNetworkSettings d endpointsConfigs) in
  let* _ := Register d in
  let* id := gets (fun s => container.ID (ctr s)) in
  let* _ := modify (stateCtrSet d id "stopped") in
  modify (LogContainerEvent d "create").

(** The steps of [afterAllocation] that can fail, in the order of the
    source: security labels (line 145), RWLayer (149-154), root
    directory (156-159), checkpoint directory (160-162), host
    configuration (164-166), platform-specific settings (168-170),
    registration (172-183). *)
Definition laterSteps (d : Daemon) (params : ContainerCreateConfig)
  : list (M Live unit) :=
  [ setSecurityOptions d;
    (let* _ := modify setContainerStorageOpt in
     let* runtime := gets (fun s => Runtime (hostConfig (store s))) in
     setRWLayer d runtime);
    (let* root := gets (fun s => container.Root (ctr s)) in
     MkdirAndChown d root (RootPair d));
    (let* checkpointDir := gets (fun s => CheckpointDir d (ctr s)) in
     MkdirAndChown d checkpointDir (RootPair d));
    setHostConfig d;
    createContainerPlatformSpecificSettings d;
    (let endpointsConfigs :=
       match NetworkingConfig params with
       | Some nw => Network.EndpointsConfig nw
       | None => []
       end in
     let* _ := modify (SetDefaultNetModeIfBlank d) in
     let* _ := modify (updateContainerNetworkSettings d endpointsConfigs) in
     Register d) ].

(** Lines 184-185, which cannot fail. *)
Definition announceCreated (d : Daemon) : M Live unit :=
  let* id := gets (fun s => container.ID (ctr s)) in
  let* _ := modify (stateCtrSet d id "stopped") in
  modify (LogContainerEvent d "create").

Fixpoint runSteps (steps : list (M Live unit)) : M Live unit :=
  match steps with
  | [] => ret tt
  | step :: rest => let* _ := step in runSteps rest
  end.

(** [FailsAt steps k s s' e]: run from [s], the steps before the [k]-th
    succeed and the [k]-th returns the error [e], in the state [s']. *)
Inductive FailsAt : list (M Live unit) -> nat -> Live -> Live -> error -> Prop :=
| FailsHere step rest s s' e :
    step s = (s', Fail e) ->
    FailsAt (step :: rest) 0 s s' e
| FailsLater step rest k s s1 s' e :
    step s = (s1, Ok tt) ->
    FailsAt rest k s1 s' e ->
    FailsAt (step :: rest) (S k) s s' e.

(** Lines 137-143: the deferred function, run when [create] returns
    with [retErr != nil]. *)
Definition deferredCleanup (d : Daemon) (s : Live) : Live :=
  match cleanupContainer d true true s with
  | (s', Fail err) => logrusErrorf d err s'
  | (s', Ok _) => s'
  end.

(** Lines 126-128, on the object [params.Config] points to. *)
Definition mergeAndVerifyConfig (d : Daemon) (img : option image.Image)
  : M Store unit :=
  fun s =>
    match Merge.mergeAndVerifyConfig (merge d) (config s) img with
    | (config', Some err) => (mkStore (world s) config' (hostConfig s), Fail err)
    | (config', None) => (mkStore (world s) config' (hostConfig s), Ok tt)
    end.

(** Lines 93-136: [create] up to the allocation of the container. *)
Definition beforeAllocation (d : Daemon) (params : ContainerCreateConfig)
    (managed : bool) : M Store container.Container :=
  let platform := if String.eqb (Platform params) "" then GOOS d else Platform params in
  let platform := if LCOWSupported d then "linux" else platform in
  let* imageRef := gets (fun s => Image (config s)) in
  let* found :=
    (if negb (String.eqb imageRef "") then
       let* img := GetImage d imageRef in
       if String.eqb (GOOS d) "solaris" && negb (String.eqb (image.OS img) "solaris ")
       then fail (Errorf "platform on which parent image was created is not Solaris")
       else
         let imgID := image.ID img in
         if String.eqb (GOOS d) "windows" && String.eqb (image.OS img) "linux"
            && negb (LCOWSupported d)
         then fail (Errorf "platform on which parent image was created is not Windows")
         else ret (Some img, imgID)
     else ret (None, "")) in
  let img := fst found in
  let imgID := snd found in
  let* _ :=
    match img with
    | Some i =>
        if negb (String.eqb platform (ImagePlatform d i)) && negb (LCOWSupported d)
        then fail (Errorf ("cannot create a " +:+ platform +:+ " container from a "
                           +:+ ImagePlatform d i +:+ " image"))
        else ret tt
    | None => ret tt
    end in
  let* _ := mergeAndVerifyConfig d img in
  let* _ := mergeAndVerifyLogConfig d in
  newContainer d (Name params) platform imgID managed.

(** Lines 82-187. *)
Definition create (d : Daemon) (params : ContainerCreateConfig) (managed : bool)
  : M Store container.Container :=
  fun s =>
    match beforeAllocation d params managed s with
    | (s0, Fail err) => (s0, Fail err)
    | (s0, Ok c) =>
        match afterAllocation d params (mkLive s0 c) with
        | (s1, Ok _) => (store s1, Ok (ctr s1))
        | (s1, Fail retErr) => (store (deferredCleanup d s1), Fail retErr)
        end
    end.

(** What the caller of [containerCreate] holds: the world and the two
    pointers of [params], [None] for [nil]. *)
Record Caller : Type := mkCaller {
  callerWorld : W;
  callerConfig : option Config;
  callerHostConfig : option HostConfig
}.

(** What a pointer refers to after a call that was given it: a [nil]
    pointer stays [nil], another one refers to the object as the call
    left it. *)
Definition pointee {A : Type} (ptr after : option A) : option A :=
  match ptr, after with
  | None, _ => None
  | Some _, Some a => Some a
  | Some a, None => Some a
  end.

(** The zero value [&containertypes.HostConfig{}]. *)
Definition emptyHostConfig : HostConfig :=
  mkHostConfig [] "" "" false "" "" [] ("", []).

(** Lines 48-79.  The metrics timer of lines 49 and 76 is left out. *)
Definition containerCreate (d : Daemon) (params : ContainerCreateConfig)
    (managed : bool) (s : Caller)
  : Caller * (ContainerCreateCreatedBody * option error) :=
  match callerConfig s with
  | None =>
      (s, (mkBody "" [],
           Some (Errorf "Config cannot be empty in order to create a container")))
  | Some cfg =>
      match verifyContainerSettings d (callerHostConfig s) cfg false (callerWorld s) with
      | (w, hc, cfg, (warnings, Some err)) =>
          (mkCaller w (Some cfg) (pointee (callerHostConfig s) hc),
           (mkBody "" warnings, Some err))
      | (w, hc, cfg, (warnings, None)) =>
          let hcAfter := pointee (callerHostConfig s) hc in
          match Network.verifyNetworkingConfig (netPkg d) (NetworkingConfig params) with
          | Some err => (mkCaller w (Some cfg) hcAfter, (mkBody "" warnings, Some err))
          | None =>
              let supplied := match hcAfter with None => false | Some _ => true end in
              let hostCfg := match hcAfter with None => emptyHostConfig | Some h => h end in
              let back (st : Store) : Caller :=
                mkCaller (world st) (Some (config st))
                  (if supplied then Some (hostConfig st) else None) in
              match adaptContainerSettings d (AdjustCPUShares params) (mkStore w cfg hostCfg) with
              | (st, Fail err) => (back st, (mkBody "" warnings, Some err))
              | (st, Ok _) =>
                  match create d params managed st with
                  | (st, Fail err) =>
                      (back st, (mkBody "" warnings, Some (imageNotExistToErrcode d err)))
                  | (st, Ok c) =>
                      (back st, (mkBody (container.ID c) warnings, None))
                  end
              end
          end
      end
  end.

(** Lines 38-41. *)
Definition CreateManagedContainer (d : Daemon) (params : ContainerCreateConfig)
    (s : Caller)
  : Caller * (ContainerCreateCreatedBody * option error) :=
  containerCreate d params true s.

(** Lines 43-46. *)
Definition ContainerCreate (d : Daemon) (params : ContainerCreateConfig)
    (s : Caller)
  : Caller * (ContainerCreateCreatedBody * option error) :=
  containerCreate d params false s.

End WithWorld.

Arguments Store : clear implicits.
Arguments Live : clear implicits.
Arguments Daemon : clear implicits.
Arguments Caller : clear implicits.

End Create.

(** ** Volumes: [VolumeCreate] *)

Module Volume.

(** A [volume.Volume] is an interface: the record holds what its methods
    [Name], [DriverName] and [Path] return. *)
Record Volume : Type := mkVolume {
  VolumeName : string;
  DriverName : string;
  Path : string
}.

(** [types.Volume], the fields that [create.go] and [volumeToAPIType]
    are seen to set. *)
Record APIVolume : Type := mkAPIVolume {
  Name : string;
  Driver : string;
  Mountpoint : string
}.

Section WithWorld.

Context {W : Type}.

(** [stringid.GenerateNonCryptoID] draws a random identifier, so it is a
    function of the world; [daemon.volumes.Create], [LogVolumeEvent] and
    [volumeToAPIType] are the other functions that are called. *)
Record Daemon : Type := mkDaemon {
  GenerateNonCryptoID : W -> W * string;
  volumesCreate :
    string -> string -> list (string * string) -> list (string * string) ->
    M W Volume;
  LogVolumeEvent : string -> string -> list (string * string) -> W -> W;
  volumeToAPIType : Volume -> APIVolume
}.

(** Lines 280-294. *)
Definition VolumeCreate (d : Daemon) (name driverName : string)
    (opts labels : list (string * string)) : M W APIVolume :=
  fun w =>
    let named :=
      if String.eqb name "" then GenerateNonCryptoID d w else (w, name) in
    match volumesCreate d (snd named) driverName opts labels (fst named) with
    | (w', Fail err) => (w', Fail err)
    | (w', Ok v) =>
        let w'' := LogVolumeEvent d (VolumeName v) "create"
                     [("driver", DriverName v)] w' in
        let apiV := volumeToAPIType d v in
        (w'', Ok (mkAPIVolume (Name apiV) (Driver apiV) (Path v)))
    end.

End WithWorld.

Arguments Daemon : clear implicits.

End Volume.

(** ** Delta synthesis: [DeltaCreate] *)

Module Delta.

(** *** 64-bit integers and floats *)

(** An [int64] is a [Z] in the range of [int64]; [+=] wraps around. *)
Definition wrap64 (z : Z) : Z :=
  ((z + 2 ^ 63) mod 2 ^ 64 - 2 ^ 63)%Z.

Definition add64 (a b : Z) : Z := wrap64 (a + b).

Definition isInt64 (z : Z) : Prop := (- 2 ^ 63 <= z < 2 ^ 63)%Z.

(** A [float64] is an IEEE 754 binary64 number: [spec_float] with a
    precision of 53 bits and a maximal exponent of 1024. *)
Definition float64 := spec_float.

(** The conversion [float64(z)] of an integer, rounded to nearest even. *)
Definition toFloat64 (z : Z) : float64 := binary_normalize 53 1024 z 0 false.

(** The division [x / y] of two [float64]. *)
Definition fdiv (x y : float64) : float64 := SFdiv 53 1024 x y.

(** The constant [1]. *)
Definition fone : float64 := S754_finite false 4503599627370496 (-52).

(** Lines 535-538. *)
Definition deltaRatio (statTotalSize statDeltaSize : Z) : float64 :=
  let deltaRatio := fdiv (toFloat64 statTotalSize) (toFloat64 statDeltaSize) in
  if (statTotalSize =? 0)%Z then fone else deltaRatio.

(** *** Layers and streams *)

(** A [layer.Layer] is an interface: the record holds what its methods
    [Platform], [TarStream], [DiffSize] and [DiffID] return.  A stream is
    named by a string. *)
Record Layer : Type := mkLayer {
  Platform : string;
  TarStream : result string;
  DiffSize : result Z;
  LayerDiffID : DiffID
}.

(** The reader [progress.NewProgressReader(in, out, size, id, action)]. *)
Record ProgressReader : Type := mkProgressReader {
  prInput : string;
  prSize : Z;
  prID : string;
  prAction : string
}.

(** What is handed to [ls.Register] as the content of the new layer: the
    tar stream of [layer.EmptyLayer], or the reading end of the pipe that
    the goroutine of lines 443-487 fills with the delta of [input]
    against the signature, packed as the one tar entry ["delta"].  The
    goroutine closes the pipe with its error, which the reader of the
    pipe, [Register], then returns. *)
Inductive LayerData : Type :=
| EmptyLayerTar
| DeltaPipe (srcSig : string) (input : ProgressReader) (tmpDelta : string).

Definition isEmptyLayerTar (data : LayerData) : bool :=
  match data with
  | EmptyLayerTar => true
  | DeltaPipe _ _ _ => false
  end.

(** The calls that [defer] postpones to the end of [DeltaCreate]. *)
Inductive Deferred : Type :=
| CloseStream (name : string)
| CloseProgressReader (r : ProgressReader)
| ReleaseAndLog (l : Layer)
| Remove (name : string).

(** What is written to [outStream]. *)
Inductive Output : Type :=
| Update (id action : string)
| StatusSizes (humanTotal humanDelta : string) (deltaRatio : float64)
| StatusCreated (id : string).

(** The calls of the layer store that returned a layer, in the order in
    which they were made: a record kept beside the state, which the code
    does not have, to state what the function did. *)
Inductive Call : Type :=
| GotLayer (chainID : string) (l : Layer)
| Registered (data : LayerData) (parent : string) (platform : string) (newLayer : Layer).

(** The synthetic image of lines 510-521. *)
Record DeltaImage : Type := mkDeltaImage {
  DeltaRootFS : list DiffID;
  Created : string;
  DeltaLabels : list (string * string)
}.

(** What the record of calls says: the data of the layers that were
    registered, the layers that [ls.Get] returned and the chains they
    were asked for, and the layers that were registered from a delta. *)
Fixpoint registeredData (calls : list Call) : list LayerData :=
  match calls with
  | [] => []
  | Registered data _ _ _ :: rest => data :: registeredData rest
  | GotLayer _ _ :: rest => registeredData rest
  end.

Fixpoint gotLayers (calls : list Call) : list Layer :=
  match calls with
  | [] => []
  | GotLayer _ l :: rest => l :: gotLayers rest
  | Registered _ _ _ _ :: rest => gotLayers rest
  end.

Fixpoint gotChains (calls : list Call) : list string :=
  match calls with
  | [] => []
  | GotLayer chainID _ :: rest => chainID :: gotChains rest
  | Registered _ _ _ _ :: rest => gotChains rest
  end.

Fixpoint deltaLayers (calls : list Call) : list Layer :=
  match calls with
  | [] => []
  | Registered (DeltaPipe _ _ _) _ _ newLayer :: rest => newLayer :: deltaLayers rest
  | _ :: rest => deltaLayers rest
  end.

(** The layers that the store handed out, by [ls.Get] or [ls.Register],
    in the order of the calls. *)
Fixpoint layersOfCalls (calls : list Call) : list Layer :=
  match calls with
  | [] => []
  | GotLayer _ l :: rest => l :: layersOfCalls rest
  | Registered _ _ _ newLayer :: rest => newLayer :: layersOfCalls rest
  end.

(** The layers that [ls.Register] returned, and the parent chains and the
    platforms it was given. *)
Fixpoint registeredLayers (calls : list Call) : list Layer :=
  match calls with
  | [] => []
  | Registered _ _ _ newLayer :: rest => newLayer :: registeredLayers rest
  | GotLayer _ _ :: rest => registeredLayers rest
  end.

Fixpoint registeredParents (calls : list Call) : list string :=
  match calls with
  | [] => []
  | Registered _ parent _ _ :: rest => parent :: registeredParents rest
  | GotLayer _ _ :: rest => registeredParents rest
  end.

(** The layers that the deferred calls release. *)
Fixpoint releasedLayers (deferred : list Deferred) : list Layer :=
  match deferred with
  | [] => []
  | ReleaseAndLog l :: rest => l :: releasedLayers rest
  | _ :: rest => releasedLayers rest
  end.

Definition isUpdate (o : Output) : bool :=
  match o with
  | Update _ _ => true
  | _ => false
  end.

(** The size that [DiffSize] returns, 0 when it returns an error. *)
Definition sizeOf (l : Layer) : Z :=
  match DiffSize l with
  | Ok z => z
  | Fail _ => 0%Z
  end.

(** The sizes added one after the other with [+=], from 0. *)
Definition sum64 (sizes : list Z) : Z := fold_left add64 sizes 0%Z.

(** The sum of the sizes as integers. *)
Definition total (sizes : list Z) : Z := fold_right Z.add 0%Z sizes.

Definition inputSizes (calls : list Call) : list Z := map sizeOf (gotLayers calls).

Definition deltaSizes (calls : list Call) : list Z := map sizeOf (deltaLayers calls).

Section WithStores.

(** The image and layer stores of the daemon and the file system. *)
Context {St : Type}.

Record Daemon : Type := mkDaemon {
  GetImage : string -> St -> result image.Image;
  ImagePlatform : image.Image -> string;
  GetTarSeekStream : string -> string -> M St string;
  SeekerSize : string -> M St Z;
  Signature : ProgressReader -> M St string;
  ChainID : list DiffID -> string;
  lsGet : string -> string -> M St Layer;
  lsRegister : string -> LayerData -> string -> string -> M St Layer;
  EmptyLayerPlatform : string;
  TempFile : M St string;
  Marshal : DeltaImage -> result string;
  isCreate : string -> string -> M St string;
  Now : string;
  HumanSize : float64 -> string;
  TruncateID : string -> string;
  runDeferred : Deferred -> St -> St
}.

(** The state of one call of [DeltaCreate]. *)
Record State : Type := mkState {
  stores : St;
  outStream : list Output;
  deferred : list Deferred;
  calls : list Call
}.

(** The local variables of the loop of lines 392-508. *)
Record Acc : Type := mkAcc {
  deltaRootFS : list DiffID;
  statTotalSize : Z;
  statDeltaSize : Z
}.

Definition onStores {A : Type} (m : M St A) : M State A :=
  fun s =>
    match m (stores s) with
    | (st, r) => (mkState st (outStream s) (deferred s) (calls s), r)
    end.

Definition ofResult {A : Type} (r : result A) : M State A :=
  fun s => (s, r).

Definition write (o : Output) : M State unit :=
  modify (fun s => mkState (stores s) (outStream s ++ [o]) (deferred s) (calls s)).

Definition defer (a : Deferred) : M State unit :=
  modify (fun s => mkState (stores s) (outStream s) (a :: deferred s) (calls s)).

Definition record (c : Call) : M State unit :=
  modify (fun s => mkState (stores s) (outStream s) (deferred s) (calls s ++ [c])).

(** The condition of line 401. *)
Definition isCommonLayer (srcDiffIDs : list DiffID) (i : nat) (diffID : DiffID) : bool :=
  Nat.ltb i (length srcDiffIDs) && String.eqb (nth i srcDiffIDs "") diffID.

(** The value of [commonLayer] at the positions from [i] on. *)
Fixpoint classify (srcDiffIDs : list DiffID) (i : nat) (rest : list DiffID)
  : list bool :=
  match rest with
  | [] => []
  | diffID :: rest' =>
      isCommonLayer srcDiffIDs i diffID :: classify srcDiffIDs (S i) rest'
  end.

(** Lines 405-488: the branch of a changed layer.  It yields the layer
    data, the platform and the new value of [statTotalSize]. *)
Definition changedLayer (d : Daemon) (storePlatform srcSig : string)
    (dstDiffIDs : list DiffID) (i : nat) (diffID : DiffID) (acc : Acc)
  : M State (LayerData * string * Z) :=
  let chainID := ChainID d (firstn (i + 1) dstDiffIDs) in
  let* l := onStores (lsGet d storePlatform chainID) in
  let* _ := record (GotLayer chainID l) in
  let* _ := defer (ReleaseAndLog l) in
  let platform := Platform l in
  let* input := ofResult (TarStream l) in
  let* _ := defer (CloseStream input) in
  let* inputSize := ofResult (DiffSize l) in
  let statTotalSize := add64 (statTotalSize acc) inputSize in
  let progressReader :=
    mkProgressReader input inputSize (TruncateID d diffID) "Computing delta" in
  let* _ := defer (CloseProgressReader progressReader) in
  let* tmpDelta := onStores (TempFile d) in
  let* _ := defer (Remove tmpDelta) in
  ret (DeltaPipe srcSig progressReader tmpDelta, platform, statTotalSize).

(** Lines 393-507: one iteration of the loop. *)
Definition layerStep (d : Daemon) (storePlatform srcSig : string)
    (srcDiffIDs dstDiffIDs : list DiffID) (i : nat) (diffID : DiffID) (acc : Acc)
  : M State Acc :=
  let commonLayer := isCommonLayer srcDiffIDs i diffID in
  let* prepared :=
    (if commonLayer
     then ret (EmptyLayerTar, EmptyLayerPlatform d, statTotalSize acc)
     else changedLayer d storePlatform srcSig dstDiffIDs i diffID acc) in
  let '(layerData, platform, statTotalSize) := prepared in
  let parent := ChainID d (deltaRootFS acc) in
  let* newLayer := onStores (lsRegister d storePlatform layerData parent platform) in
  let* _ := record (Registered layerData parent platform newLayer) in
  let* _ := defer (ReleaseAndLog newLayer) in
  let* statDeltaSize :=
    (if commonLayer then
       let* _ := write (Update (TruncateID d diffID) "Skipping common layer") in
       ret (statDeltaSize acc)
     else
       let* deltaSize := ofResult (DiffSize newLayer) in
       let* _ := write (Update (TruncateID d diffID) "Delta complete") in
       ret (add64 (statDeltaSize acc) deltaSize)) in
  ret (mkAcc (deltaRootFS acc ++ [LayerDiffID newLayer]) statTotalSize statDeltaSize).

(** The loop of lines 392-508 from position [i] on, over the
    destination layers that remain. *)
Fixpoint layersFrom (d : Daemon) (storePlatform srcSig : string)
    (srcDiffIDs dstDiffIDs : list DiffID) (i : nat) (rest : list DiffID) (acc : Acc)
  : M State Acc :=
  match rest with
  | [] => ret acc
  | diffID :: rest' =>
      let* acc' := layerStep d storePlatform srcSig srcDiffIDs dstDiffIDs i diffID acc in
      layersFrom d storePlatform srcSig srcDiffIDs dstDiffIDs (S i) rest' acc'
  end.

(** The chains [dstRootFS.DiffIDs[:i+1]] of the changed positions from
    [i] on. *)
Fixpoint changedChains (d : Daemon) (srcDiffIDs dstDiffIDs : list DiffID)
    (i : nat) (rest : list DiffID) : list string :=
  match rest with
  | [] => []
  | diffID :: rest' =>
      if isCommonLayer srcDiffIDs i diffID
      then changedChains d srcDiffIDs dstDiffIDs (S i) rest'
      else ChainID d (firstn (i + 1) dstDiffIDs)
           :: changedChains d srcDiffIDs dstDiffIDs (S i) rest'
  end.

(** The loop of lines 385-387. *)
Fixpoint announce (d : Daemon) (diffIDs : list DiffID) : M State unit :=
  match diffIDs with
  | [] => ret tt
  | diffID :: rest =>
      let* _ := write (Update (TruncateID d diffID) "Waiting") in
      announce d rest
  end.

Definition wrapf {A : Type} (r : result A) (msg : string) : result A :=
  match r with
  | Ok a => Ok a
  | Fail e => Fail (Wrapf e msg)
  end.

(** Lines 347-542, without the deferred calls. *)
Definition deltaCreateBody (d : Daemon) (deltaSrc deltaDest : string) : M State unit :=
  let* srcImg :=
    (fun s => (s, wrapf (GetImage d deltaSrc (stores s)) ("no such image: " +:+ deltaSrc))) in
  let* dstImg :=
    (fun s => (s, wrapf (GetImage d deltaDest (stores s)) ("no such image: " +:+ deltaDest))) in
  let storePlatform := ImagePlatform d dstImg in
  let* srcData := onStores (GetTarSeekStream d storePlatform (image.ID srcImg)) in
  let* _ := defer (CloseStream srcData) in
  let* srcDataLen := onStores (SeekerSize d srcData) in
  let progressReader := mkProgressReader srcData srcDataLen deltaSrc "Fingerprinting" in
  let* _ := defer (CloseProgressReader progressReader) in
  let* srcSig := onStores (Signature d progressReader) in
  let* _ := write (Update deltaSrc "Fingerprint complete") in
  let* _ := announce d (image.RootFS dstImg) in
  let* acc :=
    layersFrom d storePlatform srcSig (image.RootFS srcImg) (image.RootFS dstImg)
      0 (image.RootFS dstImg) (mkAcc [] 0 0) in
  let config :=
    mkDeltaImage (deltaRootFS acc) (Now d)
      [("io.resin.delta.base", image.ID srcImg);
       ("io.resin.delta.config", image.RawJSON dstImg)] in
  let* rawConfig := ofResult (Marshal d config) in
  let* id := onStores (isCreate d storePlatform rawConfig) in
  let humanTotal := HumanSize d (toFloat64 (statTotalSize acc)) in
  let humanDelta := HumanSize d (toFloat64 (statDeltaSize acc)) in
  let deltaRatio := deltaRatio (statTotalSize acc) (statDeltaSize acc) in
  let* _ := write (StatusSizes humanTotal humanDelta deltaRatio) in
  write (StatusCreated id).

(** The deferred calls run when the function returns, last one first. *)
Definition runAllDeferred (d : Daemon) (s : State) : State :=
  mkState (fold_left (fun st a => runDeferred d a st) (deferred s) (stores s))
    (outStream s) [] (calls s).

Definition initialState (st : St) : State := mkState st [] [] [].

(** Lines 346-543. *)
Definition DeltaCreate (d : Daemon) (deltaSrc deltaDest : string) (st : St)
  : State * option error :=
  match deltaCreateBody d deltaSrc deltaDest (initialState st) with
  | (s, Ok _) => (runAllDeferred d s, None)
  | (s, Fail err) => (runAllDeferred d s, Some err)
  end.

(** The progress lines of the loop of lines 385-387 and of the loop of
    lines 392-508 from position [i] on, when every iteration returns. *)
Definition waitingUpdates (d : Daemon) (diffIDs : list DiffID) : list Output :=
  map (fun diffID => Update (TruncateID d diffID) "Waiting") diffIDs.

Fixpoint layerUpdates (d : Daemon) (srcDiffIDs : list DiffID) (i : nat)
    (rest : list DiffID) : list Output :=
  match rest with
  | [] => []
  | diffID :: rest' =>
      Update (TruncateID d diffID)
        (if isCommonLayer srcDiffIDs i diffID
         then "Skipping common layer" else "Delta complete")
      :: layerUpdates d srcDiffIDs (S i) rest'
  end.

End WithStores.

Arguments Daemon : clear implicits.
Arguments State : clear implicits.

End Delta.

(** ** Statements of the specification *)

Module Spec.

Import Labels.

(** Resolution of the labels of [hostConfig] reaches the peers: no label
    option was given, neither namespace is the host's, the container is
    not privileged, and the IPC and the PID namespace are each shared
    from a container that the daemon knows, with these process labels. *)
Definition bothShared (d : LabelEnv) (hostConfig : HostConfig)
    (ipcProcessLabel pidProcessLabel : string) : Prop :=
  existsb (fun opt => String.eqb (Split0 opt) "label") (SecurityOpt hostConfig) = false
  /\ IpcIsHost d (IpcMode hostConfig) || PidIsHost d (PidMode hostConfig)
     || Privileged hostConfig = false
  /\ IpcContainer d (IpcMode hostConfig) <> ""
  /\ PidContainer d (PidMode hostConfig) <> ""
  /\ GetContainer d (IpcContainer d (IpcMode hostConfig)) = Ok ipcProcessLabel
  /\ GetContainer d (PidContainer d (PidMode hostConfig)) = Ok pidProcessLabel.

(** The two label sets differ at position [i]. *)
Definition differAt (a b : strslice) (i : nat) : Prop :=
  elems a !! i <> elems b !! i.

(** Section 4.2 in the words of the specification: with both namespaces
    shared from peers, resolution fails exactly when the two duplicated
    label sets differ at some position, and otherwise the two sets are
    equal and it returns one of them, each label with its prefix. *)
Definition peersMustAgree (d : LabelEnv) (hostConfig : HostConfig) : Prop :=
  forall ipcProcessLabel pidProcessLabel,
    bothShared d hostConfig ipcProcessLabel pidProcessLabel ->
    let ipcSet := DupSecOpt d ipcProcessLabel in
    let pidSet := DupSecOpt d pidProcessLabel in
    (generateSecurityOpt d hostConfig = Err ErrLabelsDiffer
     <-> exists i, differAt ipcSet pidSet i)
    /\ (generateSecurityOpt d hostConfig <> Err ErrLabelsDiffer ->
        elems ipcSet = elems pidSet
        /\ exists labels,
             generateSecurityOpt d hostConfig = Ret labels
             /\ elems labels = elems (toHostConfigSelinuxLabels pidSet)).

(** Section 3 in the words of the specification: the process and host
    configuration that the caller supplied are the same after
    [containerCreate] as before it. *)
Definition inputUnchanged {W : Type} (d : Create.Daemon W)
    (params : Create.ContainerCreateConfig) (managed : bool) (s : Create.Caller W)
  : Prop :=
  let after := fst (Create.containerCreate d params managed s) in
  Create.callerConfig after = Create.callerConfig s
  /\ Create.callerHostConfig after = Create.callerHostConfig s.

(** The state query of section 8 of the specification: whether a
    container is registered, whether it has a writable layer, whether a
    directory exists. *)
Record Observer (W : Type) : Type := mkObserver {
  isRegistered : W -> string -> bool;
  hasRWLayer : W -> string -> bool;
  dirExists : W -> string -> bool
}.
Arguments mkObserver {W} _ _ _.
Arguments isRegistered {W} _ _ _.
Arguments hasRWLayer {W} _ _ _.
Arguments dirExists {W} _ _ _.

(** No registered container, no RWLayer, no root or checkpoint directory
    of [c] in the world [w]. *)
Definition nothingLeft {W : Type} (obs : Observer W) (d : Create.Daemon W)
    (w : W) (c : container.Container) : Prop :=
  isRegistered obs w (container.ID c) = false
  /\ hasRWLayer obs w (container.ID c) = false
  /\ dirExists obs w (container.Root c) = false
  /\ dirExists obs w (Create.CheckpointDir d c) = false.

(** Modelled from the spec: [Cleanup(Container, removeRWLayer, removeDirs)]
    of the container registry ([daemon.cleanupContainer]), which is not
    part of [create.go].  Section 4.1 has it reverse "everything allocated
    (directories, RWLayer)" and remove "the in-memory object": once a
    cleanup with both flags set has returned without error, the state
    query shows nothing left of the container. *)
Definition cleanupContract {W : Type} (obs : Observer W) (d : Create.Daemon W) : Prop :=
  forall s s',
    Create.cleanupContainer d true true s = (s', Ok tt) ->
    nothingLeft obs d (Create.world (Create.store s')) (Create.ctr s).

(** Section 4.3, step 4, in the words of the specification: the ratio is
    total size divided by delta size, and 1 when the delta size is zero. *)
Definition specRatio (totalSize deltaSize : Z) : Delta.float64 :=
  if (deltaSize =? 0)%Z then Delta.fone
  else Delta.fdiv (Delta.toFloat64 totalSize) (Delta.toFloat64 deltaSize).

(** The status line of a successful [DeltaCreate] carries that ratio of
    the sizes it has accumulated. *)
Definition reportsSpecRatio {St : Type} (d : Delta.Daemon St)
    (deltaSrc deltaDest : string) (st : St) : Prop :=
  forall s,
    Delta.DeltaCreate d deltaSrc deltaDest st = (s, None) ->
    exists humanTotal humanDelta,
      In (Delta.StatusSizes humanTotal humanDelta
            (specRatio (Delta.sum64 (Delta.inputSizes (Delta.calls s)))
                       (Delta.sum64 (Delta.deltaSizes (Delta.calls s)))))
         (Delta.outStream s).

End Spec.

(** ** Instances for the examples *)

Module Examples.

(** [cut s] is the part of [s] before its first colon and the part after
    it, [None] when [s] has no colon. *)
Fixpoint cut (s : string) : string * option string :=
  match s with
  | EmptyString => (EmptyString, None)
  | String a r =>
      if Ascii.eqb a ":"%char then (EmptyString, Some r)
      else match cut r with
           | (before, after) => (String a before, after)
           end
  end.

(** An instance of [label.DupSecOpt] for the examples.  It behaves as the
    SELinux label package does: no options for the empty label and for a
    label that is no context [user:role:type:level], four options
    otherwise. *)
Definition dupSecOpt (src : string) : strslice :=
  if String.eqb src "" then None
  else
    match cut src with
    | (user, Some r1) =>
        match cut r1 with
        | (role, Some r2) =>
            match cut r2 with
            | (type, Some level) =>
                if String.eqb user "" || String.eqb role ""
                   || String.eqb type "" || String.eqb level ""
                then None
                else Some ["user:" +:+ user; "role:" +:+ role;
                           "type:" +:+ type; "level:" +:+ level]
            | _ => None
            end
        | _ => None
        end
    | _ => None
    end.

(** [n == "host"]. *)
Definition isHost (mode : string) : bool := String.eqb mode "host".

(** The name after ["container:"], [""] for another mode. *)
Definition containerOf (mode : string) : string :=
  match cut mode with
  | (kind, Some name) => if String.eqb kind "container" then name else ""
  | _ => ""
  end.

(** A daemon with three containers: [db] and [web] run under two
    different SELinux contexts, [tools] runs without a process label. *)
Definition peers (name : string) : result string :=
  if String.eqb name "db" then Ok "system_u:system_r:svirt_lxc_net_t:s0:c1,c2"
  else if String.eqb name "web" then Ok "system_u:system_r:svirt_lxc_net_t:s0:c3,c4"
  else if String.eqb name "tools" then Ok ""
  else Fail (Errorf ("No such container: " +:+ name)).

Definition labelEnv : Labels.LabelEnv :=
  Labels.mkLabelEnv peers dupSecOpt (Some ["disable"]) isHost isHost
    containerOf containerOf.

Definition sharing (ipc pid : string) : HostConfig :=
  mkHostConfig [] ("container:" +:+ ipc) ("container:" +:+ pid) false "" "" [] ("", []).

(** An instance of [net.ParseIP] for the examples: it knows the three
    addresses below, in the 16-byte form, and takes any other text for no
    address, as ["10.0.0.999"], whose last part is out of range. *)
Definition parseIP (s : string) : Network.IP :=
  if String.eqb s "10.0.0.1"
  then Some [0; 0; 0; 0; 0; 0; 0; 0; 0; 0; 255; 255; 10; 0; 0; 1]%N
  else if String.eqb s "192.168.1.7"
  then Some [0; 0; 0; 0; 0; 0; 0; 0; 0; 0; 255; 255; 192; 168; 1; 7]%N
  else if String.eqb s "fe80::1"
  then Some [254; 128; 0; 0; 0; 0; 0; 0; 0; 0; 0; 0; 0; 0; 0; 1]%N
  else None.

(** An instance of [To4]: a 4-byte address is returned as it is, a
    16-byte address with the prefix of a mapped IPv4 address gives its last
    four bytes, anything else [nil]. *)
Definition to4 (ip : Network.IP) : Network.IP :=
  match ip with
  | Some [a; b; c; d] => Some [a; b; c; d]
  | Some [0; 0; 0; 0; 0; 0; 0; 0; 0; 0; 255; 255; a; b; c; d]%N => Some [a; b; c; d]
  | _ => None
  end.

Definition netPkg : Network.NetPkg := Network.mkNetPkg parseIP to4.

Definition endpoint (ipv4 ipv6 : string) : option EndpointSettings :=
  Some (mkEndpoint (Some (mkIPAM ipv4 ipv6))).

(** A world for the examples: the names of the registered containers,
    of the writable layers and of the directories, and the log. *)
Record World : Type := mkWorld {
  containers : list string;
  layers : list string;
  dirs : list string;
  logged : list error
}.

Definition inb (x : string) (l : list string) : bool := existsb (String.eqb x) l.

Definition without (x : string) (l : list string) : list string :=
  List.filter (fun y => negb (String.eqb x y)) l.

Definition observer : Spec.Observer World :=
  Spec.mkObserver
    (fun w id => inb id (containers w))
    (fun w id => inb id (layers w))
    (fun w path => inb path (dirs w)).

Definition alpine : image.Image :=
  image.mkImage "sha256:alpine" "linux"
    (Some (mkConfig "" None (Some ["/bin/sh"]) (Some ["PATH=/bin"]) []))
    ["sha256:base"] "{}".

Definition onWorld (f : World -> World) (s : Create.Live World) : Create.Live World :=
  Create.mkLive
    (Create.mkStore (f (Create.world (Create.store s)))
       (Create.config (Create.store s)) (Create.hostConfig (Create.store s)))
    (Create.ctr s).

(** A step that fails when its name is among the faults. *)
Definition unless (faults : list string) (name : string)
    (f : Create.Live World -> Create.Live World) : M (Create.Live World) unit :=
  fun s =>
    if inb name faults then (s, Fail (Errorf (name +:+ " failed")))
    else (f s, Ok tt).

(** A daemon for the examples.  Every collaborator that can fail does so
    when its name is among [faults]; none of them writes to the
    configuration of the caller.  [merge] fills an empty command and a
    nil entrypoint from the image. *)
Definition daemon (faults : list string) : Create.Daemon World :=
  Create.mkDaemon
    "linux" false
    (fun ref s =>
       if String.eqb ref "alpine" then (s, Ok alpine)
       else (s, Fail (Errorf ("No such image: " +:+ ref))))
    (fun img => if String.eqb (image.OS img) "" then "linux" else image.OS img)
    (fun user img =>
       (mkConfig (Image user)
          (match Entrypoint user with None => Entrypoint img | Some e => Some e end)
          (if Nat.eqb (len (Entrypoint user)) 0 && Nat.eqb (len (Cmd user)) 0
           then Cmd img else Cmd user)
          (Env user) (Labels user), None))
    (ret tt)
    (fun name platform imgID managed =>
       ret (container.mkContainer ("id-" +:+ name) imgID platform "" ""
              ("/containers/" +:+ name) Create.emptyHostConfig None))
    (fun removeRWLayer removeDirs s =>
       unless faults "cleanup"
         (onWorld (fun w =>
            let c := Create.ctr s in
            mkWorld (without (container.ID c) (containers w))
              (if removeRWLayer then without (container.ID c) (layers w) else layers w)
              (if removeDirs
               then without (container.Root c)
                      (without (container.Root c +:+ "/checkpoints") (dirs w))
               else dirs w)
              (logged w))) s)
    (fun err => onWorld (fun w =>
       mkWorld (containers w) (layers w) (dirs w) (logged w ++ [err])))
    (unless faults "security" (fun s => s))
    (fun platform id s =>
       if String.eqb id "sha256:alpine" then (s, Ok alpine)
       else (s, Fail (Errorf ("No such image: " +:+ id))))
    (String.concat "+")
    (Some "setupInitLayer")
    (fun platform id parent opts s =>
       match unless faults "rwlayer"
               (onWorld (fun w =>
                  mkWorld (containers w) (id :: layers w) (dirs w) (logged w))) s with
       | (s', Ok _) => (s', Ok id)
       | (s', Fail e) => (s', Fail e)
       end)
    (0, 0)
    (fun path ids =>
       unless faults ("mkdir " +:+ path)
         (onWorld (fun w =>
            mkWorld (containers w) (layers w) (path :: dirs w) (logged w))))
    (fun c => container.Root c +:+ "/checkpoints")
    (unless faults "hostconfig" (fun s => s))
    (unless faults "platform" (fun s => s))
    (fun s => s)
    (fun endpoints s => s)
    (fun s =>
       unless faults "register"
         (onWorld (fun w =>
            mkWorld (container.ID (Create.ctr s) :: containers w)
              (layers w) (dirs w) (logged w))) s)
    (fun id state s => s)
    (fun event s => s)
    (fun hc cfg update w => (w, hc, cfg, ([], None)))
    netPkg
    (fun adjust => ret tt)
    (fun err => err).

Definition emptyWorld : World := mkWorld [] [] [] [].

Definition request (name : string) : Create.ContainerCreateConfig :=
  Create.mkParams name "" None false.

(** The process configuration of a caller that gives the image, the
    entrypoint and the command. *)
Definition process (img : string) (entrypoint cmd : strslice) : Config :=
  mkConfig img entrypoint cmd None [].

Definition webStore : Create.Store World :=
  Create.mkStore emptyWorld (process "alpine" None None) Create.emptyHostConfig.

Definition webContainer : container.Container :=
  container.mkContainer "id-web" "sha256:alpine" "linux" "" ""
    "/containers/web" Create.emptyHostConfig None.

(** [webStore] once the defaults of the image are merged. *)
Definition webMerged : Create.Store World :=
  Create.mkStore emptyWorld (process "alpine" None (Some ["/bin/sh"]))
    Create.emptyHostConfig.

(** The images of the examples.  [app:v2] changes the second layer of
    [app:v1] and drops the third, [app:v3] adds a layer to [app:v1], and
    [app:marker] replaces the second layer by one without content. *)
Definition imageOf (ref : string) : result image.Image :=
  if String.eqb ref "app:v1"
  then Ok (image.mkImage "sha256:v1" "linux" None
             ["sha256:base"; "sha256:lib1"; "sha256:old"] "{v1}")
  else if String.eqb ref "app:v2"
  then Ok (image.mkImage "sha256:v2" "linux" None
             ["sha256:base"; "sha256:lib2"] "{v2}")
  else if String.eqb ref "app:v3"
  then Ok (image.mkImage "sha256:v3" "linux" None
             ["sha256:base"; "sha256:lib1"; "sha256:old"; "sha256:new"] "{v3}")
  else if String.eqb ref "app:marker"
  then Ok (image.mkImage "sha256:marker" "linux" None
             ["sha256:base"; "sha256:nothing"] "{marker}")
  else Fail (Errorf "image not known").

(** The size of the layer at the top of a chain. *)
Definition layerSize (chainID : string) : option Z :=
  if String.eqb chainID "sha256:base+sha256:lib2" then Some 4096%Z
  else if String.eqb chainID "sha256:base+sha256:lib1+sha256:old+sha256:new"
  then Some 1000%Z
  else if String.eqb chainID "sha256:base+sha256:nothing" then Some 0%Z
  else None.

Definition humanSize (size : Delta.float64) : string :=
  match size with
  | S754_zero _ => "0B"
  | _ => "more"
  end.

(** A daemon for the examples of [DeltaCreate].  Its state counts the
    temporary files.  An empty layer has size 0; a delta has 10 bytes and
    one more for every 8 bytes of the layer it encodes. *)
Definition deltaDaemon : Delta.Daemon nat :=
  Delta.mkDaemon
    (fun ref st => imageOf ref)
    (fun img => image.OS img)
    (fun platform id => ret ("stream:" +:+ id))
    (fun stream => ret 8192%Z)
    (fun reader => ret ("signature:" +:+ Delta.prInput reader))
    (String.concat "+")
    (fun platform chainID st =>
       match layerSize chainID with
       | Some size =>
           (st, Ok (Delta.mkLayer "linux" (Ok ("tar:" +:+ chainID)) (Ok size) chainID))
       | None => (st, Fail (Errorf "layer does not exist"))
       end)
    (fun platform data parent layerPlatform =>
       match data with
       | Delta.EmptyLayerTar =>
           ret (Delta.mkLayer layerPlatform (Ok "tar:empty") (Ok 0%Z) "sha256:empty")
       | Delta.DeltaPipe srcSig input tmp =>
           ret (Delta.mkLayer layerPlatform (Ok "tar:delta")
                  (Ok (10 + Delta.prSize input / 8)%Z)
                  ("sha256:delta:" +:+ Delta.prInput input))
       end)
    "linux"
    (fun st => (S st, Ok "/tmp/docker-delta-0"))
    (fun img => Ok ("json:" +:+ String.concat "+" (Delta.DeltaRootFS img)))
    (fun platform raw => ret ("sha256:image:" +:+ raw))
    "2017-08-01T00:00:00Z"
    humanSize
    (fun id => id)
    (fun action st => st).

(** A second daemon for [DeltaCreate], whose layer store has a layer for
    every chain, of as many bytes as the name of the chain has
    characters. *)
Definition wholeStoreDaemon : Delta.Daemon nat :=
  Delta.mkDaemon
    (Delta.GetImage deltaDaemon)
    (Delta.ImagePlatform deltaDaemon)
    (Delta.GetTarSeekStream deltaDaemon)
    (Delta.SeekerSize deltaDaemon)
    (Delta.Signature deltaDaemon)
    (Delta.ChainID deltaDaemon)
    (fun platform chainID st =>
       (st, Ok (Delta.mkLayer "linux" (Ok ("tar:" +:+ chainID))
                  (Ok (Z.of_nat (String.length chainID))) chainID)))
    (Delta.lsRegister deltaDaemon)
    (Delta.EmptyLayerPlatform deltaDaemon)
    (Delta.TempFile deltaDaemon)
    (Delta.Marshal deltaDaemon)
    (Delta.isCreate deltaDaemon)
    (Delta.Now deltaDaemon)
    (Delta.HumanSize deltaDaemon)
    (Delta.TruncateID deltaDaemon)
    (Delta.runDeferred deltaDaemon).

(** A daemon for [VolumeCreate]: its world is the list of the volumes
    and the log of the events; it refuses the driver [none]. *)
Definition volumeDaemon : Volume.Daemon (list string * list string) :=
  Volume.mkDaemon
    (fun w => (w, "generated-id"))
    (fun name driverName opts labels w =>
       if String.eqb driverName "none"
       then (w, Fail (Errorf "no such driver"))
       else ((name :: fst w, snd w),
             Ok (Volume.mkVolume name driverName ("/volumes/" +:+ name))))
    (fun name action attributes w => (fst w, (action +:+ " " +:+ name) :: snd w))
    (fun v => Volume.mkAPIVolume (Volume.VolumeName v) (Volume.DriverName v) "").

(** A request for the container [web] on two networks. *)
Definition twoNetworks : Create.ContainerCreateConfig :=
  Create.mkParams "web" ""
    (Some (Network.mkNetworkingConfig
             [("front", endpoint "10.0.0.1" ""); ("back", None)]))
    false.

End Examples.

(** * Properties *)

(** ** Security labels *)

Section LabelFacts.

Import Labels.

Lemma compareFrom_in_bounds (pid ipc : list string) (indices : list nat) :
  Forall (fun i => i < length pid /\ i < length ipc) indices ->
  compareFrom pid ipc indices =
    if forallb (fun i => bool_decide (pid !! i = ipc !! i)) indices
    then None else Some (Err ErrLabelsDiffer).
Proof.
  induction 1 as [|i rest [Hp Hi] _ IH]; [reflexivity|].
  cbn [compareFrom forallb]. rewrite IH.
  destruct (lookup_lt_is_Some_2 pid i Hp) as [p Ep].
  destruct (lookup_lt_is_Some_2 ipc i Hi) as [q Eq].
  rewrite Ep, Eq.
  destruct (String.eqb_spec p q) as [->|Hne]; case_bool_decide; cbn;
    congruence.
Qed.

Lemma same_at_all_positions (pid ipc : list string) :
  length pid = length ipc ->
  forallb (fun i => bool_decide (pid !! i = ipc !! i)) (seq 0 (length pid)) = true
  <-> pid = ipc.
Proof.
  intros Hlen. rewrite forallb_forall. split.
  - intros H. apply list_eq. intros i.
    destruct (decide (i < length pid)) as [Hi|Hi].
    + specialize (H i). rewrite in_seq in H.
      eapply bool_decide_eq_true_1. apply H. lia.
    + rewrite !lookup_ge_None_2 by lia. reflexivity.
  - intros -> i _. apply bool_decide_eq_true_2. reflexivity.
Qed.

Lemma differ_somewhere (pid ipc : list string) :
  pid <> ipc -> exists i, pid !! i <> ipc !! i.
Proof.
  revert ipc. induction pid as [|p pid IH]; intros [|q ipc] Hne.
  - contradiction.
  - exists 0. discriminate.
  - exists 0. discriminate.
  - destruct (decide (p = q)) as [->|Hpq].
    + destruct (IH ipc) as [i Hi]; [congruence|]. exists (S i). exact Hi.
    + exists 0. cbn. congruence.
Qed.

(** With sets of one length the loop of lines 238-242 neither panics
    nor misses a difference. *)
Lemma compareLabels_same_length (pid ipc : list string) :
  length pid = length ipc ->
  compareLabels (Some ipc) (Some pid) =
    if bool_decide (pid = ipc)
    then Ret (toHostConfigSelinuxLabels (Some pid))
    else Err ErrLabelsDiffer.
Proof.
  intros Hlen. unfold compareLabels.
  rewrite compareFrom_in_bounds.
  - destruct (forallb _ _) eqn:E.
    + apply same_at_all_positions in E; [|exact Hlen].
      case_bool_decide; [reflexivity|contradiction].
    + case_bool_decide as Heq; [|reflexivity].
      apply (same_at_all_positions _ _ Hlen) in Heq. congruence.
  - apply Forall_forall. intros i Hi. apply elem_of_seq in Hi. lia.
Qed.

(** The index stays in range whenever the IPC set is at least as long
    as the PID set. *)
Lemma compareLabels_in_bounds (pid ipc : list string) :
  length pid <= length ipc ->
  forall i n, compareLabels (Some ipc) (Some pid) <> Panic i n.
Proof.
  intros Hlen i n. unfold compareLabels.
  rewrite compareFrom_in_bounds.
  - destruct (forallb _ _); discriminate.
  - apply Forall_forall. intros j Hj. apply elem_of_seq in Hj. lia.
Qed.

Lemma toHostConfigSelinuxLabels_prefixed (labels : strslice) (l : string) :
  In l (elems (toHostConfigSelinuxLabels labels)) ->
  exists l0, l = "label=" +:+ l0 /\ In l0 (elems labels).
Proof.
  destruct labels as [ls|]; cbn; [|tauto].
  intros H. apply in_map_iff in H. destruct H as (l0 & <- & Hin). eauto.
Qed.

End LabelFacts.

Section PeerLabels.

Import Labels Spec.

Lemma compareFrom_never_returns (pid ipc : list string) (indices : list nat)
    (labels : strslice) :
  compareFrom pid ipc indices <> Some (Ret labels).
Proof.
  induction indices as [|i rest IH]; cbn; [discriminate|].
  destruct (pid !! i), (ipc !! i); try discriminate.
  destruct (String.eqb _ _); [exact IH|discriminate].
Qed.

Lemma compareLabels_returns (ipcLabel pidLabel labels : strslice) :
  compareLabels ipcLabel pidLabel = Ret labels ->
  labels = None \/ labels = toHostConfigSelinuxLabels pidLabel.
Proof.
  unfold compareLabels.
  destruct pidLabel as [pid|], ipcLabel as [ipc|];
    try (intros [= <-]; left; reflexivity).
  destruct (compareFrom pid ipc _) as [stop|] eqn:E.
  - intros ->. exfalso. exact (compareFrom_never_returns _ _ _ _ E).
  - intros [= <-]. right. reflexivity.
Qed.

(** Whatever path returns labels, they went through
    [toHostConfigSelinuxLabels] or there are none. *)
Lemma generateSecurityOpt_returns (d : LabelEnv) (hostConfig : HostConfig)
    (labels : strslice) :
  generateSecurityOpt d hostConfig = Ret labels ->
  labels = None \/ exists raw, labels = toHostConfigSelinuxLabels raw.
Proof.
  unfold generateSecurityOpt, labelsOfPeers.
  repeat match goal with
         | |- context [if ?b then _ else _] => destruct b
         | |- context [match GetContainer ?d ?n with _ => _ end] =>
             destruct (GetContainer d n)
         end;
    cbn; intros H;
    try discriminate;
    try (injection H as <-; eauto; fail);
    try (apply compareLabels_returns in H; destruct H; eauto).
Qed.

Lemma labelsOfPeers_both (d : LabelEnv) (ipcContainer pidContainer : string)
    (ipcProcessLabel pidProcessLabel : string) :
  ipcContainer <> "" -> pidContainer <> "" ->
  GetContainer d ipcContainer = Ok ipcProcessLabel ->
  GetContainer d pidContainer = Ok pidProcessLabel ->
  labelsOfPeers d ipcContainer pidContainer =
    compareLabels (DupSecOpt d ipcProcessLabel) (DupSecOpt d pidProcessLabel).
Proof.
  intros Hi Hp Gi Gp. unfold labelsOfPeers.
  apply String.eqb_neq in Hi, Hp. rewrite Hi, Hp, Gi, Gp. reflexivity.
Qed.

Lemma generateSecurityOpt_both (d : LabelEnv) (hostConfig : HostConfig)
    (ipcProcessLabel pidProcessLabel : string) :
  bothShared d hostConfig ipcProcessLabel pidProcessLabel ->
  generateSecurityOpt d hostConfig =
    compareLabels (DupSecOpt d ipcProcessLabel) (DupSecOpt d pidProcessLabel).
Proof.
  intros (Hopt & Hhost & Hi & Hp & Gi & Gp).
  unfold generateSecurityOpt. rewrite Hopt, Hhost.
  apply labelsOfPeers_both; assumption.
Qed.

End PeerLabels.

Section PeerLabelClaims.

Import Labels Spec.

(** The index of lines 238-242 stays in range, and [generateSecurityOpt]
    never panics, for a label package whose non-nil results all have one
    length. *)
Lemma generateSecurityOpt_in_bounds (d : LabelEnv) (hostConfig : HostConfig) :
  (forall s1 s2 l1 l2,
      DupSecOpt d s1 = Some l1 -> DupSecOpt d s2 = Some l2 ->
      length l1 = length l2) ->
  forall i n, generateSecurityOpt d hostConfig <> Panic i n.
Proof.
  intros Huniform i n.
  unfold generateSecurityOpt, labelsOfPeers.
  repeat match goal with
         | |- context [if ?b then _ else _] => destruct b
         | |- context [match GetContainer ?d ?n with _ => _ end] =>
             destruct (GetContainer d n)
         end;
    cbn; try discriminate.
  all: match goal with
       | |- compareLabels (DupSecOpt ?e ?a) (DupSecOpt ?e ?b) <> _ =>
           destruct (DupSecOpt e a) as [ipc|] eqn:Ea;
           destruct (DupSecOpt e b) as [pid|] eqn:Eb; try discriminate
       | |- compareLabels None _ <> _ => unfold compareLabels
       | |- _ => idtac
       end.
  all: try (apply compareLabels_in_bounds;
            rewrite (Huniform _ _ _ _ Eb Ea); lia).
  all: try (destruct (DupSecOpt d _); discriminate).
Qed.

(** C5, as the code has it.  With the IPC and the PID namespace both
    shared from peers: when either duplicated label set is nil,
    resolution returns no labels and no error; when both are non-nil
    and of one length, it fails with the inconsistent-labels error
    exactly when they differ at some position, and otherwise the two
    sets are equal and it returns the PID peer's set with ["label="]
    before each label.  On every path, each label that is returned
    starts with ["label="]. *)
Theorem generateSecurityOpt_peers (d : LabelEnv) (hostConfig : HostConfig)
    (ipcProcessLabel pidProcessLabel : string)
    (Hshared : bothShared d hostConfig ipcProcessLabel pidProcessLabel) :
  match DupSecOpt d ipcProcessLabel, DupSecOpt d pidProcessLabel with
  | Some ipc, Some pid =>
      length pid = length ipc ->
      (generateSecurityOpt d hostConfig = Err ErrLabelsDiffer
       <-> exists i, pid !! i <> ipc !! i)
      /\ ((forall i, pid !! i = ipc !! i) ->
          pid = ipc
          /\ generateSecurityOpt d hostConfig
             = Ret (Some (map (fun l => "label=" +:+ l) pid)))
  | _, _ => generateSecurityOpt d hostConfig = Ret None
  end
  /\ (forall labels l,
         generateSecurityOpt d hostConfig = Ret labels ->
         In l (elems labels) -> exists l0, l = "label=" +:+ l0).
Proof.
  split.
  - rewrite (generateSecurityOpt_both _ _ _ _ Hshared).
    destruct (DupSecOpt d ipcProcessLabel) as [ipc|];
      destruct (DupSecOpt d pidProcessLabel) as [pid|]; try reflexivity.
    intros Hlen. rewrite (compareLabels_same_length _ _ Hlen).
    case_bool_decide as Heq.
    + subst ipc. split.
      * split; [discriminate|]. intros [i Hi]. contradiction.
      * intros _. split; reflexivity.
    + split.
      * split; [|reflexivity]. intros _. apply differ_somewhere, Heq.
      * intros Hall. exfalso. apply Heq, list_eq, Hall.
  - intros labels l Hret Hin.
    destruct (generateSecurityOpt_returns _ _ _ Hret) as [->|[raw ->]].
    + destruct Hin.
    + apply toHostConfigSelinuxLabels_prefixed in Hin.
      destruct Hin as (l0 & -> & _). eauto.
Qed.

End PeerLabelClaims.

Section PeerLabelExamples.

Import Labels Spec Examples.

Lemma generateSecurityOpt_peers_witness :
  bothShared labelEnv (sharing "db" "web")
    "system_u:system_r:svirt_lxc_net_t:s0:c1,c2"
    "system_u:system_r:svirt_lxc_net_t:s0:c3,c4"
  /\ generateSecurityOpt labelEnv (sharing "db" "web") = Err ErrLabelsDiffer.
Proof.
  assert (H : bothShared labelEnv (sharing "db" "web")
                "system_u:system_r:svirt_lxc_net_t:s0:c1,c2"
                "system_u:system_r:svirt_lxc_net_t:s0:c3,c4").
  { unfold bothShared. repeat split; try reflexivity; discriminate. }
  split; [exact H|].
  destruct (generateSecurityOpt_peers _ _ _ _ H) as [Hcmp _].
  change (DupSecOpt labelEnv "system_u:system_r:svirt_lxc_net_t:s0:c1,c2")
    with (Some ["user:system_u"; "role:system_r"; "type:svirt_lxc_net_t";
                "level:s0:c1,c2"]) in Hcmp.
  change (DupSecOpt labelEnv "system_u:system_r:svirt_lxc_net_t:s0:c3,c4")
    with (Some ["user:system_u"; "role:system_r"; "type:svirt_lxc_net_t";
                "level:s0:c3,c4"]) in Hcmp.
  destruct (Hcmp eq_refl) as [[_ Hdiffer] _].
  apply Hdiffer. exists 3. discriminate.
Defined.

(** Two peers with one context: the shared set is returned. *)
Example generateSecurityOpt_same_peer :
  generateSecurityOpt labelEnv (sharing "db" "db")
  = Ret (Some ["label=user:system_u"; "label=role:system_r";
               "label=type:svirt_lxc_net_t"; "label=level:s0:c1,c2"]).
Proof. reflexivity. Qed.

(** The IPC peer [tools] has no process label, the PID peer [db] has
    one: the set of [tools] is nil and the set of [db] has four labels,
    and resolution returns no labels and no error. *)
Example generateSecurityOpt_unlabelled_peer :
  DupSecOpt labelEnv "" = None
  /\ DupSecOpt labelEnv "system_u:system_r:svirt_lxc_net_t:s0:c1,c2"
     = Some ["user:system_u"; "role:system_r"; "type:svirt_lxc_net_t";
             "level:s0:c1,c2"]
  /\ generateSecurityOpt labelEnv (sharing "tools" "db") = Ret None.
Proof. repeat split; reflexivity. Qed.

Lemma peersMustAgree_fails :
  ~ peersMustAgree labelEnv (sharing "tools" "db").
Proof.
  intros Hclaim.
  destruct (Hclaim "" "system_u:system_r:svirt_lxc_net_t:s0:c1,c2") as [_ Hother].
  { unfold bothShared. repeat split; try reflexivity; discriminate. }
  destruct Hother as [Hequal _].
  - vm_compute. discriminate.
  - vm_compute in Hequal. discriminate.
Qed.

End PeerLabelExamples.

(** ** Networking configuration *)

Section NetworkClaims.

Import Network.

Variable net : NetPkg.

(** The names that [range] yields over a map are its keys, each once. *)
Lemma names_of_map {A : Type} (m : gmap string A) (entries : list (string * A)) :
  entries ≡ₚ map_to_list m -> map fst entries ≡ₚ elements (dom m).
Proof.
  intros Hperm. change (map fst entries) with (entries.*1). rewrite Hperm.
  apply NoDup_Permutation.
  - apply NoDup_fst_map_to_list.
  - apply NoDup_elements.
  - intros k. rewrite elem_of_elements, elem_of_dom, list_elem_of_fmap. split.
    + intros [[k' v] [-> H]]. apply elem_of_map_to_list in H. eauto.
    + intros [v H]. exists (k, v). split; [reflexivity|].
      apply elem_of_map_to_list. exact H.
Qed.

(** A single endpoint passes exactly when its static addresses do. *)
Lemma verifyNetworkingConfig_single (name : string) (v : option EndpointSettings) :
  verifyNetworkingConfig net (Some (mkNetworkingConfig [(name, v)]))
  = checkEndpoint net v.
Proof.
  unfold verifyNetworkingConfig. cbn.
  destruct (checkEndpoint net v); reflexivity.
Qed.

(** C6.  With two or more endpoint configurations the validation fails,
    and the message of its error lists the names of the networks that
    were supplied, each once, joined by [", "]; for a Go map [m] whose
    entries [range] yields in any order, these are the keys of [m].  With
    one endpoint configuration it fails when the static IPv4 address is
    not empty and [ParseIP(..).To4()] is nil, and when the static IPv6
    address is not empty and [ParseIP] gives nil or an address that
    [To4] accepts.  A nil configuration and one without endpoints pass. *)
Theorem verifyNetworkingConfig_spec :
  (forall cfg,
      2 <= length (EndpointsConfig cfg) ->
      verifyNetworkingConfig net (Some cfg)
      = Some (NewBadRequestError
                (Errorf ("Container cannot be connected to network endpoints: "
                         +:+ Join (map fst (EndpointsConfig cfg)) ", "))))
  /\ (forall (m : gmap string (option EndpointSettings)) entries,
        entries ≡ₚ map_to_list m ->
        2 <= size m ->
        exists names,
          names ≡ₚ elements (dom m)
          /\ verifyNetworkingConfig net (Some (mkNetworkingConfig entries))
             = Some (NewBadRequestError
                       (Errorf ("Container cannot be connected to network endpoints: "
                                +:+ Join names ", "))))
  /\ (forall name ipam,
        IPv4Address ipam <> "" ->
        To4 net (ParseIP net (IPv4Address ipam)) = None ->
        verifyNetworkingConfig net
          (Some (mkNetworkingConfig [(name, Some (mkEndpoint (Some ipam)))]))
        = Some (NewBadRequestError
                  (Errorf ("invalid IPv4 address: " +:+ IPv4Address ipam))))
  /\ (forall name ipam,
        IPv6Address ipam <> "" ->
        ParseIP net (IPv6Address ipam) = None
        \/ To4 net (ParseIP net (IPv6Address ipam)) <> None ->
        exists err,
          verifyNetworkingConfig net
            (Some (mkNetworkingConfig [(name, Some (mkEndpoint (Some ipam)))]))
          = Some (NewBadRequestError err)
          /\ (err = Errorf ("invalid IPv6 address: " +:+ IPv6Address ipam)
              \/ err = Errorf ("invalid IPv4 address: " +:+ IPv4Address ipam)))
  /\ verifyNetworkingConfig net None = None
  /\ verifyNetworkingConfig net (Some (mkNetworkingConfig [])) = None.
Proof.
  assert (Hmany : forall cfg,
             2 <= length (EndpointsConfig cfg) ->
             verifyNetworkingConfig net (Some cfg)
             = Some (NewBadRequestError
                       (Errorf ("Container cannot be connected to network endpoints: "
                                +:+ Join (map fst (EndpointsConfig cfg)) ", ")))).
  { intros [entries] Hlen. cbn in Hlen. unfold verifyNetworkingConfig. cbn.
    destruct entries as [|e1 [|e2 rest]]; cbn in Hlen; try lia. reflexivity. }
  split; [exact Hmany|]. split; [|split; [|split; [|split]]].
  - intros m entries Hperm Hsize.
    exists (map fst entries). split.
    + apply names_of_map, Hperm.
    + apply (Hmany (mkNetworkingConfig entries)). cbn.
      rewrite Hperm, length_map_to_list. exact Hsize.
  - intros name ipam Hne Hnil.
    rewrite verifyNetworkingConfig_single. cbn.
    apply String.eqb_neq in Hne. rewrite Hne, Hnil. reflexivity.
  - intros name ipam Hne Hbad.
    rewrite verifyNetworkingConfig_single. cbn.
    apply String.eqb_neq in Hne. rewrite Hne. cbn.
    destruct (negb (String.eqb (IPv4Address ipam) "")
              && isNil (To4 net (ParseIP net (IPv4Address ipam)))).
    + eexists. split; [reflexivity|]. right. reflexivity.
    + assert (Hcond : isNil (ParseIP net (IPv6Address ipam))
                      || negb (isNil (To4 net (ParseIP net (IPv6Address ipam))))
                      = true).
      { destruct Hbad as [->|Hto4]; [reflexivity|].
        destruct (To4 net (ParseIP net (IPv6Address ipam))); [|contradiction].
        cbn. apply orb_true_r. }
      rewrite Hcond. eexists. split; [reflexivity|]. left. reflexivity.
  - reflexivity.
  - reflexivity.
Qed.

End NetworkClaims.

(** ** Merging the process configuration *)

Section MergeClaims.

Import Merge.

Variable merge : Config -> Config -> Config * option error.

Lemma isEmptyEntrypoint_iff (e : strslice) :
  isEmptyEntrypoint e = true <-> e = Some [""].
Proof.
  destruct e as [[|s [|s' l]]|]; cbn; split; try discriminate.
  - intros H. apply String.eqb_eq in H. congruence.
  - intros [= ->]. reflexivity.
Qed.

Lemma resetEntrypoint_entrypoint (config : Config) :
  Entrypoint (resetEntrypoint config)
  = if isEmptyEntrypoint (Entrypoint config) then None else Entrypoint config.
Proof. unfold resetEntrypoint. destruct (isEmptyEntrypoint _); reflexivity. Qed.

Lemma resetEntrypoint_rest (config : Config) :
  Image (resetEntrypoint config) = Image config
  /\ Cmd (resetEntrypoint config) = Cmd config
  /\ Env (resetEntrypoint config) = Env config
  /\ Labels (resetEntrypoint config) = Labels config.
Proof. unfold resetEntrypoint. destruct (isEmptyEntrypoint _); cbn; auto. Qed.

(** What the function leaves in the object and what it returns. *)
Lemma mergeAndVerifyConfig_unfold (config : Config) (img : option image.Image) :
  mergeAndVerifyConfig merge config img =
    match mergeImageConfig merge config img with
    | (merged, Some err) => (merged, Some err)
    | (merged, None) =>
        (resetEntrypoint merged,
         if Nat.eqb (len (Entrypoint (resetEntrypoint merged))) 0
            && Nat.eqb (len (Cmd (resetEntrypoint merged))) 0
         then Some ErrNoCommand else None)
    end.
Proof.
  unfold mergeAndVerifyConfig.
  destruct (mergeImageConfig merge config img) as [merged [err|]]; [reflexivity|].
  destruct (_ && _); reflexivity.
Qed.

(** An error of [merge] is returned as it is. *)
Lemma mergeAndVerifyConfig_merge_error (config merged : Config)
    (img : option image.Image) (err : error) :
  mergeImageConfig merge config img = (merged, Some err) ->
  mergeAndVerifyConfig merge config img = (merged, Some err).
Proof. intros H. rewrite mergeAndVerifyConfig_unfold, H. reflexivity. Qed.

(** C7.  Once the configuration is merged with the defaults of the
    image, an entrypoint that is exactly [[""]] is cleared and any other
    entrypoint is kept, the command is kept, and the function fails,
    with the no-command error, exactly when the entrypoint and the
    command it leaves are both empty. *)
Theorem mergeAndVerifyConfig_spec (config merged : Config) (img : option image.Image)
    (Hmerged : mergeImageConfig merge config img = (merged, None)) :
  let after := fst (mergeAndVerifyConfig merge config img) in
  let err := snd (mergeAndVerifyConfig merge config img) in
  (Entrypoint merged = Some [""] -> Entrypoint after = None)
  /\ (Entrypoint merged <> Some [""] -> Entrypoint after = Entrypoint merged)
  /\ Cmd after = Cmd merged
  /\ (err = Some ErrNoCommand
      <-> len (Entrypoint after) = 0 /\ len (Cmd after) = 0)
  /\ (err = None
      <-> ~ (len (Entrypoint after) = 0 /\ len (Cmd after) = 0)).
Proof.
  rewrite mergeAndVerifyConfig_unfold, Hmerged. cbn [fst snd].
  rewrite resetEntrypoint_entrypoint.
  destruct (resetEntrypoint_rest merged) as (_ & -> & _ & _).
  split; [|split; [|split; [reflexivity|]]].
  - intros H. apply isEmptyEntrypoint_iff in H. rewrite H. reflexivity.
  - intros H. destruct (isEmptyEntrypoint (Entrypoint merged)) eqn:E; [|reflexivity].
    apply isEmptyEntrypoint_iff in E. contradiction.
  - set (e := len (if isEmptyEntrypoint (Entrypoint merged)
                   then None else Entrypoint merged)).
    set (c := len (Cmd merged)).
    destruct e, c; cbn; repeat split; intros; try reflexivity;
      try discriminate; try lia; try tauto.
    all: match goal with H : ~ _ |- _ => exfalso; apply H; split; reflexivity end.
Qed.

End MergeClaims.

(** ** Container creation *)

Section CreateFacts.

Import Create.

Context {W : Type}.
Variable d : Daemon W.

Lemma runSteps_fails (steps : list (M (Live W) unit)) (s s' : Live W) (e : error) :
  runSteps steps s = (s', Fail e) <-> exists k, FailsAt steps k s s' e.
Proof.
  revert s. induction steps as [|step rest IH]; intros s; cbn.
  - split; [discriminate|]. intros [k H]. inversion H.
  - unfold bind. destruct (step s) as [s1 [[]|e1]] eqn:E; split.
    + intros H. apply IH in H. destruct H as [k H].
      exists (S k). eapply FailsLater; eassumption.
    + intros [k H]. inversion H; subst; [congruence|].
      apply IH. exists k0. congruence.
    + intros [= -> ->]. exists 0. apply FailsHere. exact E.
    + intros [k H]. inversion H; subst; congruence.
Qed.

Lemma FailsAt_index (steps : list (M (Live W) unit)) (k : nat) (s s' : Live W)
    (e : error) :
  FailsAt steps k s s' e -> k < length steps.
Proof. induction 1; cbn; lia. Qed.

Lemma announceCreated_succeeds (s : Live W) :
  exists s', announceCreated d s = (s', Ok tt).
Proof. unfold announceCreated, bind, gets, modify. eauto. Qed.

(** The body of [create] after the allocation is its steps in order,
    then the two notifications. *)
Lemma afterAllocation_steps (params : ContainerCreateConfig) (s : Live W) :
  afterAllocation d params s
  = (let* _ := runSteps (laterSteps d params) in announceCreated d) s.
Proof.
  unfold afterAllocation, laterSteps, announceCreated, runSteps.
  unfold bind, gets, modify, ret.
  repeat match goal with
         | |- context [match ?f ?x with _ => _ end] =>
             lazymatch type of (f x) with
             | (Live W * result _)%type => destruct (f x) as [? [[]|?]]
             end
         end;
    reflexivity.
Qed.

Lemma afterAllocation_fails (params : ContainerCreateConfig) (s s' : Live W)
    (e : error) :
  afterAllocation d params s = (s', Fail e)
  <-> exists k, FailsAt (laterSteps d params) k s s' e.
Proof.
  rewrite afterAllocation_steps, <- runSteps_fails. unfold bind.
  destruct (runSteps (laterSteps d params) s) as [s1 [[]|e1]]; [|tauto].
  destruct (announceCreated_succeeds s1) as [s2 ->].
  split; discriminate.
Qed.

(** An error before the allocation is returned without any cleanup. *)
Lemma create_fails_before_allocation (params : ContainerCreateConfig)
    (managed : bool) (s s0 : Store W) (err : error) :
  beforeAllocation d params managed s = (s0, Fail err) ->
  create d params managed s = (s0, Fail err).
Proof. intros H. unfold create. rewrite H. reflexivity. Qed.

(** Without an error the deferred function does nothing. *)
Lemma create_succeeds (params : ContainerCreateConfig) (managed : bool)
    (s s0 : Store W) (c : container.Container) (s1 : Live W) :
  beforeAllocation d params managed s = (s0, Ok c) ->
  afterAllocation d params (mkLive s0 c) = (s1, Ok tt) ->
  create d params managed s = (store s1, Ok (ctr s1)).
Proof. intros H0 H1. unfold create. rewrite H0, H1. reflexivity. Qed.


(** C9, as the code has it.  [mergeAndVerifyConfig] writes through the
    pointer [params.Config]: the object of the caller then holds the
    configuration merged with the defaults of the image, with an
    entrypoint [[""]] reset to nil.  It leaves the world and the host
    configuration as they are, and it leaves the process configuration
    as the caller supplied it, when [merge] changed nothing, exactly
    when the entrypoint is not [[""]]. *)
Theorem mergeAndVerifyConfig_in_place (img : option image.Image) (s : Store W) :
  let after := fst (mergeAndVerifyConfig d img s) in
  world after = world s
  /\ hostConfig after = hostConfig s
  /\ config after = fst (Merge.mergeAndVerifyConfig (merge d) (config s) img)
  /\ (Merge.mergeImageConfig (merge d) (config s) img = (config s, None) ->
      config after
      = (if Merge.isEmptyEntrypoint (Entrypoint (config s))
         then mkConfig (Image (config s)) None (Cmd (config s))
                (Env (config s)) (Labels (config s))
         else config s)
      /\ (config after = config s <-> Entrypoint (config s) <> Some [""])).
Proof.
  unfold mergeAndVerifyConfig.
  destruct (Merge.mergeAndVerifyConfig (merge d) (config s) img) as [cfg' err] eqn:E.
  assert (Hafter : fst (match err with
                        | Some e => (mkStore (world s) cfg' (hostConfig s), Fail e)
                        | None => (mkStore (world s) cfg' (hostConfig s),
                                   @Ok unit tt)
                        end) = mkStore (world s) cfg' (hostConfig s)).
  { destruct err; reflexivity. }
  cbn zeta. rewrite Hafter. cbn [world hostConfig config fst].
  split; [reflexivity|]. split; [reflexivity|]. split; [reflexivity|].
  intros Hmerge. rewrite mergeAndVerifyConfig_unfold, Hmerge in E.
  injection E as <- _. unfold Merge.resetEntrypoint.
  destruct (Merge.isEmptyEntrypoint (Entrypoint (config s))) eqn:Hempty.
  - apply isEmptyEntrypoint_iff in Hempty. split; [reflexivity|]. split.
    + intros Hsame. rewrite <- Hsame in Hempty. cbn in Hempty. discriminate.
    + intros Hne. contradiction.
  - split; [reflexivity|]. split; [|reflexivity].
    intros _ Heq. apply isEmptyEntrypoint_iff in Heq. congruence.
Qed.

End CreateFacts.

Section CreateExamples.

Import Create Examples.

Lemma inb_without (x y : string) (l : list string) :
  inb x (without y l) = true -> inb x l = true /\ x <> y.
Proof.
  unfold inb, without. rewrite !existsb_exists.
  intros (z & Hin & Hz). apply filter_In in Hin. destruct Hin as [Hin Hne].
  apply String.eqb_eq in Hz. subst z. split; [|intros ->].
  - exists x. split; [exact Hin|]. apply String.eqb_refl.
  - rewrite String.eqb_refl in Hne. discriminate.
Qed.

Lemma inb_without_same (x : string) (l : list string) :
  inb x (without x l) = false.
Proof.
  destruct (inb x (without x l)) eqn:E; [|reflexivity].
  apply inb_without in E. destruct E as [_ E]. contradiction.
Qed.

Lemma inb_without_inner (x y : string) (l : list string) :
  inb x (without y (without x l)) = false.
Proof.
  destruct (inb x (without y (without x l))) eqn:E; [|reflexivity].
  apply inb_without in E. destruct E as [E _].
  rewrite inb_without_same in E. discriminate.
Qed.

(** The cleanup of the example daemon meets the contract. *)
Lemma daemon_cleanupContract (faults : list string) :
  Spec.cleanupContract observer (daemon faults).
Proof.
  intros s s' H. cbn in H. unfold unless in H.
  destruct (inb "cleanup" faults); [discriminate|].
  injection H as <-. unfold Spec.nothingLeft. cbn.
  repeat split.
  - apply inb_without_same.
  - apply inb_without_same.
  - apply inb_without_same.
  - apply inb_without_inner.
Qed.


(** When the registration and then the cleanup fail, the caller still
    sees the error of the registration; the error of the cleanup is in
    the log, and the layer and the directories are still there. *)
Example create_cleanup_fails :
  create (daemon ["register"; "cleanup"]) (request "web") false webStore
  = (mkStore (mkWorld [] ["id-web"]
                ["/containers/web/checkpoints"; "/containers/web"]
                [Errorf "cleanup failed"])
       (process "alpine" None (Some ["/bin/sh"])) emptyHostConfig,
     Fail (Errorf "register failed")).
Proof. reflexivity. Qed.

(** A run without faults registers the container. *)
Example create_registers :
  world (fst (create (daemon []) (request "web") false webStore))
  = mkWorld ["id-web"] ["id-web"]
      ["/containers/web/checkpoints"; "/containers/web"] [].
Proof. reflexivity. Qed.

(** The caller passes the entrypoint [[""]] and the command [sh]: after
    [containerCreate] has created the container, the entrypoint of the
    caller's configuration is nil. *)
Lemma inputUnchanged_fails :
  ~ Spec.inputUnchanged (daemon []) (request "web") false
      (mkCaller emptyWorld (Some (process "" (Some [""]) (Some ["sh"]))) None).
Proof.
  unfold Spec.inputUnchanged. intros [Hconfig _].
  vm_compute in Hconfig. discriminate.
Qed.

Example containerCreate_resets_entrypoint :
  containerCreate (daemon []) (request "web") false
    (mkCaller emptyWorld (Some (process "" (Some [""]) (Some ["sh"]))) None)
  = (mkCaller (mkWorld ["id-web"] ["id-web"]
                 ["/containers/web/checkpoints"; "/containers/web"] [])
       (Some (process "" None (Some ["sh"]))) None,
     (mkBody "id-web" [], None)).
Proof. reflexivity. Qed.

Lemma mergeAndVerifyConfig_in_place_witness :
  config (fst (mergeAndVerifyConfig (daemon []) None
                 (mkStore emptyWorld (process "" (Some [""]) (Some ["sh"]))
                    emptyHostConfig)))
  = process "" None (Some ["sh"]).
Proof.
  destruct (mergeAndVerifyConfig_in_place (daemon []) None
              (mkStore emptyWorld (process "" (Some [""]) (Some ["sh"]))
                 emptyHostConfig)) as (_ & _ & _ & H).
  destruct (H eq_refl) as [Hafter _]. exact Hafter.
Defined.

Lemma mergeAndVerifyConfig_spec_witness :
  Merge.mergeImageConfig (merge (daemon [])) (process "alpine" (Some [""]) None)
    (Some alpine)
  = (process "alpine" (Some [""]) None, None)
  /\ snd (Merge.mergeAndVerifyConfig (merge (daemon []))
            (process "alpine" (Some [""]) None) (Some alpine))
     = Some Merge.ErrNoCommand.
Proof.
  split; [reflexivity|].
  destruct (mergeAndVerifyConfig_spec (merge (daemon []))
              (process "alpine" (Some [""]) None)
              (process "alpine" (Some [""]) None) (Some alpine) eq_refl)
    as (_ & _ & _ & [_ Hnone] & _).
  apply Hnone. split; reflexivity.
Defined.

Lemma verifyNetworkingConfig_spec_witness :
  Network.verifyNetworkingConfig netPkg
    (Some (Network.mkNetworkingConfig [("net0", endpoint "10.0.0.999" "")]))
  = Some (NewBadRequestError (Errorf "invalid IPv4 address: 10.0.0.999"))
  /\ Network.verifyNetworkingConfig netPkg
       (Some (Network.mkNetworkingConfig
                [("front", endpoint "10.0.0.1" ""); ("back", None)]))
     = Some (NewBadRequestError
               (Errorf "Container cannot be connected to network endpoints: front, back")).
Proof.
  destruct (verifyNetworkingConfig_spec netPkg) as (Hmany & _ & Hv4 & _).
  split.
  - apply (Hv4 "net0" (mkIPAM "10.0.0.999" "")); [discriminate|reflexivity].
  - apply (Hmany (Network.mkNetworkingConfig
                    [("front", endpoint "10.0.0.1" ""); ("back", None)])).
    cbn. lia.
Defined.

Example verifyNetworkingConfig_accepts :
  Network.verifyNetworkingConfig netPkg
    (Some (Network.mkNetworkingConfig [("net0", endpoint "10.0.0.1" "fe80::1")]))
  = None.
Proof. reflexivity. Qed.

Example verifyNetworkingConfig_rejects_ipv4_as_ipv6 :
  Network.verifyNetworkingConfig netPkg
    (Some (Network.mkNetworkingConfig [("net0", endpoint "" "192.168.1.7")]))
  = Some (NewBadRequestError (Errorf "invalid IPv6 address: 192.168.1.7")).
Proof. reflexivity. Qed.

End CreateExamples.

(** ** Delta synthesis *)

Section DeltaFacts.

Import Delta.

Context {St : Type}.
Variable d : Daemon St.

(** *** Arithmetic of [int64] *)

Ltac powers64 :=
  change (2 ^ 63)%Z with 9223372036854775808%Z in *;
  change (2 ^ 64)%Z with 18446744073709551616%Z in *.

Lemma wrap64_id (z : Z) : isInt64 z -> wrap64 z = z.
Proof.
  unfold isInt64, wrap64. intros H. powers64.
  rewrite Z.mod_small; lia.
Qed.

Lemma wrap64_add_l (a b : Z) : wrap64 (wrap64 a + b) = wrap64 (a + b).
Proof.
  unfold wrap64.
  replace ((a + 2 ^ 63) mod 2 ^ 64 - 2 ^ 63 + b + 2 ^ 63)%Z
    with ((a + 2 ^ 63) mod 2 ^ 64 + b)%Z by lia.
  rewrite Zplus_mod_idemp_l.
  replace (a + 2 ^ 63 + b)%Z with (a + b + 2 ^ 63)%Z by lia.
  reflexivity.
Qed.

(** Adding with [+=] gives the sum of the sizes, wrapped around once. *)
Lemma fold_add64 (sizes : list Z) (start : Z) :
  fold_left add64 sizes (wrap64 start) = wrap64 (start + total sizes).
Proof.
  revert start. induction sizes as [|z sizes IH]; intros start;
    cbn [fold_left total fold_right].
  - f_equal. lia.
  - change (add64 (wrap64 start) z) with (wrap64 (wrap64 start + z)).
    rewrite wrap64_add_l, IH. f_equal. fold (total sizes). lia.
Qed.

Lemma sum64_total (sizes : list Z) : sum64 sizes = wrap64 (total sizes).
Proof.
  unfold sum64. change 0%Z with (wrap64 0) at 1. apply fold_add64.
Qed.

Lemma sum64_exact (sizes : list Z) : isInt64 (total sizes) -> sum64 sizes = total sizes.
Proof. intros H. rewrite sum64_total. apply wrap64_id, H. Qed.

(** *** The record of calls *)

Lemma registeredData_app (a b : list Call) :
  registeredData (a ++ b) = registeredData a ++ registeredData b.
Proof.
  induction a as [|[chainID l|data parent platform newLayer] a IH]; cbn;
    rewrite ?IH; reflexivity.
Qed.

Lemma gotLayers_app (a b : list Call) :
  gotLayers (a ++ b) = gotLayers a ++ gotLayers b.
Proof.
  induction a as [|[chainID l|data parent platform newLayer] a IH]; cbn;
    rewrite ?IH; reflexivity.
Qed.

Lemma gotChains_app (a b : list Call) :
  gotChains (a ++ b) = gotChains a ++ gotChains b.
Proof.
  induction a as [|[chainID l|data parent platform newLayer] a IH]; cbn;
    rewrite ?IH; reflexivity.
Qed.

Lemma deltaLayers_app (a b : list Call) :
  deltaLayers (a ++ b) = deltaLayers a ++ deltaLayers b.
Proof.
  induction a as [|[chainID l|[|srcSig input tmp] parent platform newLayer] a IH];
    cbn; rewrite ?IH; reflexivity.
Qed.

(** *** One iteration of the loop *)

Lemma isCommonLayer_iff (srcDiffIDs : list DiffID) (i : nat) (diffID : DiffID) :
  isCommonLayer srcDiffIDs i diffID = true <-> srcDiffIDs !! i = Some diffID.
Proof.
  unfold isCommonLayer. rewrite andb_true_iff, Nat.ltb_lt, String.eqb_eq.
  rewrite nth_lookup. split.
  - intros [Hlt Heq]. destruct (lookup_lt_is_Some_2 _ _ Hlt) as [x Hx].
    rewrite Hx in *. cbn in Heq. congruence.
  - intros H. split; [eapply lookup_lt_Some, H|]. rewrite H. reflexivity.
Qed.

(** What a successful iteration has done. *)
Lemma layerStep_ok (storePlatform srcSig : string) (srcDiffIDs dstDiffIDs : list DiffID)
    (i : nat) (diffID : DiffID) (acc acc' : Acc) (s s' : State St) :
  layerStep d storePlatform srcSig srcDiffIDs dstDiffIDs i diffID acc s = (s', Ok acc') ->
  exists new newLayer,
    calls s' = calls s ++ new
    /\ deltaRootFS acc' = deltaRootFS acc ++ [LayerDiffID newLayer]
    /\ if isCommonLayer srcDiffIDs i diffID then
         new = [Registered EmptyLayerTar (ChainID d (deltaRootFS acc))
                  (EmptyLayerPlatform d) newLayer]
         /\ statTotalSize acc' = statTotalSize acc
         /\ statDeltaSize acc' = statDeltaSize acc
       else
         exists l input inputSize tmpDelta deltaSize,
           new = [GotLayer (ChainID d (firstn (i + 1) dstDiffIDs)) l;
                  Registered
                    (DeltaPipe srcSig
                       (mkProgressReader input inputSize (TruncateID d diffID)
                          "Computing delta") tmpDelta)
                    (ChainID d (deltaRootFS acc)) (Platform l) newLayer]
           /\ TarStream l = Ok input
           /\ DiffSize l = Ok inputSize
           /\ DiffSize newLayer = Ok deltaSize
           /\ statTotalSize acc' = add64 (statTotalSize acc) inputSize
           /\ statDeltaSize acc' = add64 (statDeltaSize acc) deltaSize.
Proof.
  unfold layerStep, changedLayer.
  destruct (isCommonLayer srcDiffIDs i diffID);
    unfold bind, ret, onStores, record, defer, write, modify, ofResult; cbn.
  - destruct (lsRegister d _ _ _ _ _) as [st [newLayer|e]]; [|discriminate].
    intros [= <- <-]. cbn. exists [Registered EmptyLayerTar (ChainID d (deltaRootFS acc))
                                     (EmptyLayerPlatform d) newLayer], newLayer.
    auto.
  - destruct (lsGet d _ _ _) as [st [l|e]]; [|discriminate]. cbn.
    destruct (TarStream l) as [input|e] eqn:Etar; [|discriminate]. cbn.
    destruct (DiffSize l) as [inputSize|e] eqn:Esize; [|discriminate]. cbn.
    destruct (TempFile d st) as [st1 [tmpDelta|e]]; [|discriminate]. cbn.
    destruct (lsRegister d _ _ _ _ _) as [st2 [newLayer|e]]; [|discriminate]. cbn.
    destruct (DiffSize newLayer) as [deltaSize|e] eqn:Edelta; [|discriminate]. cbn.
    intros [= <- <-]. cbn. rewrite <- app_assoc. cbn.
    eexists _, newLayer. split; [reflexivity|]. split; [reflexivity|].
    exists l, input, inputSize, tmpDelta, deltaSize. auto 10.
Qed.

(** *** The loop *)

(** What a successful run of the loop has done, from position [i] on. *)
Lemma layersFrom_ok (storePlatform srcSig : string) (srcDiffIDs dstDiffIDs : list DiffID)
    (rest : list DiffID) :
  forall (i : nat) (acc acc' : Acc) (s s' : State St),
    layersFrom d storePlatform srcSig srcDiffIDs dstDiffIDs i rest acc s = (s', Ok acc') ->
    exists new,
      calls s' = calls s ++ new
      /\ map isEmptyLayerTar (registeredData new) = classify srcDiffIDs i rest
      /\ length (deltaRootFS acc') = length (deltaRootFS acc) + length rest
      /\ gotChains new = changedChains d srcDiffIDs dstDiffIDs i rest
      /\ statTotalSize acc' = fold_left add64 (inputSizes new) (statTotalSize acc)
      /\ statDeltaSize acc' = fold_left add64 (deltaSizes new) (statDeltaSize acc)
      /\ Forall (fun l => DiffSize l = Ok (sizeOf l)) (gotLayers new ++ deltaLayers new)
      /\ length (gotLayers new) = length (deltaLayers new).
Proof.
  induction rest as [|diffID rest IH]; intros i acc acc' s s'; cbn [layersFrom].
  - intros [= <- <-]. exists []. rewrite app_nil_r. cbn. repeat split; auto.
  - unfold bind at 1.
    destruct (layerStep d storePlatform srcSig srcDiffIDs dstDiffIDs i diffID acc s)
      as [s1 [acc1|e]] eqn:Estep; [|discriminate].
    intros Hrest.
    destruct (layerStep_ok _ _ _ _ _ _ _ _ _ _ Estep)
      as (new1 & newLayer & Hcalls1 & Hroot1 & Hcase).
    destruct (IH _ _ _ _ _ Hrest)
      as (new2 & Hcalls2 & Hdata2 & Hlen2 & Hchains2 & Htotal2 & Hdelta2 & Hsizes2 & Hcount2).
    exists (new1 ++ new2).
    rewrite Hcalls2, Hcalls1, <- app_assoc. split; [reflexivity|].
    rewrite registeredData_app, gotChains_app, map_app.
    unfold inputSizes, deltaSizes in *.
    rewrite gotLayers_app, deltaLayers_app, !map_app, !fold_left_app, !length_app.
    rewrite Hlen2, Hroot1, length_app. cbn [classify changedChains length].
    destruct (isCommonLayer srcDiffIDs i diffID).
    + destruct Hcase as (-> & Htotal1 & Hdelta1). cbn.
      rewrite Hdata2, Hchains2, Htotal2, Hdelta2, Htotal1, Hdelta1, Hcount2.
      repeat split; try reflexivity; try lia. exact Hsizes2.
    + destruct Hcase as (l & input & inputSize & tmpDelta & deltaSize & -> & _
                         & Hsize & Hnew & Htotal1 & Hdelta1). cbn.
      assert (Hl : sizeOf l = inputSize) by (unfold sizeOf; rewrite Hsize; reflexivity).
      assert (Hn : sizeOf newLayer = deltaSize)
        by (unfold sizeOf; rewrite Hnew; reflexivity).
      rewrite Hdata2, Hchains2, Htotal2, Hdelta2, Htotal1, Hdelta1, Hcount2, Hl, Hn.
      repeat split; try reflexivity; try lia.
      apply Forall_cons. split; [congruence|].
      apply Forall_app in Hsizes2. destruct Hsizes2 as [Hgot Hdel].
      apply Forall_app. split; [exact Hgot|].
      apply Forall_cons. split; [congruence|exact Hdel].
Qed.

(** *** Which positions are common *)

Lemma classify_lookup (srcDiffIDs rest : list DiffID) :
  forall i j,
    classify srcDiffIDs i rest !! j
    = (fun diffID => isCommonLayer srcDiffIDs (i + j) diffID) <$> rest !! j.
Proof.
  induction rest as [|diffID rest IH]; intros i [|j]; cbn; try reflexivity.
  - rewrite Nat.add_0_r. reflexivity.
  - rewrite IH. replace (S i + j) with (i + S j) by lia. reflexivity.
Qed.

Lemma classify_length (srcDiffIDs rest : list DiffID) (i : nat) :
  length (classify srcDiffIDs i rest) = length rest.
Proof. revert i. induction rest; intros i; cbn; auto. Qed.

(** Sequences that agree at the first [k] positions and differ at the
    others: [k] common positions, then changed ones. *)
Lemma classify_prefix (srcDiffIDs dstDiffIDs : list DiffID) (k : nat) :
  (forall j, j < k -> srcDiffIDs !! j = dstDiffIDs !! j) ->
  k <= length dstDiffIDs ->
  (forall j, k <= j < length dstDiffIDs -> srcDiffIDs !! j <> dstDiffIDs !! j) ->
  classify srcDiffIDs 0 dstDiffIDs
  = replicate k true ++ replicate (length dstDiffIDs - k) false.
Proof.
  intros Hagree Hk Hdiffer. apply list_eq. intros j.
  rewrite classify_lookup. cbn [Nat.add].
  destruct (dstDiffIDs !! j) as [diffID|] eqn:Ej; cbn.
  - assert (Hj : j < length dstDiffIDs) by (eapply lookup_lt_Some, Ej).
    destruct (decide (j < k)) as [Hlt|Hge].
    + rewrite lookup_app_l by (rewrite length_replicate; exact Hlt).
      rewrite lookup_replicate_2 by exact Hlt. f_equal.
      apply isCommonLayer_iff. rewrite Hagree by exact Hlt. exact Ej.
    + rewrite lookup_app_r by (rewrite length_replicate; lia).
      rewrite length_replicate, lookup_replicate_2 by lia. f_equal.
      destruct (isCommonLayer srcDiffIDs j diffID) eqn:E; [|reflexivity].
      apply isCommonLayer_iff in E. exfalso. apply (Hdiffer j); [lia|congruence].
  - symmetry. apply lookup_ge_None_2. apply lookup_ge_None_1 in Ej.
    rewrite length_app, !length_replicate. lia.
Qed.

Lemma count_of_flags {A : Type} (f : A -> bool) (l : list A) (k m : nat) :
  map f l = replicate k true ++ replicate m false ->
  length (List.filter f l) = k.
Proof.
  revert k m. induction l as [|x l IH]; intros k m; cbn.
  - destruct k; [reflexivity|discriminate].
  - destruct k as [|k]; cbn.
    + destruct m as [|m]; cbn; [discriminate|]. intros [= -> H].
      apply (IH 0 m). exact H.
    + intros [= -> H]. cbn. f_equal. apply (IH k m). exact H.
Qed.

(** A position past the end of the source is a changed one. *)
Lemma isCommonLayer_past_source (srcDiffIDs : list DiffID) (i : nat) (diffID : DiffID) :
  length srcDiffIDs <= i -> isCommonLayer srcDiffIDs i diffID = false.
Proof.
  intros H. unfold isCommonLayer.
  destruct (Nat.ltb_spec i (length srcDiffIDs)); [lia|reflexivity].
Qed.

Lemma isCommonLayer_take (srcDiffIDs : list DiffID) (n i : nat) (diffID : DiffID) :
  i < n ->
  isCommonLayer (firstn n srcDiffIDs) i diffID = isCommonLayer srcDiffIDs i diffID.
Proof.
  intros H. apply eq_true_iff_eq.
  rewrite !isCommonLayer_iff, lookup_take_lt by exact H. reflexivity.
Qed.

(** The source layers from position [n] on are not looked at when the
    loop stays below [n]. *)
Lemma layersFrom_take (storePlatform srcSig : string) (srcDiffIDs dstDiffIDs : list DiffID)
    (n : nat) (rest : list DiffID) :
  forall (i : nat) (acc : Acc) (s : State St),
    i + length rest <= n ->
    layersFrom d storePlatform srcSig (firstn n srcDiffIDs) dstDiffIDs i rest acc s
    = layersFrom d storePlatform srcSig srcDiffIDs dstDiffIDs i rest acc s.
Proof.
  induction rest as [|diffID rest IH]; intros i acc s Hn; cbn [layersFrom length] in *;
    [reflexivity|].
  unfold bind, layerStep. rewrite isCommonLayer_take by lia.
  match goal with
  | |- match ?m with _ => _ end = _ => destruct m as [s1 [acc1|e]]
  end; [|reflexivity].
  apply IH. lia.
Qed.

(** *** The whole function *)

Lemma announce_ok (diffIDs : list DiffID) :
  forall s : State St,
    exists s', announce d diffIDs s = (s', Ok tt)
               /\ calls s' = calls s /\ stores s' = stores s.
Proof.
  induction diffIDs as [|diffID rest IH]; intros s; cbn [announce].
  - exists s. auto.
  - unfold bind, write, modify.
    destruct (IH (mkState (stores s)
                    (outStream s ++ [Update (TruncateID d diffID) "Waiting"])
                    (deferred s) (calls s))) as (s' & -> & Hc & Hs).
    exists s'. auto.
Qed.

(** What a call of [DeltaCreate] that returns no error has done. *)
Lemma DeltaCreate_ok (deltaSrc deltaDest : string) (st : St) (s : State St) :
  DeltaCreate d deltaSrc deltaDest st = (s, None) ->
  exists srcImg dstImg srcSig s1 s2 acc id,
    GetImage d deltaSrc st = Ok srcImg
    /\ GetImage d deltaDest st = Ok dstImg
    /\ calls s1 = []
    /\ layersFrom d (ImagePlatform d dstImg) srcSig
         (image.RootFS srcImg) (image.RootFS dstImg) 0 (image.RootFS dstImg)
         (mkAcc [] 0 0) s1 = (s2, Ok acc)
    /\ calls s = calls s2
    /\ outStream s
       = outStream s2
         ++ [StatusSizes (HumanSize d (toFloat64 (statTotalSize acc)))
               (HumanSize d (toFloat64 (statDeltaSize acc)))
               (deltaRatio (statTotalSize acc) (statDeltaSize acc));
             StatusCreated id].
Proof.
  unfold DeltaCreate.
  destruct (deltaCreateBody d deltaSrc deltaDest (initialState st)) as [s' [[]|e]] eqn:E;
    [|discriminate].
  intros [= <-]. revert E.
  unfold deltaCreateBody, initialState.
  unfold bind at 1. cbn [stores].
  destruct (GetImage d deltaSrc st) as [srcImg|e]; [|discriminate]. cbn [wrapf].
  unfold bind at 1. cbn [stores].
  destruct (GetImage d deltaDest st) as [dstImg|e]; [|discriminate]. cbn [wrapf].
  unfold bind at 1, onStores at 1. cbn [stores outStream deferred calls].
  destruct (GetTarSeekStream d _ _ st) as [st1 [srcData|e]]; [|discriminate].
  unfold bind at 1, defer at 1, modify. cbn [stores outStream deferred calls].
  unfold bind at 1, onStores at 1. cbn [stores outStream deferred calls].
  destruct (SeekerSize d srcData st1) as [st2 [srcDataLen|e]]; [|discriminate].
  unfold bind at 1, defer at 1, modify. cbn [stores outStream deferred calls].
  unfold bind at 1, onStores at 1. cbn [stores outStream deferred calls].
  destruct (Signature d _ st2) as [st3 [srcSig|e]]; [|discriminate].
  unfold bind at 1, write at 1, modify. cbn [stores outStream deferred calls].
  unfold bind at 1.
  match goal with
  | |- context [announce d ?l ?s0] =>
      destruct (announce_ok l s0) as (s1 & -> & Hcalls1 & _)
  end.
  unfold bind at 1.
  destruct (layersFrom d _ _ _ _ _ _ _ s1) as [s2 [acc|e]] eqn:Eloop; [|discriminate].
  unfold bind at 1, ofResult at 1.
  destruct (Marshal d _) as [rawConfig|e]; [|discriminate].
  unfold bind at 1, onStores at 1.
  destruct (isCreate d _ _ _) as [st4 [id|e]]; [|discriminate].
  unfold bind, write, modify. cbn [stores outStream deferred calls].
  intros [= <-].
  exists srcImg, dstImg, srcSig, s1, s2, acc, id.
  unfold runAllDeferred. cbn [stores outStream deferred calls].
  rewrite <- app_assoc. cbn. auto 10.
Qed.

(** *** The claims *)

(** The first [k] positions are common when the sequences agree there,
    and position [k] is a changed one when they differ there. *)
Lemma classify_first (srcDiffIDs dstDiffIDs : list DiffID) (k : nat) :
  (forall j, j < k -> srcDiffIDs !! j = dstDiffIDs !! j) ->
  k <= length dstDiffIDs ->
  firstn k (classify srcDiffIDs 0 dstDiffIDs) = replicate k true
  /\ (k < length dstDiffIDs ->
      srcDiffIDs !! k <> dstDiffIDs !! k ->
      classify srcDiffIDs 0 dstDiffIDs !! k = Some false).
Proof.
  intros Hagree Hk. split.
  - apply list_eq. intros j.
    destruct (decide (j < k)) as [Hlt|Hge].
    + rewrite lookup_take_lt, lookup_replicate_2, classify_lookup by exact Hlt.
      cbn [Nat.add].
      destruct (lookup_lt_is_Some_2 dstDiffIDs j ltac:(lia)) as [diffID Ej].
      rewrite Ej. cbn. f_equal. apply isCommonLayer_iff.
      rewrite Hagree by exact Hlt. exact Ej.
    + rewrite lookup_take_ge by lia. symmetry.
      apply lookup_replicate_None. lia.
  - intros Hlt Hne. rewrite classify_lookup. cbn [Nat.add].
    destruct (lookup_lt_is_Some_2 dstDiffIDs k Hlt) as [diffID Ek].
    rewrite Ek. cbn. f_equal.
    destruct (isCommonLayer srcDiffIDs k diffID) eqn:E; [|reflexivity].
    apply isCommonLayer_iff in E. congruence.
Qed.

(** C3.  When the two sequences of [DiffID] agree at the first [k]
    positions and differ at position [k], a run of the loop that returns
    has registered one layer for every destination layer, the first [k]
    of them from the tar stream of the empty layer and the next one from
    a delta, and the [RootFS] of the delta is as long as that of the
    destination.  When the sequences differ at every later position of
    the destination as well, all the other layers are registered from a
    delta, so exactly [k] empty layers are registered.  A position past
    the end of the source is a changed one, and the source layers past
    the length of the destination are not looked at. *)
Theorem layersFrom_common_prefix (storePlatform srcSig : string)
    (srcDiffIDs dstDiffIDs : list DiffID) (k : nat) (s s' : State St) (acc : Acc)
    (Hagree : forall j, j < k -> srcDiffIDs !! j = dstDiffIDs !! j)
    (Hk : k <= length dstDiffIDs)
    (Hfirst : k < length dstDiffIDs -> srcDiffIDs !! k <> dstDiffIDs !! k)
    (Hrun : layersFrom d storePlatform srcSig srcDiffIDs dstDiffIDs 0 dstDiffIDs
              (mkAcc [] 0 0) s = (s', Ok acc)) :
  (exists new,
      calls s' = calls s ++ new
      /\ length (registeredData new) = length dstDiffIDs
      /\ firstn k (map isEmptyLayerTar (registeredData new)) = replicate k true
      /\ (k < length dstDiffIDs ->
          map isEmptyLayerTar (registeredData new) !! k = Some false)
      /\ ((forall j, k <= j < length dstDiffIDs ->
                     srcDiffIDs !! j <> dstDiffIDs !! j) ->
          map isEmptyLayerTar (registeredData new)
          = replicate k true ++ replicate (length dstDiffIDs - k) false
          /\ length (List.filter isEmptyLayerTar (registeredData new)) = k))
  /\ length (deltaRootFS acc) = length dstDiffIDs
  /\ (forall i diffID,
         length srcDiffIDs <= i -> isCommonLayer srcDiffIDs i diffID = false)
  /\ (forall acc0 s0,
         layersFrom d storePlatform srcSig (firstn (length dstDiffIDs) srcDiffIDs)
           dstDiffIDs 0 dstDiffIDs acc0 s0
         = layersFrom d storePlatform srcSig srcDiffIDs dstDiffIDs 0 dstDiffIDs acc0 s0).
Proof.
  destruct (layersFrom_ok _ _ _ _ _ _ _ _ _ _ Hrun)
    as (new & Hcalls & Hdata & Hlen & _).
  destruct (classify_first _ _ _ Hagree Hk) as [Hcommon Hchanged].
  split; [|split; [|split]].
  - exists new. split; [exact Hcalls|]. split; [|split; [|split]].
    + rewrite <- (length_map isEmptyLayerTar), Hdata. apply classify_length.
    + rewrite Hdata. exact Hcommon.
    + intros Hlt. rewrite Hdata. apply Hchanged; auto.
    + intros Hdiffer.
      rewrite (classify_prefix _ _ _ Hagree Hk Hdiffer) in Hdata.
      split; [exact Hdata|]. eapply count_of_flags, Hdata.
  - rewrite Hlen. reflexivity.
  - apply isCommonLayer_past_source.
  - intros acc0 s0. apply layersFrom_take. cbn. lia.
Qed.

(** C8.  In a run of the loop that returns, [statTotalSize] is the sum,
    taken with [+=] from 0, of the sizes that [DiffSize] gave for the
    layers that [ls.Get] returned, which are the destination layers at the
    changed positions, and [statDeltaSize] is the sum of the sizes that
    [DiffSize] gave for the layers registered from a delta; there is one of
    each for every changed position.  These are the sums of the integers
    as long as they fit in an [int64].  An iteration at a common position
    changes neither counter. *)
Theorem layersFrom_counters (storePlatform srcSig : string)
    (srcDiffIDs dstDiffIDs : list DiffID) (s s' : State St) (acc : Acc)
    (Hrun : layersFrom d storePlatform srcSig srcDiffIDs dstDiffIDs 0 dstDiffIDs
              (mkAcc [] 0 0) s = (s', Ok acc)) :
  (exists new,
      calls s' = calls s ++ new
      /\ gotChains new = changedChains d srcDiffIDs dstDiffIDs 0 dstDiffIDs
      /\ length (deltaLayers new) = length (gotLayers new)
      /\ Forall (fun l => DiffSize l = Ok (sizeOf l)) (gotLayers new ++ deltaLayers new)
      /\ statTotalSize acc = sum64 (inputSizes new)
      /\ statDeltaSize acc = sum64 (deltaSizes new)
      /\ (isInt64 (total (inputSizes new)) ->
          statTotalSize acc = total (inputSizes new))
      /\ (isInt64 (total (deltaSizes new)) ->
          statDeltaSize acc = total (deltaSizes new)))
  /\ (forall i diffID before after t t',
         isCommonLayer srcDiffIDs i diffID = true ->
         layerStep d storePlatform srcSig srcDiffIDs dstDiffIDs i diffID before t
         = (t', Ok after) ->
         statTotalSize after = statTotalSize before
         /\ statDeltaSize after = statDeltaSize before).
Proof.
  split.
  - destruct (layersFrom_ok _ _ _ _ _ _ _ _ _ _ Hrun)
      as (new & Hcalls & _ & _ & Hchains & Htotal & Hdelta & Hsizes & Hcount).
    exists new. cbn [statTotalSize statDeltaSize] in Htotal, Hdelta.
    fold (sum64 (inputSizes new)) in Htotal. fold (sum64 (deltaSizes new)) in Hdelta.
    repeat split; auto.
    + intros H. rewrite Htotal. apply sum64_exact, H.
    + intros H. rewrite Hdelta. apply sum64_exact, H.
  - intros i diffID before after t t' Hcommon Hstep.
    destruct (layerStep_ok _ _ _ _ _ _ _ _ _ _ Hstep) as (new & newLayer & _ & _ & Hcase).
    rewrite Hcommon in Hcase. tauto.
Qed.

(** C2, as the code has it.  The status line of a call of [DeltaCreate]
    that returns no error carries the two accumulated sizes and a ratio
    that is 1 when the total size is zero, whatever the delta size, and
    otherwise the quotient of the total size by the delta size as
    [float64], whether the delta size is zero or not. *)
Theorem DeltaCreate_ratio (deltaSrc deltaDest : string) (st : St) (s : State St)
    (Hrun : DeltaCreate d deltaSrc deltaDest st = (s, None)) :
  let totalSize := sum64 (inputSizes (calls s)) in
  let deltaSize := sum64 (deltaSizes (calls s)) in
  (exists before id,
      outStream s
      = before ++ [StatusSizes (HumanSize d (toFloat64 totalSize))
                     (HumanSize d (toFloat64 deltaSize))
                     (deltaRatio totalSize deltaSize);
                   StatusCreated id])
  /\ (totalSize = 0%Z -> deltaRatio totalSize deltaSize = fone)
  /\ (totalSize <> 0%Z ->
      deltaRatio totalSize deltaSize
      = fdiv (toFloat64 totalSize) (toFloat64 deltaSize)).
Proof.
  destruct (DeltaCreate_ok _ _ _ _ Hrun)
    as (srcImg & dstImg & srcSig & s1 & s2 & acc & id & _ & _ & Hnone & Hloop & Hcalls & Hout).
  destruct (layersFrom_ok _ _ _ _ _ _ _ _ _ _ Hloop)
    as (new & Hnew & _ & _ & _ & Htotal & Hdelta & _).
  rewrite Hnone in Hnew. cbn in Hnew. rewrite Hcalls, Hnew.
  cbn [statTotalSize statDeltaSize] in Htotal, Hdelta.
  fold (sum64 (inputSizes new)) in Htotal. fold (sum64 (deltaSizes new)) in Hdelta.
  rewrite <- Htotal, <- Hdelta. cbn zeta.
  split; [|split].
  - exists (outStream s2), id. exact Hout.
  - intros H. unfold deltaRatio. rewrite H. reflexivity.
  - intros H. unfold deltaRatio. apply Z.eqb_neq in H. rewrite H. reflexivity.
Qed.

(** C4.  When the source and the destination resolve to images with one
    sequence of layers, as they do for one image, a call of [DeltaCreate]
    that returns no error has taken every position for a common one: it
    has registered one empty layer for every layer and asked for no
    layer, both sizes are 0, and the ratio it reports is 1. *)
Theorem DeltaCreate_same_image (deltaSrc deltaDest : string) (st : St) (s : State St)
    (srcImg dstImg : image.Image)
    (Hsrc : GetImage d deltaSrc st = Ok srcImg)
    (Hdst : GetImage d deltaDest st = Ok dstImg)
    (Hsame : image.RootFS srcImg = image.RootFS dstImg)
    (Hrun : DeltaCreate d deltaSrc deltaDest st = (s, None)) :
  classify (image.RootFS srcImg) 0 (image.RootFS dstImg)
  = replicate (length (image.RootFS dstImg)) true
  /\ registeredData (calls s) = replicate (length (image.RootFS dstImg)) EmptyLayerTar
  /\ gotLayers (calls s) = []
  /\ sum64 (inputSizes (calls s)) = 0%Z
  /\ sum64 (deltaSizes (calls s)) = 0%Z
  /\ exists before id,
       outStream s
       = before ++ [StatusSizes (HumanSize d (toFloat64 0)) (HumanSize d (toFloat64 0))
                      fone;
                    StatusCreated id].
Proof.
  destruct (DeltaCreate_ok _ _ _ _ Hrun)
    as (srcImg' & dstImg' & srcSig & s1 & s2 & acc & id & Hsrc' & Hdst' & Hnone
        & Hloop & Hcalls & Hout).
  rewrite Hsrc in Hsrc'. rewrite Hdst in Hdst'.
  injection Hsrc' as <-. injection Hdst' as <-.
  destruct (layersFrom_ok _ _ _ _ _ _ _ _ _ _ Hloop)
    as (new & Hnew & Hdata & _ & _ & Htotal & Hdelta & _ & Hcount).
  rewrite Hnone in Hnew. cbn in Hnew. rewrite Hcalls, Hnew.
  assert (Hclass : classify (image.RootFS srcImg) 0 (image.RootFS dstImg)
                   = replicate (length (image.RootFS dstImg)) true).
  { rewrite (classify_prefix _ _ (length (image.RootFS dstImg))).
    - rewrite Nat.sub_diag. cbn. apply app_nil_r.
    - intros j _. rewrite Hsame. reflexivity.
    - lia.
    - intros j Hj. lia. }
  rewrite Hclass in Hdata.
  assert (Hempty : registeredData new
                   = replicate (length (image.RootFS dstImg)) EmptyLayerTar).
  { clear - Hdata. revert Hdata.
    generalize (length (image.RootFS dstImg)) as n.
    generalize (registeredData new) as data.
    induction data as [|[|srcSig input tmp] data IH]; intros [|n]; cbn;
      try discriminate; try reflexivity.
    intros [= H]. f_equal. apply IH, H. }
  assert (Hdeltas : deltaLayers new = []).
  { clear - Hempty. revert Hempty.
    generalize (length (image.RootFS dstImg)) as n.
    induction new as [|[chainID l|[|srcSig input tmp] parent platform newLayer] new IH];
      intros n; cbn; try reflexivity.
    - apply IH.
    - destruct n; cbn; [discriminate|]. intros [= H]. eapply IH, H.
    - destruct n; discriminate. }
  assert (Hgot : gotLayers new = []).
  { rewrite Hdeltas in Hcount. destruct (gotLayers new); [reflexivity|discriminate]. }
  unfold inputSizes, deltaSizes in *. rewrite Hgot, Hdeltas in *.
  cbn in Htotal, Hdelta. rewrite Htotal, Hdelta in Hout.
  split; [exact Hclass|]. split; [exact Hempty|]. split; [reflexivity|].
  split; [reflexivity|]. split; [reflexivity|].
  exists (outStream s2), id. exact Hout.
Qed.

End DeltaFacts.

Section DeltaExamples.

Import Delta Examples.

Lemma layersFrom_common_prefix_witness :
  match layersFrom deltaDaemon "linux" "signature"
          ["sha256:base"; "sha256:lib1"; "sha256:old"]
          ["sha256:base"; "sha256:lib2"] 0
          ["sha256:base"; "sha256:lib2"] (mkAcc [] 0 0) (initialState 0) with
  | (s', Ok acc) =>
      map isEmptyLayerTar (registeredData (calls s')) = [true; false]
      /\ length (deltaRootFS acc) = 2
  | (_, Fail _) => False
  end.
Proof.
  eassert (Hrun : layersFrom deltaDaemon "linux" "signature"
                    ["sha256:base"; "sha256:lib1"; "sha256:old"]
                    ["sha256:base"; "sha256:lib2"] 0
                    ["sha256:base"; "sha256:lib2"] (mkAcc [] 0 0) (initialState 0)
                  = (_, Ok _)).
  { vm_compute. reflexivity. }
  assert (Hagree : forall j, j < 1 ->
            ["sha256:base"; "sha256:lib1"; "sha256:old"] !! j
            = ["sha256:base"; "sha256:lib2"] !! j).
  { intros [|j] Hj; [reflexivity|lia]. }
  assert (Hdiffer : forall j, 1 <= j < length ["sha256:base"; "sha256:lib2"] ->
            ["sha256:base"; "sha256:lib1"; "sha256:old"] !! j
            <> ["sha256:base"; "sha256:lib2"] !! j).
  { intros [|[|j]] Hj; cbn in Hj; try lia. discriminate. }
  destruct (layersFrom_common_prefix deltaDaemon _ _ _ _ 1 _ _ _ Hagree
              ltac:(cbn; lia) ltac:(intros _; discriminate) Hrun)
    as ((new & Hcalls & _ & _ & _ & Hall) & Hlen & _).
  destruct (Hall Hdiffer) as [Hflags _].
  rewrite Hrun. split; [|exact Hlen].
  rewrite Hcalls. exact Hflags.
Defined.

Lemma layersFrom_counters_witness :
  match layersFrom deltaDaemon "linux" "signature"
          ["sha256:base"; "sha256:lib1"; "sha256:old"]
          ["sha256:base"; "sha256:lib2"] 0
          ["sha256:base"; "sha256:lib2"] (mkAcc [] 0 0) (initialState 0) with
  | (s', Ok acc) =>
      statTotalSize acc = sum64 (inputSizes (calls s'))
      /\ statDeltaSize acc = sum64 (deltaSizes (calls s'))
  | (_, Fail _) => False
  end.
Proof.
  eassert (Hrun : layersFrom deltaDaemon "linux" "signature"
                    ["sha256:base"; "sha256:lib1"; "sha256:old"]
                    ["sha256:base"; "sha256:lib2"] 0
                    ["sha256:base"; "sha256:lib2"] (mkAcc [] 0 0) (initialState 0)
                  = (_, Ok _)).
  { vm_compute. reflexivity. }
  destruct (layersFrom_counters deltaDaemon _ _ _ _ _ _ _ Hrun)
    as ((new & Hcalls & _ & _ & _ & Htotal & Hdelta & _) & _).
  rewrite Hrun. rewrite Hcalls. split; [exact Htotal|exact Hdelta].
Defined.

(** In that run 4096 bytes of layer are encoded in a delta of 522 bytes. *)
Example layersFrom_sizes :
  snd (layersFrom deltaDaemon "linux" "signature"
         ["sha256:base"; "sha256:lib1"; "sha256:old"]
         ["sha256:base"; "sha256:lib2"] 0
         ["sha256:base"; "sha256:lib2"] (mkAcc [] 0 0) (initialState 0))
  = Ok (mkAcc ["sha256:empty"; "sha256:delta:tar:sha256:base+sha256:lib2"] 4096 522).
Proof. reflexivity. Qed.

Lemma DeltaCreate_same_image_witness :
  registeredData (calls (fst (DeltaCreate deltaDaemon "app:v1" "app:v1" 0)))
  = [EmptyLayerTar; EmptyLayerTar; EmptyLayerTar]
  /\ sum64 (deltaSizes (calls (fst (DeltaCreate deltaDaemon "app:v1" "app:v1" 0)))) = 0%Z.
Proof.
  eassert (Hrun : DeltaCreate deltaDaemon "app:v1" "app:v1" 0 = (_, None)).
  { vm_compute. reflexivity. }
  destruct (DeltaCreate_same_image deltaDaemon "app:v1" "app:v1" 0 _ _ _
              eq_refl eq_refl eq_refl Hrun)
    as (_ & Hdata & _ & _ & Hdelta & _).
  rewrite Hrun. cbn [fst]. split; [exact Hdata|exact Hdelta].
Defined.

Lemma DeltaCreate_ratio_witness :
  deltaRatio
    (sum64 (inputSizes (calls (fst (DeltaCreate deltaDaemon "app:v1" "app:v2" 0)))))
    (sum64 (deltaSizes (calls (fst (DeltaCreate deltaDaemon "app:v1" "app:v2" 0)))))
  = fdiv (toFloat64 4096) (toFloat64 522).
Proof.
  eassert (Hrun : DeltaCreate deltaDaemon "app:v1" "app:v2" 0 = (_, None)).
  { vm_compute. reflexivity. }
  destruct (DeltaCreate_ratio deltaDaemon "app:v1" "app:v2" 0 _ Hrun)
    as (_ & _ & Hratio).
  rewrite Hrun. cbn [fst]. apply Hratio. vm_compute. discriminate.
Defined.

(** The constant [fone] is the [float64] of 1. *)
Example fone_is_one : toFloat64 1 = fone.
Proof. reflexivity. Qed.

(** With nothing to encode the quotient is not a number, and 1 is
    reported. *)
Example deltaRatio_nothing_changed :
  fdiv (toFloat64 0) (toFloat64 0) = S754_nan /\ deltaRatio 0 0 = fone.
Proof. split; reflexivity. Qed.

(** A delta size of zero with a total size that is not zero gives an
    infinite ratio, not 1. *)
Example deltaRatio_zero_delta :
  deltaRatio 5 0 = S754_infinity false /\ Spec.specRatio 5 0 = fone.
Proof. split; reflexivity. Qed.

(** From [app:v1] to [app:marker] the one changed layer has no content:
    the total size is 0, its delta has 10 bytes, and the status line
    carries the ratio 1, where the quotient of the sizes is 0. *)
Lemma reportsSpecRatio_fails :
  ~ Spec.reportsSpecRatio deltaDaemon "app:v1" "app:marker" 0.
Proof.
  intros Hclaim.
  eassert (Hrun : DeltaCreate deltaDaemon "app:v1" "app:marker" 0 = (_, None)).
  { vm_compute. reflexivity. }
  destruct (Hclaim _ Hrun) as (humanTotal & humanDelta & Hin).
  vm_compute in Hin.
  repeat (destruct Hin as [Hin|Hin]; [discriminate|]).
  exact Hin.
Qed.

Example DeltaCreate_marker :
  outStream (fst (DeltaCreate deltaDaemon "app:v1" "app:marker" 0))
  = [Update "app:v1" "Fingerprint complete";
     Update "sha256:base" "Waiting";
     Update "sha256:nothing" "Waiting";
     Update "sha256:base" "Skipping common layer";
     Update "sha256:nothing" "Delta complete";
     StatusSizes "0B" "more" fone;
     StatusCreated
       "sha256:image:json:sha256:empty+sha256:delta:tar:sha256:base+sha256:nothing"]
  /\ Spec.specRatio 0 10 = S754_zero false.
Proof. split; reflexivity. Qed.

End DeltaExamples.

(** * Further properties of the code *)

(** ** Security labels *)

Section LabelExtras.

Import Labels.

Lemma Split0_own_label (l0 : string) : Split0 ("label=" +:+ l0) = "label".
Proof. reflexivity. Qed.

(** X1.  A label that [generateSecurityOpt] has returned is a label
    option for [generateSecurityOpt]: with one of them among the security
    options of a host configuration, resolution returns no labels and no
    error, whatever the modes and whatever the daemon. *)
Theorem generateSecurityOpt_own_labels_override (d d' : LabelEnv)
    (resolved hostConfig : HostConfig) (labels : strslice) (l : string)
    (Hret : generateSecurityOpt d resolved = Ret labels)
    (Hin : In l (elems labels))
    (Hopt : In l (SecurityOpt hostConfig)) :
  generateSecurityOpt d' hostConfig = Ret None.
Proof.
  destruct (generateSecurityOpt_returns _ _ _ Hret) as [->|[raw ->]];
    [destruct Hin|].
  apply toHostConfigSelinuxLabels_prefixed in Hin. destruct Hin as (l0 & -> & _).
  unfold generateSecurityOpt.
  assert (Hex : existsb (fun opt => String.eqb (Split0 opt) "label")
                  (SecurityOpt hostConfig) = true).
  { apply existsb_exists. exists ("label=" +:+ l0). split; [exact Hopt|].
    rewrite Split0_own_label. reflexivity. }
  rewrite Hex. reflexivity.
Qed.

(** X2.  With one namespace only shared from a peer, the labels of that
    peer are duplicated and returned with their prefix, without any
    comparison, and a failed lookup of the peer is the error; with no
    namespace shared from a peer, no labels are returned. *)
Theorem generateSecurityOpt_one_peer (d : LabelEnv) (hostConfig : HostConfig)
    (Hopt : existsb (fun opt => String.eqb (Split0 opt) "label")
              (SecurityOpt hostConfig) = false)
    (Hhost : IpcIsHost d (IpcMode hostConfig) || PidIsHost d (PidMode hostConfig)
             || Privileged hostConfig = false) :
  let ipcContainer := IpcContainer d (IpcMode hostConfig) in
  let pidContainer := PidContainer d (PidMode hostConfig) in
  (ipcContainer <> "" -> pidContainer = "" ->
   generateSecurityOpt d hostConfig
   = match GetContainer d ipcContainer with
     | Ok processLabel => Ret (toHostConfigSelinuxLabels (DupSecOpt d processLabel))
     | Fail e => Err e
     end)
  /\ (ipcContainer = "" -> pidContainer <> "" ->
      generateSecurityOpt d hostConfig
      = match GetContainer d pidContainer with
        | Ok processLabel => Ret (toHostConfigSelinuxLabels (DupSecOpt d processLabel))
        | Fail e => Err e
        end)
  /\ (ipcContainer = "" -> pidContainer = "" ->
      generateSecurityOpt d hostConfig = Ret None).
Proof.
  cbn zeta. unfold generateSecurityOpt. rewrite Hopt, Hhost. unfold labelsOfPeers.
  split; [|split].
  - intros Hi ->. apply String.eqb_neq in Hi. rewrite Hi. cbn.
    destruct (GetContainer d _); reflexivity.
  - intros -> Hp. apply String.eqb_neq in Hp. rewrite Hp. cbn.
    destruct (GetContainer d _); reflexivity.
  - intros -> ->. reflexivity.
Qed.

Lemma compareFrom_error (pid ipc : list string) (indices : list nat) (e : error) :
  compareFrom pid ipc indices = Some (Err e) -> e = ErrLabelsDiffer.
Proof.
  induction indices as [|i rest IH]; cbn; [discriminate|].
  destruct (pid !! i), (ipc !! i); try discriminate.
  destruct (String.eqb _ _); [exact IH|]. intros [= <-]. reflexivity.
Qed.

Lemma compareLabels_error (ipcLabel pidLabel : strslice) (e : error) :
  compareLabels ipcLabel pidLabel = Err e -> e = ErrLabelsDiffer.
Proof.
  unfold compareLabels. destruct pidLabel as [pid|], ipcLabel as [ipc|];
    try discriminate.
  destruct (compareFrom pid ipc _) as [stop|] eqn:E; [|discriminate].
  intros ->. eapply compareFrom_error, E.
Qed.


(** The loop stops at the first position at which the two sets differ:
    with an error when the IPC set has that position, with a panic when it
    has not. *)
Lemma compareFrom_first_difference (pid ipc : list string) (j : nat) :
  forall n k,
    k <= j < k + n -> k + n <= length pid ->
    (forall i, k <= i < j -> pid !! i = ipc !! i) ->
    pid !! j <> ipc !! j ->
    compareFrom pid ipc (seq k n)
    = Some (if Nat.ltb j (length ipc) then Err ErrLabelsDiffer
            else Panic j (length ipc)).
Proof.
  induction n as [|n IH]; intros k Hj Hlen Hagree Hdiffer; [lia|].
  cbn [seq compareFrom].
  destruct (lookup_lt_is_Some_2 pid k ltac:(lia)) as [p Ep]. rewrite Ep.
  destruct (decide (j = k)) as [->|Hne].
  - rewrite Ep in Hdiffer. destruct (ipc !! k) as [q|] eqn:Eq.
    + destruct (String.eqb_spec p q) as [->|_]; [congruence|].
      apply lookup_lt_Some in Eq. apply Nat.ltb_lt in Eq. rewrite Eq. reflexivity.
    + apply lookup_ge_None_1 in Eq.
      destruct (Nat.ltb_spec k (length ipc)); [lia|reflexivity].
  - rewrite <- (Hagree k), Ep by lia. rewrite String.eqb_refl.
    apply IH; try lia; auto. intros i Hi. apply Hagree. lia.
Qed.

Lemma compareFrom_all_agree (pid ipc : list string) :
  forall n k,
    k + n <= length pid ->
    (forall i, k <= i < k + n -> pid !! i = ipc !! i) ->
    compareFrom pid ipc (seq k n) = None.
Proof.
  induction n as [|n IH]; intros k Hlen Hagree; [reflexivity|].
  cbn [seq compareFrom].
  destruct (lookup_lt_is_Some_2 pid k ltac:(lia)) as [p Ep].
  rewrite <- (Hagree k), Ep by lia. rewrite String.eqb_refl.
  apply IH; [lia|]. intros i Hi. apply Hagree. lia.
Qed.

Lemma first_difference (a b : list string) :
  a <> b ->
  exists j, a !! j <> b !! j /\ forall i, i < j -> a !! i = b !! i.
Proof.
  revert b. induction a as [|x a IH]; intros [|y b] Hne.
  - contradiction.
  - exists 0. split; [discriminate|]. intros i Hi. lia.
  - exists 0. split; [discriminate|]. intros i Hi. lia.
  - destruct (decide (x = y)) as [->|Hxy].
    + destruct (IH b) as (j & Hj & Hbefore); [congruence|].
      exists (S j). split; [exact Hj|].
      intros [|i] Hi; [reflexivity|]. apply Hbefore. lia.
    + exists 0. split; [cbn; congruence|]. intros i Hi. lia.
Qed.

(** X4.  With both namespaces shared from peers whose duplicated label
    sets are not nil, the loop of lines 238-242 looks at the positions of
    the PID set only.  When the sets differ at a position that both have,
    resolution fails with the inconsistent-labels error.  Otherwise, when
    the PID set is not longer than the IPC set it returns the PID set with
    its prefixes, the further labels of the IPC set being ignored; and when
    the PID set is longer, [ipcLabel[i]] is out of range at
    [i = len(ipcLabel)] and the function panics. *)
Theorem generateSecurityOpt_unequal_sets (d : LabelEnv) (hostConfig : HostConfig)
    (ipcProcessLabel pidProcessLabel : string) (ipc pid : list string)
    (Hshared : Spec.bothShared d hostConfig ipcProcessLabel pidProcessLabel)
    (Hipc : DupSecOpt d ipcProcessLabel = Some ipc)
    (Hpid : DupSecOpt d pidProcessLabel = Some pid) :
  let m := Nat.min (length pid) (length ipc) in
  (firstn m pid <> firstn m ipc ->
   generateSecurityOpt d hostConfig = Err ErrLabelsDiffer)
  /\ (firstn m pid = firstn m ipc -> length pid <= length ipc ->
      generateSecurityOpt d hostConfig
      = Ret (Some (map (fun l => "label=" +:+ l) pid)))
  /\ (firstn m pid = firstn m ipc -> length ipc < length pid ->
      generateSecurityOpt d hostConfig = Panic (length ipc) (length ipc)).
Proof.
  cbn zeta. rewrite (generateSecurityOpt_both _ _ _ _ Hshared), Hipc, Hpid.
  unfold compareLabels. set (m := Nat.min (length pid) (length ipc)).
  assert (Hlookup : forall i, i < m ->
            firstn m pid !! i = pid !! i /\ firstn m ipc !! i = ipc !! i).
  { intros i Hi. rewrite !lookup_take_lt by exact Hi. auto. }
  split; [|split].
  - intros Hne. destruct (first_difference _ _ Hne) as (j & Hj & Hbefore).
    assert (Hjm : j < m).
    { destruct (decide (j < m)); [assumption|].
      exfalso. apply Hj. rewrite !lookup_take_ge by lia. reflexivity. }
    destruct (Hlookup j Hjm) as [Hp Hi]. rewrite Hp, Hi in Hj.
    rewrite (compareFrom_first_difference pid ipc j (length pid) 0); try lia.
    + destruct (Nat.ltb_spec j (length ipc)); [reflexivity|lia].
    + intros i Hi'. destruct (Hlookup i ltac:(lia)) as [<- <-].
      apply Hbefore. lia.
    + exact Hj.
  - intros Heq Hlen. rewrite compareFrom_all_agree; [reflexivity|lia|].
    intros i Hi'. destruct (Hlookup i ltac:(lia)) as [<- <-]. rewrite Heq.
    reflexivity.
  - intros Heq Hlen.
    rewrite (compareFrom_first_difference pid ipc (length ipc) (length pid) 0);
      try lia.
    + rewrite Nat.ltb_irrefl. reflexivity.
    + intros i Hi'. destruct (Hlookup i ltac:(lia)) as [<- <-]. rewrite Heq.
      reflexivity.
    + destruct (lookup_lt_is_Some_2 pid (length ipc) Hlen) as [p ->].
      rewrite lookup_ge_None_2 by lia. discriminate.
Qed.

End LabelExtras.

(** ** Networking configuration *)

Section NetworkExtras.

Import Network.

Variable net : NetPkg.

(** X5.  With exactly one endpoint configuration the validation passes
    exactly when the endpoint or its IPAM configuration is nil, or when the
    static IPv4 address is empty or has a [To4] form and the static IPv6
    address is empty or parses to an address without a [To4] form. *)
Theorem verifyNetworkingConfig_single_passes (name : string)
    (v : option EndpointSettings) :
  verifyNetworkingConfig net (Some (mkNetworkingConfig [(name, v)])) = None
  <-> match v with
      | Some (mkEndpoint (Some ipam)) =>
          (IPv4Address ipam = ""
           \/ To4 net (ParseIP net (IPv4Address ipam)) <> None)
          /\ (IPv6Address ipam = ""
              \/ (ParseIP net (IPv6Address ipam) <> None
                  /\ To4 net (ParseIP net (IPv6Address ipam)) = None))
      | _ => True
      end.
Proof.
  rewrite verifyNetworkingConfig_single.
  destruct v as [[[[v4 v6]|]]|]; cbn; try tauto.
  set (t4 := To4 net (ParseIP net v4)).
  set (p6 := ParseIP net v6). set (t6 := To4 net p6).
  clearbody t4 t6 p6.
  destruct (String.eqb_spec v4 "") as [->|H4];
    destruct (String.eqb_spec v6 "") as [->|H6];
    destruct t4, p6, t6; cbn; intuition (congruence || discriminate).
Qed.

(** X6.  Every error of the validation is a bad-request error that
    wraps a formatted message. *)
Theorem verifyNetworkingConfig_bad_request (nwConfig : option NetworkingConfig)
    (err : error) :
  verifyNetworkingConfig net nwConfig = Some err ->
  exists msg, err = NewBadRequestError (Errorf msg).
Proof.
  assert (Hone : forall v e, checkEndpoint net v = Some e ->
                             exists msg, e = NewBadRequestError (Errorf msg)).
  { intros [[[ipam|]]|] e; cbn; try discriminate.
    destruct (_ && _); [intros [= <-]; eauto|].
    destruct (negb _); [|discriminate].
    destruct (_ || _); [intros [= <-]; eauto|discriminate]. }
  assert (Hall : forall entries e, checkEndpoints net entries = Some e ->
                                   exists msg, e = NewBadRequestError (Errorf msg)).
  { induction entries as [|[name v] rest IH]; intros e; cbn; [discriminate|].
    destruct (checkEndpoint net v) as [e1|] eqn:E1; [|apply IH].
    intros [= <-]. eapply Hone, E1. }
  destruct nwConfig as [[entries]|]; cbn; [|discriminate].
  destruct (Nat.eqb (length entries) 0); [discriminate|].
  destruct (Nat.eqb (length entries) 1); [apply Hall|].
  intros [= <-]. eauto.
Qed.

End NetworkExtras.

Section NetworkNames.

Import Network.

(** X7.  With no endpoint configuration or with more than one, no address
    is looked at: the result is the same for every address parser and for
    all endpoint settings under the same network names. *)
Theorem verifyNetworkingConfig_names_only (net net' : NetPkg)
    (cfg cfg' : NetworkingConfig)
    (Hnames : map fst (EndpointsConfig cfg) = map fst (EndpointsConfig cfg'))
    (Hmany : length (EndpointsConfig cfg) <> 1) :
  verifyNetworkingConfig net (Some cfg) = verifyNetworkingConfig net' (Some cfg').
Proof.
  assert (Hlen : length (EndpointsConfig cfg') = length (EndpointsConfig cfg)).
  { rewrite <- (length_map fst (EndpointsConfig cfg')), <- Hnames.
    apply length_map. }
  unfold verifyNetworkingConfig. rewrite Hlen, Hnames.
  destruct (Nat.eqb (length (EndpointsConfig cfg)) 0); [reflexivity|].
  destruct (Nat.eqb_spec (length (EndpointsConfig cfg)) 1); [contradiction|].
  reflexivity.
Qed.

End NetworkNames.

(** ** Merging the process configuration *)

Section MergeExtras.

Import Merge.

Variable merge : Config -> Config -> Config * option error.

Lemma resetEntrypoint_not_empty (config : Config) :
  isEmptyEntrypoint (Entrypoint (resetEntrypoint config)) = false.
Proof.
  unfold resetEntrypoint.
  destruct (isEmptyEntrypoint (Entrypoint config)) eqn:E; [reflexivity|exact E].
Qed.

Lemma resetEntrypoint_idempotent (config : Config) :
  resetEntrypoint (resetEntrypoint config) = resetEntrypoint config.
Proof.
  unfold resetEntrypoint at 1. rewrite resetEntrypoint_not_empty. reflexivity.
Qed.

(** X8.  A configuration that [mergeAndVerifyConfig] has accepted has
    something to run: its entrypoint is not [[""]], and its entrypoint and
    its command are not both empty. *)
Theorem mergeAndVerifyConfig_accepted (config after : Config)
    (img : option image.Image)
    (Hok : mergeAndVerifyConfig merge config img = (after, None)) :
  Entrypoint after <> Some [""]
  /\ 0 < len (Entrypoint after) + len (Cmd after).
Proof.
  rewrite mergeAndVerifyConfig_unfold in Hok.
  destruct (mergeImageConfig merge config img) as [merged [err|]]; [discriminate|].
  destruct (Nat.eqb_spec (len (Entrypoint (resetEntrypoint merged))) 0) as [He|He];
    destruct (Nat.eqb_spec (len (Cmd (resetEntrypoint merged))) 0) as [Hc|Hc];
    cbn in Hok; try discriminate; injection Hok as <-.
  all: split; [|lia].
  all: intros H; apply isEmptyEntrypoint_iff in H;
    rewrite resetEntrypoint_not_empty in H; discriminate.
Qed.


End MergeExtras.

Section MergeWithoutImage.

Import Merge.

(** X10.  Without an image, and with an image that carries no
    configuration, [merge] is not consulted: the outcome is the same for
    every [merge], the only change is the reset of the entrypoint, and
    the only possible error is the no-command error. *)
Theorem mergeAndVerifyConfig_without_image_config
    (merge merge' : Config -> Config -> Config * option error)
    (config : Config) (img : option image.Image)
    (Himg : match img with
            | Some i => image.Config i = None
            | None => True
            end) :
  mergeAndVerifyConfig merge config img = mergeAndVerifyConfig merge' config img
  /\ fst (mergeAndVerifyConfig merge config img) = resetEntrypoint config
  /\ (snd (mergeAndVerifyConfig merge config img) = None
      \/ snd (mergeAndVerifyConfig merge config img) = Some ErrNoCommand).
Proof.
  assert (Hnone : forall m, mergeImageConfig m config img = (config, None)).
  { intros m. destruct img as [[id os [c|] rootfs raw]|]; cbn in *;
      [discriminate|reflexivity|reflexivity]. }
  rewrite !mergeAndVerifyConfig_unfold, !Hnone. cbn [fst snd].
  split; [reflexivity|]. split; [reflexivity|].
  destruct (_ && _); auto.
Qed.

End MergeWithoutImage.

(** ** Container creation *)

Section CreateExtras.

Import Create.

Context {W : Type}.
Variable d : Daemon W.

(** X11.  Without a process configuration both entry points return the
    empty-configuration error at once: no identifier, no warnings, and
    the state of the caller and of the daemon as it was. *)
Theorem ContainerCreate_nil_config (params : ContainerCreateConfig) (s : Caller W)
    (Hnil : callerConfig s = None) :
  ContainerCreate d params s
  = (s, (mkBody "" [],
         Some (Errorf "Config cannot be empty in order to create a container")))
  /\ CreateManagedContainer d params s = ContainerCreate d params s.
Proof.
  unfold CreateManagedContainer, ContainerCreate, containerCreate.
  rewrite Hnil. split; reflexivity.
Qed.

(** X12.  Whenever [containerCreate] returns an error, the body it
    returns has no identifier; and whenever the process configuration is
    there, the body carries the warnings of [verifyContainerSettings],
    with or without an error. *)
Theorem containerCreate_body (params : ContainerCreateConfig) (managed : bool)
    (s : Caller W) :
  let body := fst (snd (containerCreate d params managed s)) in
  (forall err, snd (snd (containerCreate d params managed s)) = Some err ->
               BodyID body = "")
  /\ (forall cfg,
         callerConfig s = Some cfg ->
         Warnings body
         = fst (snd (verifyContainerSettings d (callerHostConfig s) cfg false
                       (callerWorld s)))).
Proof.
  cbn zeta. unfold containerCreate.
  destruct (callerConfig s) as [cfg|]; [|split; [reflexivity|discriminate]].
  destruct (verifyContainerSettings d (callerHostConfig s) cfg false (callerWorld s))
    as [[[w hc] cfg'] [warnings err0]] eqn:Hverify.
  assert (Hwarn : forall cfg0,
             Some cfg = Some cfg0 ->
             warnings
             = fst (snd (verifyContainerSettings d (callerHostConfig s) cfg0 false
                           (callerWorld s)))).
  { intros cfg0 [= <-]. rewrite Hverify. reflexivity. }
  destruct err0 as [err0|]; cbn [fst snd].
  { split; [reflexivity|exact Hwarn]. }
  destruct (Network.verifyNetworkingConfig _ _); cbn [fst snd].
  { split; [reflexivity|exact Hwarn]. }
  destruct (adaptContainerSettings d _ _) as [st [[]|e]]; cbn [fst snd].
  2: { split; [reflexivity|exact Hwarn]. }
  destruct (create d params managed st) as [st' [c|e]]; cbn [fst snd].
  - split; [discriminate|exact Hwarn].
  - split; [reflexivity|exact Hwarn].
Qed.

(** X13.  A request with two or more endpoint configurations is refused
    before anything is adapted or allocated: once the settings are
    verified without error, [containerCreate] returns the bad-request
    error that lists the names, and the daemon's state is the one that
    [verifyContainerSettings] left. *)
Theorem containerCreate_many_networks (params : ContainerCreateConfig)
    (managed : bool) (s : Caller W) (cfg cfg' : Config) (w : W)
    (hc : option HostConfig) (warnings : list string)
    (nw : Network.NetworkingConfig)
    (Hcfg : callerConfig s = Some cfg)
    (Hverify : verifyContainerSettings d (callerHostConfig s) cfg false (callerWorld s)
               = (w, hc, cfg', (warnings, None)))
    (Hnw : NetworkingConfig params = Some nw)
    (Hmany : 2 <= length (Network.EndpointsConfig nw)) :
  containerCreate d params managed s
  = (mkCaller w (Some cfg') (pointee (callerHostConfig s) hc),
     (mkBody "" warnings,
      Some (NewBadRequestError
              (Errorf ("Container cannot be connected to network endpoints: "
                       +:+ Network.Join (map fst (Network.EndpointsConfig nw)) ", "))))).
Proof.
  unfold containerCreate. rewrite Hcfg, Hverify, Hnw.
  unfold Network.verifyNetworkingConfig.
  destruct (Network.EndpointsConfig nw) as [|e1 [|e2 rest]]; cbn in Hmany; try lia.
  reflexivity.
Qed.

(** X14.  An empty platform in the request stands for the platform of
    the daemon, and where LCOW is supported the platform of the request
    is not looked at. *)
Theorem create_platform_default (name : string)
    (nw : option Network.NetworkingConfig) (adjust managed : bool) (s : Store W) :
  create d (mkParams name "" nw adjust) managed s
  = create d (mkParams name (GOOS d) nw adjust) managed s
  /\ (LCOWSupported d = true ->
      forall platform platform',
        create d (mkParams name platform nw adjust) managed s
        = create d (mkParams name platform' nw adjust) managed s).
Proof.
  split.
  - unfold create, beforeAllocation, afterAllocation. cbn [Platform Name NetworkingConfig].
    rewrite String.eqb_refl.
    destruct (String.eqb (GOOS d) ""); reflexivity.
  - intros Hlcow platform platform'.
    unfold create, beforeAllocation, afterAllocation.
    cbn [Platform Name NetworkingConfig]. rewrite Hlcow. reflexivity.
Qed.

(** X15.  A call of [setRWLayer] that returns no error has created the
    layer with the mount label and the storage options of the container,
    without an init function for the runtime [bare], on the empty chain
    and without a look at the image store when the container has no
    image, and has stored the layer in the container. *)
Theorem setRWLayer_assigns (runtime : string) (s s' : Live W)
    (Hok : setRWLayer d runtime s = (s', Ok tt)) :
  exists s1 s2 layerID rwLayer,
    CreateRWLayer d (container.Platform (ctr s1)) (container.ID (ctr s1)) layerID
      (mkRWLayerOpts (container.MountLabel (ctr s1))
         (if String.eqb runtime "bare" then None else getLayerInit d)
         (StorageOpt (container.HostConfig (ctr s1)))) s1
    = (s2, Ok rwLayer)
    /\ s' = setContainerRWLayer rwLayer s2
    /\ container.RWLayer (ctr s') = Some rwLayer
    /\ (container.ImageID (ctr s) = "" -> layerID = "" /\ s1 = s)
    /\ (container.ImageID (ctr s) <> "" ->
        exists img,
          imageStoreGet d (container.Platform (ctr s)) (container.ImageID (ctr s)) s
          = (s1, Ok img)
          /\ layerID = ChainID d (image.RootFS img)).
Proof.
  revert Hok. unfold setRWLayer, bind, gets, modify, ret.
  destruct (String.eqb_spec (container.ImageID (ctr s)) "") as [Himg|Himg]; cbn [negb].
  - destruct (CreateRWLayer d _ _ _ _ s) as [s2 [rw|e]] eqn:E; [|discriminate].
    intros [= <-]. exists s, s2, "", rw. repeat split; auto. contradiction.
  - destruct (imageStoreGet d _ _ s) as [s1 [img|e]] eqn:Eimg; [|discriminate].
    destruct (CreateRWLayer d _ _ _ _ s1) as [s2 [rw|e]] eqn:E; [|discriminate].
    intros [= <-]. exists s1, s2, (ChainID d (image.RootFS img)), rw.
    repeat split; auto; try contradiction. eauto.
Qed.

End CreateExtras.

Section CreateOutcomes.

Import Create.

Context {W : Type}.
Variable d : Daemon W.

(** X16.  The cleanup runs in no other case than a failure after the
    allocation: [create] either returns the error of a step before the
    allocation, with the state as that step left it, or returns the
    container of the state that the last step left, or has had one of the
    later steps fail and returns its error after the deferred cleanup. *)
Theorem create_outcomes (params : ContainerCreateConfig) (managed : bool)
    (s : Store W) :
  (exists s0 err,
      beforeAllocation d params managed s = (s0, Fail err)
      /\ create d params managed s = (s0, Fail err))
  \/ (exists s0 c s1,
         beforeAllocation d params managed s = (s0, Ok c)
         /\ afterAllocation d params (mkLive s0 c) = (s1, Ok tt)
         /\ create d params managed s = (store s1, Ok (ctr s1)))
  \/ (exists s0 c k s1 retErr,
         beforeAllocation d params managed s = (s0, Ok c)
         /\ FailsAt (laterSteps d params) k (mkLive s0 c) s1 retErr
         /\ create d params managed s = (store (deferredCleanup d s1), Fail retErr)).
Proof.
  unfold create.
  destruct (beforeAllocation d params managed s) as [s0 [c|err]] eqn:Hbefore.
  - destruct (afterAllocation d params (mkLive s0 c)) as [s1 [[]|retErr]] eqn:Hafter.
    + right. left. exists s0, c, s1. auto.
    + right. right. apply afterAllocation_fails in Hafter. destruct Hafter as [k Hk].
      exists s0, c, k, s1, retErr. auto.
  - left. exists s0, err. auto.
Qed.

(** X17.  A request without an image whose entrypoint is empty or [[""]]
    and whose command is empty is refused with the no-command error before
    any container is allocated: the daemon's state and the host
    configuration are as they were, and the entrypoint of the caller's
    configuration is nil if it was [[""]]. *)
Theorem create_no_command (params : ContainerCreateConfig) (managed : bool)
    (s : Store W)
    (Himage : Image (config s) = "")
    (Hentry : len (Entrypoint (config s)) = 0 \/ Entrypoint (config s) = Some [""])
    (Hcmd : len (Cmd (config s)) = 0) :
  create d params managed s
  = (mkStore (world s) (Merge.resetEntrypoint (config s)) (hostConfig s),
     Fail Merge.ErrNoCommand).
Proof.
  unfold create, beforeAllocation, bind, gets, ret. rewrite Himage. cbn.
  unfold mergeAndVerifyConfig. rewrite mergeAndVerifyConfig_unfold.
  cbn [Merge.mergeImageConfig].
  destruct (resetEntrypoint_rest (config s)) as (_ & -> & _ & _).
  rewrite resetEntrypoint_entrypoint, Hcmd.
  assert (Hlen : len (if Merge.isEmptyEntrypoint (Entrypoint (config s))
                      then None else Entrypoint (config s)) = 0).
  { destruct Hentry as [H|H].
    - destruct (Merge.isEmptyEntrypoint _); [reflexivity|exact H].
    - apply isEmptyEntrypoint_iff in H. rewrite H. reflexivity. }
  rewrite Hlen. reflexivity.
Qed.

End CreateOutcomes.

(** ** Delta synthesis *)

Section DeltaExtras.

Import Delta.

Context {St : Type}.
Variable d : Daemon St.

Lemma layersOfCalls_app (a b : list Call) :
  layersOfCalls (a ++ b) = layersOfCalls a ++ layersOfCalls b.
Proof.
  induction a as [|[chainID l|data parent platform newLayer] a IH]; cbn;
    rewrite ?IH; reflexivity.
Qed.

Lemma registeredLayers_app (a b : list Call) :
  registeredLayers (a ++ b) = registeredLayers a ++ registeredLayers b.
Proof.
  induction a as [|[chainID l|data parent platform newLayer] a IH]; cbn;
    rewrite ?IH; reflexivity.
Qed.

Lemma registeredParents_app (a b : list Call) :
  registeredParents (a ++ b) = registeredParents a ++ registeredParents b.
Proof.
  induction a as [|[chainID l|data parent platform newLayer] a IH]; cbn;
    rewrite ?IH; reflexivity.
Qed.

(** *** One iteration, whatever it returns *)

(** Every layer that the store has handed out has its release deferred. *)
Lemma layerStep_released (storePlatform srcSig : string)
    (srcDiffIDs dstDiffIDs : list DiffID) (i : nat) (diffID : DiffID) (acc : Acc)
    (s s' : State St) (r : result Acc) :
  releasedLayers (deferred s) = rev (layersOfCalls (calls s)) ->
  layerStep d storePlatform srcSig srcDiffIDs dstDiffIDs i diffID acc s = (s', r) ->
  releasedLayers (deferred s') = rev (layersOfCalls (calls s')).
Proof.
  intros Hinv. unfold layerStep, changedLayer.
  destruct (isCommonLayer srcDiffIDs i diffID);
    unfold bind, ret, onStores, record, defer, write, modify, ofResult; cbn.
  - destruct (lsRegister d _ _ _ _ _) as [st [newLayer|e]];
      intros [= <- <-]; cbn; rewrite ?layersOfCalls_app, ?rev_app_distr; cbn;
      rewrite ?Hinv; reflexivity.
  - destruct (lsGet d _ _ _) as [st [l|e]]; cbn.
    2: { intros [= <- <-]. exact Hinv. }
    destruct (TarStream l) as [input|e]; cbn.
    2: { intros [= <- <-]. cbn. rewrite layersOfCalls_app, rev_app_distr. cbn.
         rewrite Hinv. reflexivity. }
    destruct (DiffSize l) as [inputSize|e]; cbn.
    2: { intros [= <- <-]. cbn. rewrite layersOfCalls_app, rev_app_distr. cbn.
         rewrite Hinv. reflexivity. }
    destruct (TempFile d st) as [st1 [tmpDelta|e]]; cbn.
    2: { intros [= <- <-]. cbn. rewrite layersOfCalls_app, rev_app_distr. cbn.
         rewrite Hinv. reflexivity. }
    destruct (lsRegister d _ _ _ _ _) as [st2 [newLayer|e]]; cbn.
    2: { intros [= <- <-]. cbn. rewrite layersOfCalls_app, rev_app_distr. cbn.
         rewrite Hinv. reflexivity. }
    destruct (DiffSize newLayer) as [deltaSize|e]; cbn;
      intros [= <- <-]; cbn; rewrite !layersOfCalls_app, !rev_app_distr; cbn;
      rewrite Hinv; reflexivity.
Qed.

(** An iteration writes its one progress line when it returns, and
    nothing when it fails. *)
Lemma layerStep_out (storePlatform srcSig : string)
    (srcDiffIDs dstDiffIDs : list DiffID) (i : nat) (diffID : DiffID) (acc : Acc)
    (s s' : State St) (r : result Acc) :
  layerStep d storePlatform srcSig srcDiffIDs dstDiffIDs i diffID acc s = (s', r) ->
  outStream s'
  = outStream s
    ++ match r with
       | Ok _ => [Update (TruncateID d diffID)
                    (if isCommonLayer srcDiffIDs i diffID
                     then "Skipping common layer" else "Delta complete")]
       | Fail _ => []
       end.
Proof.
  unfold layerStep, changedLayer.
  destruct (isCommonLayer srcDiffIDs i diffID);
    unfold bind, ret, onStores, record, defer, write, modify, ofResult; cbn.
  - destruct (lsRegister d _ _ _ _ _) as [st [newLayer|e]];
      intros [= <- <-]; cbn; rewrite ?app_nil_r; reflexivity.
  - destruct (lsGet d _ _ _) as [st [l|e]]; cbn.
    2: { intros [= <- <-]. cbn. rewrite app_nil_r. reflexivity. }
    destruct (TarStream l) as [input|e]; cbn.
    2: { intros [= <- <-]. cbn. rewrite app_nil_r. reflexivity. }
    destruct (DiffSize l) as [inputSize|e]; cbn.
    2: { intros [= <- <-]. cbn. rewrite app_nil_r. reflexivity. }
    destruct (TempFile d st) as [st1 [tmpDelta|e]]; cbn.
    2: { intros [= <- <-]. cbn. rewrite app_nil_r. reflexivity. }
    destruct (lsRegister d _ _ _ _ _) as [st2 [newLayer|e]]; cbn.
    2: { intros [= <- <-]. cbn. rewrite app_nil_r. reflexivity. }
    destruct (DiffSize newLayer) as [deltaSize|e]; cbn;
      intros [= <- <-]; cbn; rewrite ?app_nil_r; reflexivity.
Qed.

(** *** The loop, whatever it returns *)

Lemma layersFrom_released (storePlatform srcSig : string)
    (srcDiffIDs dstDiffIDs : list DiffID) (rest : list DiffID) :
  forall (i : nat) (acc : Acc) (s s' : State St) (r : result Acc),
    releasedLayers (deferred s) = rev (layersOfCalls (calls s)) ->
    layersFrom d storePlatform srcSig srcDiffIDs dstDiffIDs i rest acc s = (s', r) ->
    releasedLayers (deferred s') = rev (layersOfCalls (calls s')).
Proof.
  induction rest as [|diffID rest IH]; intros i acc s s' r Hinv; cbn [layersFrom].
  - intros [= <- <-]. exact Hinv.
  - unfold bind at 1.
    destruct (layerStep d storePlatform srcSig srcDiffIDs dstDiffIDs i diffID acc s)
      as [s1 [acc1|e]] eqn:Estep.
    + apply IH. eapply layerStep_released; eassumption.
    + intros [= <- <-]. eapply layerStep_released; eassumption.
Qed.

(** The progress lines of the loop are those of the positions it has
    completed: all of them when it returns, fewer when it fails. *)
Lemma layersFrom_out (storePlatform srcSig : string)
    (srcDiffIDs dstDiffIDs : list DiffID) (rest : list DiffID) :
  forall (i : nat) (acc : Acc) (s s' : State St) (r : result Acc),
    layersFrom d storePlatform srcSig srcDiffIDs dstDiffIDs i rest acc s = (s', r) ->
    exists n,
      outStream s' = outStream s ++ firstn n (layerUpdates d srcDiffIDs i rest)
      /\ match r with
         | Ok _ => n = length rest
         | Fail _ => n < length rest
         end.
Proof.
  induction rest as [|diffID rest IH]; intros i acc s s' r; cbn [layersFrom].
  - intros [= <- <-]. exists 0. cbn. rewrite app_nil_r. auto.
  - unfold bind at 1.
    destruct (layerStep d storePlatform srcSig srcDiffIDs dstDiffIDs i diffID acc s)
      as [s1 [acc1|e]] eqn:Estep.
    + intros Hrest. apply layerStep_out in Estep.
      destruct (IH _ _ _ _ _ Hrest) as (n & Hout & Hn).
      exists (S n). rewrite Hout, Estep, <- app_assoc. cbn. split; [reflexivity|].
      destruct r; lia.
    + intros [= <- <-]. apply layerStep_out in Estep.
      exists 0. cbn. split; [exact Estep|lia].
Qed.

Lemma layerUpdates_length (srcDiffIDs rest : list DiffID) (i : nat) :
  length (layerUpdates d srcDiffIDs i rest) = length rest.
Proof. revert i. induction rest; intros i; cbn; auto. Qed.

Lemma layerUpdates_are_updates (srcDiffIDs rest : list DiffID) (i n : nat) :
  forallb isUpdate (firstn n (layerUpdates d srcDiffIDs i rest)) = true.
Proof.
  revert i n. induction rest as [|diffID rest IH]; intros i [|n]; cbn; auto.
Qed.

Lemma waitingUpdates_are_updates (diffIDs : list DiffID) :
  forallb isUpdate (waitingUpdates d diffIDs) = true.
Proof. induction diffIDs; cbn; auto. Qed.

(** The layers registered by a loop that returns make up the chain of the
    delta, each registered on the chain of those before it. *)
Lemma layersFrom_chain_from (storePlatform srcSig : string)
    (srcDiffIDs dstDiffIDs : list DiffID) (rest : list DiffID) :
  forall (i : nat) (acc acc' : Acc) (s s' : State St),
    layersFrom d storePlatform srcSig srcDiffIDs dstDiffIDs i rest acc s = (s', Ok acc') ->
    exists new,
      calls s' = calls s ++ new
      /\ deltaRootFS acc'
         = deltaRootFS acc ++ map LayerDiffID (registeredLayers new)
      /\ registeredParents new
         = map (fun j => ChainID d
                           (deltaRootFS acc
                            ++ firstn j (map LayerDiffID (registeredLayers new))))
             (seq 0 (length rest)).
Proof.
  induction rest as [|diffID rest IH]; intros i acc acc' s s'; cbn [layersFrom].
  - intros [= <- <-]. exists []. rewrite !app_nil_r. auto.
  - unfold bind at 1.
    destruct (layerStep d storePlatform srcSig srcDiffIDs dstDiffIDs i diffID acc s)
      as [s1 [acc1|e]] eqn:Estep; [|discriminate].
    intros Hrest.
    destruct (layerStep_ok _ _ _ _ _ _ _ _ _ _ _ Estep)
      as (new1 & newLayer & Hcalls1 & Hroot1 & Hcase).
    destruct (IH _ _ _ _ _ Hrest) as (new2 & Hcalls2 & Hroot2 & Hparents2).
    assert (Hnew1 : registeredLayers new1 = [newLayer]
                    /\ registeredParents new1 = [ChainID d (deltaRootFS acc)]).
    { destruct (isCommonLayer srcDiffIDs i diffID).
      - destruct Hcase as (-> & _). auto.
      - destruct Hcase as (l & input & inputSize & tmp & deltaSize & -> & _). auto. }
    destruct Hnew1 as [Hlayers1 Hparents1].
    exists (new1 ++ new2).
    rewrite Hcalls2, Hcalls1, <- app_assoc. split; [reflexivity|].
    rewrite registeredLayers_app, registeredParents_app, Hlayers1, Hparents1.
    rewrite Hroot2, Hroot1, <- app_assoc. split; [reflexivity|].
    cbn [length seq map app firstn]. rewrite app_nil_r. f_equal.
    rewrite Hparents2, Hroot1, <- seq_shift, map_map.
    apply map_ext. intros j. rewrite <- app_assoc. reflexivity.
Qed.

End DeltaExtras.

Section DeltaWhole.

Import Delta.

Context {St : Type}.
Variable d : Daemon St.

Lemma announce_out (diffIDs : list DiffID) :
  forall s : State St,
    announce d diffIDs s
    = (mkState (stores s) (outStream s ++ waitingUpdates d diffIDs)
         (deferred s) (calls s), Ok tt).
Proof.
  induction diffIDs as [|diffID rest IH]; intros s; cbn [announce waitingUpdates map].
  - unfold ret. rewrite app_nil_r. destruct s; reflexivity.
  - unfold bind, write, modify. rewrite IH. cbn. rewrite <- app_assoc. reflexivity.
Qed.

(** What a body that returns has done. *)
Lemma deltaCreateBody_success (deltaSrc deltaDest : string) (st : St) (s' : State St) :
  deltaCreateBody d deltaSrc deltaDest (initialState st) = (s', Ok tt) ->
  exists srcImg dstImg srcSig s1 s2 acc rawConfig id,
    GetImage d deltaSrc st = Ok srcImg
    /\ GetImage d deltaDest st = Ok dstImg
    /\ calls s1 = []
    /\ outStream s1
       = Update deltaSrc "Fingerprint complete"
         :: waitingUpdates d (image.RootFS dstImg)
    /\ layersFrom d (ImagePlatform d dstImg) srcSig
         (image.RootFS srcImg) (image.RootFS dstImg) 0 (image.RootFS dstImg)
         (mkAcc [] 0 0) s1 = (s2, Ok acc)
    /\ Marshal d (mkDeltaImage (deltaRootFS acc) (Now d)
                    [("io.resin.delta.base", image.ID srcImg);
                     ("io.resin.delta.config", image.RawJSON dstImg)])
       = Ok rawConfig
    /\ isCreate d (ImagePlatform d dstImg) rawConfig (stores s2) = (stores s', Ok id)
    /\ calls s' = calls s2
    /\ deferred s' = deferred s2
    /\ outStream s'
       = outStream s2
         ++ [StatusSizes (HumanSize d (toFloat64 (statTotalSize acc)))
               (HumanSize d (toFloat64 (statDeltaSize acc)))
               (deltaRatio (statTotalSize acc) (statDeltaSize acc));
             StatusCreated id].
Proof.
  unfold deltaCreateBody, initialState.
  unfold bind at 1. cbn [stores].
  destruct (GetImage d deltaSrc st) as [srcImg|e]; [|discriminate]. cbn [wrapf].
  unfold bind at 1. cbn [stores].
  destruct (GetImage d deltaDest st) as [dstImg|e]; [|discriminate]. cbn [wrapf].
  unfold bind at 1, onStores at 1. cbn [stores outStream deferred calls].
  destruct (GetTarSeekStream d _ _ st) as [st1 [srcData|e]]; [|discriminate].
  unfold bind at 1, defer at 1, modify. cbn [stores outStream deferred calls].
  unfold bind at 1, onStores at 1. cbn [stores outStream deferred calls].
  destruct (SeekerSize d srcData st1) as [st2 [srcDataLen|e]]; [|discriminate].
  unfold bind at 1, defer at 1, modify. cbn [stores outStream deferred calls].
  unfold bind at 1, onStores at 1. cbn [stores outStream deferred calls].
  destruct (Signature d _ st2) as [st3 [srcSig|e]]; [|discriminate].
  unfold bind at 1, write at 1, modify. cbn [stores outStream deferred calls].
  unfold bind at 1. rewrite announce_out. cbn [stores outStream deferred calls app].
  unfold bind at 1.
  match goal with
  | |- context [layersFrom d ?p ?sg ?a ?b 0 ?r ?acc0 ?s1] =>
      destruct (layersFrom d p sg a b 0 r acc0 s1) as [s2 [acc|e]] eqn:Eloop;
      [|discriminate]
  end.
  unfold bind at 1, ofResult at 1.
  destruct (Marshal d _) as [rawConfig|e] eqn:Emarshal; [|discriminate].
  unfold bind at 1, onStores at 1.
  destruct (isCreate d _ _ _) as [st4 [id|e]] eqn:Ecreate; [|discriminate].
  unfold bind, write, modify. cbn [stores outStream deferred calls].
  intros [= <-]. cbn [stores outStream deferred calls].
  eexists srcImg, dstImg, srcSig, _, s2, acc, rawConfig, id.
  split; [reflexivity|]. split; [reflexivity|].
  split; [|split; [|split; [exact Eloop|]]]; [reflexivity|reflexivity|].
  split; [exact Emarshal|]. split; [exact Ecreate|].
  rewrite <- app_assoc. auto.
Qed.

(** What holds of the body however it ends. *)
Lemma deltaCreateBody_any (deltaSrc deltaDest : string) (st : St) (s' : State St)
    (r : result unit) :
  deltaCreateBody d deltaSrc deltaDest (initialState st) = (s', r) ->
  releasedLayers (deferred s') = rev (layersOfCalls (calls s'))
  /\ match r with
     | Fail _ => forallb isUpdate (outStream s') = true
     | Ok _ => True
     end.
Proof.
  unfold deltaCreateBody, initialState.
  unfold bind at 1. cbn [stores].
  destruct (GetImage d deltaSrc st) as [srcImg|e]; cbn [wrapf];
    [|intros [= <- <-]; split; reflexivity].
  unfold bind at 1. cbn [stores].
  destruct (GetImage d deltaDest st) as [dstImg|e]; cbn [wrapf];
    [|intros [= <- <-]; split; reflexivity].
  unfold bind at 1, onStores at 1. cbn [stores outStream deferred calls].
  destruct (GetTarSeekStream d _ _ st) as [st1 [srcData|e]];
    [|intros [= <- <-]; split; reflexivity].
  unfold bind at 1, defer at 1, modify. cbn [stores outStream deferred calls].
  unfold bind at 1, onStores at 1. cbn [stores outStream deferred calls].
  destruct (SeekerSize d srcData st1) as [st2 [srcDataLen|e]];
    [|intros [= <- <-]; split; reflexivity].
  unfold bind at 1, defer at 1, modify. cbn [stores outStream deferred calls].
  unfold bind at 1, onStores at 1. cbn [stores outStream deferred calls].
  destruct (Signature d _ st2) as [st3 [srcSig|e]];
    [|intros [= <- <-]; split; reflexivity].
  unfold bind at 1, write at 1, modify. cbn [stores outStream deferred calls].
  unfold bind at 1. rewrite announce_out. cbn [stores outStream deferred calls app].
  unfold bind at 1.
  match goal with
  | |- context [layersFrom d ?p ?sg ?a ?b 0 ?r0 ?acc0 ?s1] =>
      destruct (layersFrom d p sg a b 0 r0 acc0 s1) as [s2 [acc|e]] eqn:Eloop;
      assert (Hrel : releasedLayers (deferred s2) = rev (layersOfCalls (calls s2)))
        by (eapply layersFrom_released; [|exact Eloop]; reflexivity);
      destruct (layersFrom_out d _ _ _ _ _ _ _ _ _ _ Eloop) as (n & Hout & _);
      cbn [outStream] in Hout
  end.
  2: { intros [= <- <-]. split; [exact Hrel|]. rewrite Hout. cbn.
       rewrite forallb_app, waitingUpdates_are_updates, layerUpdates_are_updates.
       reflexivity. }
  assert (Hups : forallb isUpdate (outStream s2) = true).
  { rewrite Hout. cbn.
    rewrite forallb_app, waitingUpdates_are_updates, layerUpdates_are_updates.
    reflexivity. }
  unfold bind at 1, ofResult at 1.
  destruct (Marshal d _) as [rawConfig|e];
    [|intros [= <- <-]; split; [exact Hrel|exact Hups]].
  unfold bind at 1, onStores at 1.
  destruct (isCreate d _ _ _) as [st4 [id|e]];
    [|intros [= <- <-]; split; [exact Hrel|exact Hups]].
  unfold bind, write, modify. cbn [stores outStream deferred calls].
  intros [= <- <-]. split; [exact Hrel|exact I].
Qed.

End DeltaWhole.

Section DeltaExtraClaims.

Import Delta.

Context {St : Type}.
Variable d : Daemon St.

(** X18.  When the source image is not found, or the source is found and
    the destination is not, [DeltaCreate] returns the error of the lookup
    wrapped with the name that was looked up, and has written nothing,
    called no store and deferred nothing. *)
Theorem DeltaCreate_no_such_image (deltaSrc deltaDest : string) (st : St) (e : error) :
  (GetImage d deltaSrc st = Fail e ->
   DeltaCreate d deltaSrc deltaDest st
   = (initialState st, Some (Wrapf e ("no such image: " +:+ deltaSrc))))
  /\ (forall srcImg,
         GetImage d deltaSrc st = Ok srcImg ->
         GetImage d deltaDest st = Fail e ->
         DeltaCreate d deltaSrc deltaDest st
         = (initialState st, Some (Wrapf e ("no such image: " +:+ deltaDest)))).
Proof.
  split.
  - intros Hsrc. unfold DeltaCreate, deltaCreateBody, initialState.
    unfold bind at 1. cbn [stores]. rewrite Hsrc. reflexivity.
  - intros srcImg Hsrc Hdst. unfold DeltaCreate, deltaCreateBody, initialState.
    unfold bind at 1. cbn [stores]. rewrite Hsrc. cbn [wrapf].
    unfold bind at 1. cbn [stores]. rewrite Hdst. reflexivity.
Qed.

(** X19.  In a run of the loop that returns, the [RootFS] of the delta is
    made of the [DiffID] of the registered layers, in the order of their
    registration, and each layer was registered on the chain of the layers
    registered before it. *)
Theorem layersFrom_chain (storePlatform srcSig : string)
    (srcDiffIDs dstDiffIDs : list DiffID) (s s' : State St) (acc : Acc)
    (Hrun : layersFrom d storePlatform srcSig srcDiffIDs dstDiffIDs 0 dstDiffIDs
              (mkAcc [] 0 0) s = (s', Ok acc)) :
  exists new,
    calls s' = calls s ++ new
    /\ deltaRootFS acc = map LayerDiffID (registeredLayers new)
    /\ length (registeredLayers new) = length dstDiffIDs
    /\ registeredParents new
       = map (fun j => ChainID d (firstn j (deltaRootFS acc)))
           (seq 0 (length dstDiffIDs)).
Proof.
  destruct (layersFrom_chain_from d _ _ _ _ _ _ _ _ _ _ Hrun)
    as (new & Hcalls & Hroot & Hparents).
  destruct (layersFrom_ok d _ _ _ _ _ _ _ _ _ _ Hrun) as (new' & Hcalls' & _ & Hlen & _).
  cbn in Hroot, Hparents, Hlen.
  exists new. split; [exact Hcalls|]. split; [exact Hroot|]. split.
  - rewrite <- Hlen, Hroot. symmetry. apply length_map.
  - rewrite Hparents, Hroot. reflexivity.
Qed.


(** X21.  However [DeltaCreate] ends, the release of every layer that the
    layer store has handed out, by [Get] or by [Register], was deferred
    once, and the deferred calls have all run, the last deferred first,
    when the function returns. *)
Theorem DeltaCreate_releases_layers (deltaSrc deltaDest : string) (st : St) :
  let body := fst (deltaCreateBody d deltaSrc deltaDest (initialState st)) in
  let final := fst (DeltaCreate d deltaSrc deltaDest st) in
  releasedLayers (deferred body) = rev (layersOfCalls (calls final))
  /\ stores final
     = fold_left (fun st a => runDeferred d a st) (deferred body) (stores body)
  /\ deferred final = [].
Proof.
  cbn zeta. unfold DeltaCreate.
  destruct (deltaCreateBody d deltaSrc deltaDest (initialState st)) as [s' r] eqn:E.
  destruct (deltaCreateBody_any d _ _ _ _ _ E) as [Hrel _].
  destruct r; cbn [fst runAllDeferred calls stores deferred]; auto.
Qed.

(** X22.  A call of [DeltaCreate] that returns an error has written
    progress lines only: neither the line of the sizes nor the line of a
    created image. *)
Theorem DeltaCreate_failure_writes_no_status (deltaSrc deltaDest : string) (st : St)
    (s : State St) (err : error)
    (Hrun : DeltaCreate d deltaSrc deltaDest st = (s, Some err)) :
  forallb isUpdate (outStream s) = true.
Proof.
  unfold DeltaCreate in Hrun.
  destruct (deltaCreateBody d deltaSrc deltaDest (initialState st)) as [s' [[]|e]] eqn:E;
    [discriminate|].
  injection Hrun as <- _.
  destruct (deltaCreateBody_any d _ _ _ _ _ E) as [_ Hups]. exact Hups.
Qed.

(** X23.  The image that a call of [DeltaCreate] without error has
    created is the serialization of an image whose [RootFS] is made of
    the registered layers, in order, and whose labels carry the identifier
    of the source image and the raw configuration of the destination
    image; the last line written carries the identifier that the image
    store gave it. *)
Theorem DeltaCreate_image_config (deltaSrc deltaDest : string) (st : St) (s : State St)
    (Hrun : DeltaCreate d deltaSrc deltaDest st = (s, None)) :
  exists srcImg dstImg rawConfig id,
    GetImage d deltaSrc st = Ok srcImg
    /\ GetImage d deltaDest st = Ok dstImg
    /\ Marshal d (mkDeltaImage (map LayerDiffID (registeredLayers (calls s))) (Now d)
                    [("io.resin.delta.base", image.ID srcImg);
                     ("io.resin.delta.config", image.RawJSON dstImg)])
       = Ok rawConfig
    /\ (exists before after,
           isCreate d (ImagePlatform d dstImg) rawConfig before = (after, Ok id))
    /\ last (outStream s) = Some (StatusCreated id).
Proof.
  unfold DeltaCreate in Hrun.
  destruct (deltaCreateBody d deltaSrc deltaDest (initialState st)) as [s' [[]|e]] eqn:E;
    [|discriminate].
  injection Hrun as <-.
  destruct (deltaCreateBody_success d _ _ _ _ E)
    as (srcImg & dstImg & srcSig & s1 & s2 & acc & rawConfig & id & Hsrc & Hdst & Hnone
        & _ & Hloop & Hmarshal & Hcreate & Hcalls & _ & Hout).
  destruct (layersFrom_chain_from d _ _ _ _ _ _ _ _ _ _ Hloop) as (new & Hnew & Hroot & _).
  rewrite Hnone in Hnew. cbn in Hnew, Hroot.
  exists srcImg, dstImg, rawConfig, id.
  split; [exact Hsrc|]. split; [exact Hdst|].
  unfold runAllDeferred. cbn [calls outStream].
  rewrite Hcalls, Hnew, <- Hroot. split; [exact Hmarshal|]. split; [eauto|].
  rewrite Hout. rewrite last_app. reflexivity.
Qed.

Lemma classify_empty_source (rest : list DiffID) (i : nat) :
  classify [] i rest = replicate (length rest) false.
Proof.
  revert i. induction rest as [|diffID rest IH]; intros i; cbn; [reflexivity|].
  rewrite IH. reflexivity.
Qed.

Lemma changedChains_empty_source (dstDiffIDs rest : list DiffID) (i : nat) :
  changedChains d [] dstDiffIDs i rest
  = map (fun j => ChainID d (firstn (j + 1) dstDiffIDs)) (seq i (length rest)).
Proof.
  revert i. induction rest as [|diffID rest IH]; intros i; cbn; [reflexivity|].
  rewrite IH. reflexivity.
Qed.

(** X24.  With a source image without layers, a run of the loop that
    returns has registered no empty layer: it has asked the layer store
    for the layer at every position of the destination, in order, and
    registered a delta for each. *)
Theorem layersFrom_empty_source (storePlatform srcSig : string)
    (dstDiffIDs : list DiffID) (s s' : State St) (acc : Acc)
    (Hrun : layersFrom d storePlatform srcSig [] dstDiffIDs 0 dstDiffIDs
              (mkAcc [] 0 0) s = (s', Ok acc)) :
  exists new,
    calls s' = calls s ++ new
    /\ map isEmptyLayerTar (registeredData new)
       = replicate (length dstDiffIDs) false
    /\ gotChains new
       = map (fun j => ChainID d (firstn (j + 1) dstDiffIDs))
           (seq 0 (length dstDiffIDs))
    /\ length (deltaLayers new) = length dstDiffIDs.
Proof.
  destruct (layersFrom_ok d _ _ _ _ _ _ _ _ _ _ Hrun)
    as (new & Hcalls & Hdata & _ & Hchains & _ & _ & _ & Hcount).
  rewrite classify_empty_source in Hdata.
  rewrite changedChains_empty_source in Hchains.
  exists new. split; [exact Hcalls|]. split; [exact Hdata|]. split; [exact Hchains|].
  rewrite <- Hcount.
  assert (Hlen : length (gotChains new) = length (gotLayers new)).
  { clear. induction new as [|[chainID l|data parent platform newLayer] new IH];
      cbn; auto. }
  rewrite <- Hlen, Hchains, length_map, length_seq. reflexivity.
Qed.

End DeltaExtraClaims.

(** ** Volumes *)

Section VolumeExtras.

Import Volume.

Context {W : Type}.
Variable d : Daemon W.

(** X25.  [VolumeCreate] fails exactly when [volumes.Create] does, with
    its error and without logging an event; otherwise it logs one event
    for the volume and returns the API form of the volume with the path of
    the volume as its mount point.  A name that is given is used as it is,
    and only an empty name is replaced by a generated identifier. *)
Theorem VolumeCreate_spec (name driverName : string)
    (opts labels : list (string * string)) (w : W) :
  let w0 := if String.eqb name "" then fst (GenerateNonCryptoID d w) else w in
  let used := if String.eqb name "" then snd (GenerateNonCryptoID d w) else name in
  match volumesCreate d used driverName opts labels w0 with
  | (w1, Fail err) =>
      VolumeCreate d name driverName opts labels w = (w1, Fail err)
  | (w1, Ok v) =>
      exists apiV,
        VolumeCreate d name driverName opts labels w
        = (LogVolumeEvent d (VolumeName v) "create" [("driver", DriverName v)] w1,
           Ok apiV)
        /\ Mountpoint apiV = Path v
        /\ Name apiV = Name (volumeToAPIType d v)
        /\ Driver apiV = Driver (volumeToAPIType d v)
  end.
Proof.
  cbn zeta. unfold VolumeCreate.
  destruct (String.eqb name ""); cbn [fst snd].
  - destruct (GenerateNonCryptoID d w) as [w0 generated]. cbn [fst snd].
    destruct (volumesCreate d generated driverName opts labels w0) as [w1 [v|err]];
      [|reflexivity].
    eexists. split; [reflexivity|]. auto.
  - destruct (volumesCreate d name driverName opts labels w) as [w1 [v|err]];
      [|reflexivity].
    eexists. split; [reflexivity|]. auto.
Qed.

End VolumeExtras.

(** ** The further properties on the examples *)

Section ExtraExamples.

Import Examples.

Lemma generateSecurityOpt_own_labels_override_witness :
  Labels.generateSecurityOpt labelEnv
    (mkHostConfig ["label=user:system_u"] "host" "container:nowhere" true "" "" []
       ("", []))
  = Labels.Ret None.
Proof.
  apply (generateSecurityOpt_own_labels_override labelEnv labelEnv (sharing "db" "db") _
           (Some ["label=user:system_u"; "label=role:system_r";
                  "label=type:svirt_lxc_net_t"; "label=level:s0:c1,c2"])
           "label=user:system_u").
  - reflexivity.
  - cbn. auto.
  - cbn. auto.
Defined.

Lemma generateSecurityOpt_one_peer_witness :
  Labels.generateSecurityOpt labelEnv
    (mkHostConfig [] "container:db" "" false "" "" [] ("", []))
  = Labels.Ret (Some ["label=user:system_u"; "label=role:system_r";
                      "label=type:svirt_lxc_net_t"; "label=level:s0:c1,c2"]).
Proof.
  destruct (generateSecurityOpt_one_peer labelEnv
              (mkHostConfig [] "container:db" "" false "" "" [] ("", []))
              eq_refl eq_refl) as (Hipc & _ & _).
  apply Hipc; [discriminate|reflexivity].
Defined.


Lemma generateSecurityOpt_unequal_sets_witness :
  Labels.generateSecurityOpt labelEnv (sharing "db" "web")
  = Labels.Err Labels.ErrLabelsDiffer.
Proof.
  assert (Hshared : Spec.bothShared labelEnv (sharing "db" "web")
                      "system_u:system_r:svirt_lxc_net_t:s0:c1,c2"
                      "system_u:system_r:svirt_lxc_net_t:s0:c3,c4").
  { unfold Spec.bothShared. repeat split; try reflexivity; discriminate. }
  destruct (generateSecurityOpt_unequal_sets labelEnv (sharing "db" "web") _ _
              ["user:system_u"; "role:system_r"; "type:svirt_lxc_net_t";
               "level:s0:c1,c2"]
              ["user:system_u"; "role:system_r"; "type:svirt_lxc_net_t";
               "level:s0:c3,c4"]
              Hshared eq_refl eq_refl) as (Hdiffer & _ & _).
  apply Hdiffer. cbn. discriminate.
Defined.

(** A PID set that is longer than the IPC set it starts with: the index
    runs out of the IPC set. *)
Example compareLabels_out_of_range :
  Labels.compareLabels (Some ["user:u"; "role:r"])
    (Some ["user:u"; "role:r"; "type:t"])
  = Labels.Panic 2 2
  /\ Labels.compareLabels (Some ["user:u"; "role:r"; "type:t"])
       (Some ["user:u"; "role:r"])
     = Labels.Ret (Some ["label=user:u"; "label=role:r"]).
Proof. split; reflexivity. Qed.

Lemma verifyNetworkingConfig_bad_request_witness :
  exists msg,
    NewBadRequestError (Errorf "invalid IPv6 address: 192.168.1.7")
    = NewBadRequestError (Errorf msg).
Proof.
  apply (verifyNetworkingConfig_bad_request netPkg
           (Some (Network.mkNetworkingConfig [("net0", endpoint "" "192.168.1.7")]))).
  reflexivity.
Defined.

Lemma verifyNetworkingConfig_names_only_witness :
  Network.verifyNetworkingConfig netPkg
    (Some (Network.mkNetworkingConfig
             [("front", endpoint "10.0.0.999" ""); ("back", None)]))
  = Network.verifyNetworkingConfig (Network.mkNetPkg (fun _ => None) (fun ip => ip))
      (Some (Network.mkNetworkingConfig
               [("front", None); ("back", endpoint "" "fe80::1")])).
Proof.
  apply verifyNetworkingConfig_names_only; [reflexivity|cbn; lia].
Defined.

Lemma mergeAndVerifyConfig_accepted_witness :
  Entrypoint (process "alpine" None (Some ["/bin/sh"])) <> Some [""]
  /\ 0 < len (Entrypoint (process "alpine" None (Some ["/bin/sh"])))
         + len (Cmd (process "alpine" None (Some ["/bin/sh"]))).
Proof.
  apply (mergeAndVerifyConfig_accepted (Create.merge (daemon []))
           (process "alpine" None None) _ (Some alpine)).
  reflexivity.
Defined.


Lemma mergeAndVerifyConfig_without_image_config_witness :
  Merge.mergeAndVerifyConfig (Create.merge (daemon []))
    (process "" (Some [""]) (Some ["sh"])) None
  = Merge.mergeAndVerifyConfig (fun user img => (img, Some (Errorf "unused")))
      (process "" (Some [""]) (Some ["sh"])) None.
Proof.
  apply (mergeAndVerifyConfig_without_image_config (Create.merge (daemon []))
           (fun user img => (img, Some (Errorf "unused")))
           (process "" (Some [""]) (Some ["sh"])) None I).
Defined.

Lemma ContainerCreate_nil_config_witness :
  Create.ContainerCreate (daemon ["security"]) (request "web")
    (Create.mkCaller emptyWorld None None)
  = (Create.mkCaller emptyWorld None None,
     (Create.mkBody "" [],
      Some (Errorf "Config cannot be empty in order to create a container"))).
Proof.
  apply (ContainerCreate_nil_config (daemon ["security"]) (request "web")
           (Create.mkCaller emptyWorld None None) eq_refl).
Defined.

Lemma containerCreate_body_witness :
  Create.BodyID
    (fst (snd (Create.containerCreate (daemon ["register"]) (request "web") false
                 (Create.mkCaller emptyWorld (Some (process "alpine" None None)) None))))
  = "".
Proof.
  destruct (containerCreate_body (daemon ["register"]) (request "web") false
              (Create.mkCaller emptyWorld (Some (process "alpine" None None)) None))
    as [Herr _].
  apply (Herr (Errorf "register failed")). vm_compute. reflexivity.
Defined.

Lemma containerCreate_many_networks_witness :
  Create.containerCreate (daemon []) twoNetworks false
    (Create.mkCaller emptyWorld (Some (process "alpine" None None)) None)
  = (Create.mkCaller emptyWorld (Some (process "alpine" None None)) None,
     (Create.mkBody "" [],
      Some (NewBadRequestError
              (Errorf "Container cannot be connected to network endpoints: front, back")))).
Proof.
  apply (containerCreate_many_networks (daemon []) twoNetworks false
           (Create.mkCaller emptyWorld (Some (process "alpine" None None)) None)
           (process "alpine" None None) (process "alpine" None None) emptyWorld None []
           (Network.mkNetworkingConfig
              [("front", endpoint "10.0.0.1" ""); ("back", None)])
           eq_refl eq_refl eq_refl).
  cbn. lia.
Defined.

Lemma create_platform_default_witness :
  Create.create (daemon []) (Create.mkParams "web" "" None false) false webStore
  = Create.create (daemon []) (Create.mkParams "web" "linux" None false) false webStore.
Proof.
  destruct (create_platform_default (daemon []) "web" None false false webStore)
    as [Hdefault _].
  exact Hdefault.
Defined.

Lemma setRWLayer_assigns_witness :
  exists s',
    Create.setRWLayer (daemon []) "bare" (Create.mkLive webMerged webContainer)
    = (s', Ok tt)
    /\ container.RWLayer (Create.ctr s') = Some "id-web".
Proof.
  eassert (Hok : Create.setRWLayer (daemon []) "bare"
                   (Create.mkLive webMerged webContainer) = (_, Ok tt)).
  { vm_compute. reflexivity. }
  destruct (setRWLayer_assigns (daemon []) "bare" _ _ Hok)
    as (s1 & s2 & layerID & rwLayer & _ & _ & Hlayer & _).
  eexists. split; [exact Hok|]. vm_compute. reflexivity.
Defined.

Lemma create_no_command_witness :
  Create.create (daemon []) (request "web") false
    (Create.mkStore emptyWorld (process "" (Some [""]) None) Create.emptyHostConfig)
  = (Create.mkStore emptyWorld (process "" None None) Create.emptyHostConfig,
     Fail Merge.ErrNoCommand).
Proof.
  apply (create_no_command (daemon []) (request "web") false
           (Create.mkStore emptyWorld (process "" (Some [""]) None)
              Create.emptyHostConfig)).
  - reflexivity.
  - right. reflexivity.
  - reflexivity.
Defined.

Lemma DeltaCreate_no_such_image_witness :
  Delta.DeltaCreate deltaDaemon "app:v0" "app:v1" 0
  = (Delta.initialState 0,
     Some (Wrapf (Errorf "image not known") "no such image: app:v0")).
Proof.
  destruct (DeltaCreate_no_such_image deltaDaemon "app:v0" "app:v1" 0
              (Errorf "image not known")) as [Hsrc _].
  apply Hsrc. reflexivity.
Defined.

Lemma layersFrom_chain_witness :
  match Delta.layersFrom deltaDaemon "linux" "signature"
          ["sha256:base"; "sha256:lib1"; "sha256:old"]
          ["sha256:base"; "sha256:lib2"] 0
          ["sha256:base"; "sha256:lib2"] (Delta.mkAcc [] 0 0) (Delta.initialState 0) with
  | (s', Ok acc) =>
      Delta.registeredParents (Delta.calls s') = [""; "sha256:empty"]
  | (_, Fail _) => False
  end.
Proof.
  eassert (Hrun : Delta.layersFrom deltaDaemon "linux" "signature"
                    ["sha256:base"; "sha256:lib1"; "sha256:old"]
                    ["sha256:base"; "sha256:lib2"] 0
                    ["sha256:base"; "sha256:lib2"] (Delta.mkAcc [] 0 0)
                    (Delta.initialState 0)
                  = (_, Ok _)).
  { vm_compute. reflexivity. }
  destruct (layersFrom_chain deltaDaemon _ _ _ _ _ _ _ Hrun)
    as (new & Hcalls & _ & _ & Hparents).
  rewrite Hrun. rewrite Hcalls. exact Hparents.
Defined.


Lemma DeltaCreate_failure_writes_no_status_witness :
  forallb Delta.isUpdate
    (Delta.outStream (fst (Delta.DeltaCreate deltaDaemon "app:v2" "app:v1" 0)))
  = true.
Proof.
  eassert (Hrun : Delta.DeltaCreate deltaDaemon "app:v2" "app:v1" 0
                  = (_, Some (Errorf "layer does not exist"))).
  { vm_compute. reflexivity. }
  rewrite Hrun. cbn [fst].
  apply (DeltaCreate_failure_writes_no_status deltaDaemon "app:v2" "app:v1" 0 _ _ Hrun).
Defined.

Lemma DeltaCreate_image_config_witness :
  last (Delta.outStream (fst (Delta.DeltaCreate deltaDaemon "app:v1" "app:v2" 0)))
  = Some (Delta.StatusCreated
            "sha256:image:json:sha256:empty+sha256:delta:tar:sha256:base+sha256:lib2").
Proof.
  eassert (Hrun : Delta.DeltaCreate deltaDaemon "app:v1" "app:v2" 0 = (_, None)).
  { vm_compute. reflexivity. }
  destruct (DeltaCreate_image_config deltaDaemon "app:v1" "app:v2" 0 _ Hrun)
    as (srcImg & dstImg & rawConfig & id & _ & _ & _ & _ & Hlast).
  vm_compute. reflexivity.
Defined.

Lemma layersFrom_empty_source_witness :
  match Delta.layersFrom wholeStoreDaemon "linux" "signature" []
          ["sha256:base"; "sha256:lib2"] 0
          ["sha256:base"; "sha256:lib2"] (Delta.mkAcc [] 0 0) (Delta.initialState 0) with
  | (s', Ok acc) =>
      Delta.gotChains (Delta.calls s') = ["sha256:base"; "sha256:base+sha256:lib2"]
  | (_, Fail _) => False
  end.
Proof.
  eassert (Hrun : Delta.layersFrom wholeStoreDaemon "linux" "signature" []
                    ["sha256:base"; "sha256:lib2"] 0
                    ["sha256:base"; "sha256:lib2"] (Delta.mkAcc [] 0 0)
                    (Delta.initialState 0)
                  = (_, Ok _)).
  { vm_compute. reflexivity. }
  destruct (layersFrom_empty_source wholeStoreDaemon _ _ _ _ _ _ Hrun)
    as (new & Hcalls & _ & Hchains & _).
  rewrite Hrun. rewrite Hcalls. exact Hchains.
Defined.

(** A volume without a name gets the generated identifier, and a driver
    that is refused leaves the world as it was. *)
Example VolumeCreate_examples :
  Volume.VolumeCreate volumeDaemon "" "local" [] [] ([], [])
  = ((["generated-id"], ["create generated-id"]),
     Ok (Volume.mkAPIVolume "generated-id" "local" "/volumes/generated-id"))
  /\ Volume.VolumeCreate volumeDaemon "data" "none" [] [] ([], [])
     = (([], []), Fail (Errorf "no such driver")).
Proof. split; reflexivity. Qed.

End ExtraExamples.
